(** * MU-MIMO beamforming-training trace handlers

    A shallow embedding of the callbacks of
    [src/evaluate_11ay_mu_mimo.cc] and the properties of the
    measurement reduction, the phase sequencing and the trace writers
    that the specification states about them.

    Conventions.
    - C++ fixed-width unsigned integers are [Z] values with the
      wrap-around written out ([u8], [u16], [u32], [to_size_t]).
    - [double] values holding linear power ratios are an abstract type
      [ratio] with the comparison [ratio_ltb] standing for [operator<];
      the result type of [RatioToDb] is a second abstract type [dB]
      (both are one type where the place of the conversion is at stake).
    - A handler that may throw ([std::vector::at]), dereference [end ()]
      or spin forever returns an [outcome]; loops whose counter is a
      [uint8_t] take fuel, and non-termination shows as [Timeout] for
      every amount of fuel.
    - Console output ([std::cout]) is not modelled; CSV trace files are
      modelled as their header fields followed by their data rows.
    - An exception no handler catches ends the program through
      [std::terminate], which flushes no stream: what a handler had written
      before it threw is not part of its outcome. *)

From Stdlib Require Import String ZArith List Bool Lia Sorted Permutation.
Import ListNotations.
Open Scope Z_scope.

(** ** Machine integers *)

Definition u8 (x : Z) : Z := x mod 256.
Definition u16 (x : Z) : Z := x mod 65536.
Definition u32 (x : Z) : Z := x mod 4294967296.
Definition u64 (x : Z) : Z := x mod 18446744073709551616.
(** Conversion of an [int] to [std::size_t] (64 bits). *)
Definition to_size_t (x : Z) : Z := x mod 18446744073709551616.

Definition is_u8 (x : Z) : Prop := 0 <= x < 256.
Definition is_u16 (x : Z) : Prop := 0 <= x < 65536.

(** ** Outcomes of a handler *)

Inductive outcome (A : Type) : Type :=
| Done (a : A)     (* the code ran to its end *)
| OutOfRange       (* [std::out_of_range] thrown by [at], never caught *)
| Undefined        (* an [end ()] iterator was dereferenced *)
| Timeout.         (* the fuel ran out *)

Arguments Done {A} a.
Arguments OutOfRange {A}.
Arguments Undefined {A}.
Arguments Timeout {A}.

Definition bind {A B : Type} (m : outcome A) (k : A -> outcome B) : outcome B :=
  match m with
  | Done a => k a
  | OutOfRange => OutOfRange
  | Undefined => Undefined
  | Timeout => Timeout
  end.

Notation "x <- m ;; k" := (bind m (fun x => k))
  (at level 61, m at next level, right associativity).

Definition omap {A B : Type} (f : A -> B) (m : outcome A) : outcome B :=
  x <- m ;; Done (f x).

(** [v.at (n)] for a [std::size_t] index [n]. *)
Definition vec_at {A : Type} (v : list A) (n : Z) : outcome A :=
  if (0 <=? n) && (n <? Z.of_nat (length v)) then
    match nth_error v (Z.to_nat n) with
    | Some a => Done a
    | None => OutOfRange
    end
  else OutOfRange.

(** [for (uint8_t i = start; cond (i); i++) body (i)] over a loop state. *)
Fixpoint for_u8 {S : Type} (fuel : nat) (cond : Z -> bool)
    (body : Z -> S -> outcome S) (i : Z) (s : S) : outcome S :=
  match fuel with
  | O => Timeout
  | Datatypes.S fuel' =>
      if cond i then
        s' <- body i s ;; for_u8 fuel' cond body (u8 (i + 1)) s'
      else Done s
  end.

(** Monadic left fold: the loop body run once per element of [l]. *)
Fixpoint ofold {S I : Type} (body : I -> S -> outcome S) (l : list I) (s : S)
    : outcome S :=
  match l with
  | [] => Done s
  | i :: l' => s' <- body i s ;; ofold body l' s'
  end.

(** The integers [start, start + 1, ..., start + n - 1]. *)
Fixpoint zseq (start : Z) (n : nat) : list Z :=
  match n with
  | O => []
  | Datatypes.S n' => start :: zseq (start + 1) n'
  end.

(** ** Types of the MAC layer the handlers receive

    The declarations live in headers outside [src/]; the fields below are
    the ones the handlers read. *)

Definition Mac48Address := Z.
Definition AntennaID := Z.   (* uint8_t *)
Definition SectorID := Z.    (* uint8_t *)
Definition AWV_ID := Z.      (* uint8_t *)
Definition ANTENNA_CONFIGURATION := (AntennaID * SectorID)%type.
Definition AWV_CONFIGURATION := (ANTENNA_CONFIGURATION * AWV_ID)%type.
Definition MIMO_AWV_CONFIGURATION := list AWV_CONFIGURATION.

(** [std::map<RX_ANTENNA_ID, uint16_t>], as its entries in iteration
    (ascending key) order. *)
Definition RX_AWV_IDs := list (Z * Z).
(** [std::pair<uint16_t, std::map<RX_ANTENNA_ID, uint16_t>>]. *)
Definition MEASUREMENT_AWV_IDs := (Z * RX_AWV_IDs)%type.

(** [std::map<AntennaID, SectorIDList>] in iteration order. *)
Definition Antenna2SectorList := list (AntennaID * list SectorID).

Inductive ChannelAccessPeriod :=
| CHANNEL_ACCESS_BTI
| CHANNEL_ACCESS_ABFT
| CHANNEL_ACCESS_ATI
| CHANNEL_ACCESS_BHI
| CHANNEL_ACCESS_DTI.

Record SlsCompletionAttrbitutes := {
  peerStation : Mac48Address;
  accessPeriod : ChannelAccessPeriod;
  sectorID : SectorID;
  antennaID : AntennaID
}.

Section Handlers.

(** Linear power ratios ([double]) and their [operator<]. *)
Variable ratio : Type.
Variable ratio_ltb : ratio -> ratio -> bool.
(** The value [RatioToDb] returns, as it is written to a trace. *)
Variable dB : Type.
Variable RatioToDb : ratio -> dB.
(** The first component of an element of [MIMO_SNR_LIST]; never read. *)
Variable snr_tag : Type.
(** [MIMO_ANTENNA_COMBINATIONS_LIST], opaque to the handlers. *)
Variable MIMO_ANTENNA_COMBINATIONS_LIST : Type.

(** [MIMO_FEEDBACK_MAP]: keys are tuples read with [std::get<0..2>]. *)
Definition MIMO_FEEDBACK_MAP := list ((Z * Z * Z) * ratio).
(** [MU_MIMO_SNR_MAP]: keys are tuples read with [std::get<0..1>]. *)
Definition MU_MIMO_SNR_MAP := list ((Z * Z) * ratio).
(** [MIMO_SNR_LIST]: each element's [second] is a vector of ratios. *)
Definition MIMO_SNR_LIST := list (snr_tag * list ratio).

(** The queries a [DmgWifiMac] (and its codebook) answers. *)
Record DmgWifiMac := {
  GetAddress : Mac48Address;
  GetTypeOfStation : Z;
  FindKBestCombinations :
    Z -> Z -> Z -> MIMO_FEEDBACK_MAP -> MIMO_ANTENNA_COMBINATIONS_LIST;
  GetAntennaConfigurationShortSSW : Z -> ANTENNA_CONFIGURATION;
  GetMimoConfigFromRxAwvId : RX_AWV_IDs -> Mac48Address -> MIMO_AWV_CONFIGURATION;
  GetMimoConfigFromTxAwvId : Z -> Mac48Address -> MIMO_AWV_CONFIGURATION
}.

Record SLS_PARAMETERS := {
  sls_srcNodeID : Z;
  sls_dstNodeID : Z;
  wifiMac : DmgWifiMac
}.

Record MIMO_PARAMETERS := {
  srcNodeID : Z;
  dstNodeID : Z;
  srcWifiMac : DmgWifiMac;
  dstWifiMac : DmgWifiMac
}.

(** State-changing requests a handler makes to the MAC layer, the
    codebook or the scheduler, in the order they are made. *)
Inductive ext_call :=
| CallPrintSnrTable (mac : Mac48Address)
| CallSendBrpFbckFrame (mac : Mac48Address) (from : Mac48Address) (useAwvs : bool)
| CallFindKBestCombinations (mac : Mac48Address) (k nTx nRx : Z)
    (feedbackMap : MIMO_FEEDBACK_MAP)
| CallAppendAwvsForSuMimoBFT_27 (mac : Mac48Address)
| CallStartMuMimoMimoPhase (mac : Mac48Address)
    (candidates : MIMO_ANTENNA_COMBINATIONS_LIST) (useAwvs : bool)
| CallPerform_TXSS_TXOP (mac : Mac48Address)
| CallSchedule_StartMuMimoBeamforming (mac : Mac48Address) (microSeconds : Z)
    (isInitiatorTxss : bool) (groupID : Z).

(** One data line of [slsResults]. *)
Record sls_row := {
  sls_src : Z; sls_trace : Z; sls_sector : Z; sls_antenna : Z;
  sls_role : Z; sls_bss : Z; sls_time : Z
}.

(** The file-scope variables of the program and the effects it has had. *)
Record world := {
  csv : bool;
  beamformedLinks : Z;            (* uint8_t *)
  firstDti1 : bool;
  firstDti2 : bool;
  muMimoCompleted : bool;
  kBestCombinations : Z;          (* uint32_t *)
  macTxDataFailed : Z;            (* uint64_t *)
  transmittedPackets : Z;
  droppedPackets : Z;
  receivedPackets : Z;
  apNodeId : Z;                   (* apWifiNetDevice->GetNode ()->GetId () *)
  slsStream : list sls_row;
  calls : list ext_call
}.

(** The file-scope initialisers, with the two values the command line
    can change before the simulation runs. *)
Definition initial_world (csvFlag : bool) (k : Z) (ap : Z) : world :=
  {| csv := csvFlag; beamformedLinks := 0; firstDti1 := true; firstDti2 := true;
     muMimoCompleted := false; kBestCombinations := k;
     macTxDataFailed := 0; transmittedPackets := 0; droppedPackets := 0;
     receivedPackets := 0; apNodeId := ap; slsStream := []; calls := [] |}.

Definition set_beamformedLinks (w : world) (v : Z) : world :=
  {| csv := csv w; beamformedLinks := v; firstDti1 := firstDti1 w;
     firstDti2 := firstDti2 w; muMimoCompleted := muMimoCompleted w;
     kBestCombinations := kBestCombinations w;
     macTxDataFailed := macTxDataFailed w;
     transmittedPackets := transmittedPackets w;
     droppedPackets := droppedPackets w; receivedPackets := receivedPackets w;
     apNodeId := apNodeId w; slsStream := slsStream w; calls := calls w |}.

Definition set_firstDti (w : world) (d1 d2 : bool) : world :=
  {| csv := csv w; beamformedLinks := beamformedLinks w; firstDti1 := d1;
     firstDti2 := d2; muMimoCompleted := muMimoCompleted w;
     kBestCombinations := kBestCombinations w;
     macTxDataFailed := macTxDataFailed w;
     transmittedPackets := transmittedPackets w;
     droppedPackets := droppedPackets w; receivedPackets := receivedPackets w;
     apNodeId := apNodeId w; slsStream := slsStream w; calls := calls w |}.

Definition set_muMimoCompleted (w : world) (b : bool) : world :=
  {| csv := csv w; beamformedLinks := beamformedLinks w;
     firstDti1 := firstDti1 w; firstDti2 := firstDti2 w; muMimoCompleted := b;
     kBestCombinations := kBestCombinations w;
     macTxDataFailed := macTxDataFailed w;
     transmittedPackets := transmittedPackets w;
     droppedPackets := droppedPackets w; receivedPackets := receivedPackets w;
     apNodeId := apNodeId w; slsStream := slsStream w; calls := calls w |}.

Definition set_counters (w : world) (f t d r : Z) : world :=
  {| csv := csv w; beamformedLinks := beamformedLinks w;
     firstDti1 := firstDti1 w; firstDti2 := firstDti2 w;
     muMimoCompleted := muMimoCompleted w;
     kBestCombinations := kBestCombinations w;
     macTxDataFailed := f; transmittedPackets := t;
     droppedPackets := d; receivedPackets := r;
     apNodeId := apNodeId w; slsStream := slsStream w; calls := calls w |}.

Definition write_sls (w : world) (r : sls_row) : world :=
  {| csv := csv w; beamformedLinks := beamformedLinks w;
     firstDti1 := firstDti1 w; firstDti2 := firstDti2 w;
     muMimoCompleted := muMimoCompleted w;
     kBestCombinations := kBestCombinations w;
     macTxDataFailed := macTxDataFailed w;
     transmittedPackets := transmittedPackets w;
     droppedPackets := droppedPackets w; receivedPackets := receivedPackets w;
     apNodeId := apNodeId w; slsStream := slsStream w ++ [r]; calls := calls w |}.

Definition call (w : world) (c : ext_call) : world :=
  {| csv := csv w; beamformedLinks := beamformedLinks w;
     firstDti1 := firstDti1 w; firstDti2 := firstDti2 w;
     muMimoCompleted := muMimoCompleted w;
     kBestCombinations := kBestCombinations w;
     macTxDataFailed := macTxDataFailed w;
     transmittedPackets := transmittedPackets w;
     droppedPackets := droppedPackets w; receivedPackets := receivedPackets w;
     apNodeId := apNodeId w; slsStream := slsStream w; calls := calls w ++ [c] |}.

(** What the simulator answers while one handler runs. *)
Record sim_env := {
  GetCurrentTraceIndex : Z;     (* qdPropagationEngine->GetCurrentTraceIndex () *)
  NowNanoSeconds : Z            (* Simulator::Now ().GetNanoSeconds () *)
}.

(** ** The short handlers *)

Definition SLSCompleted (env : sim_env) (parameters : SLS_PARAMETERS)
    (attributes : SlsCompletionAttrbitutes) (w : world) : world :=
  let w1 := write_sls w
    {| sls_src := u32 (sls_srcNodeID parameters + 1);
       sls_trace := GetCurrentTraceIndex env;
       sls_sector := u16 (sectorID attributes);
       sls_antenna := u16 (antennaID attributes);
       sls_role := GetTypeOfStation (wifiMac parameters);
       sls_bss := u32 (apNodeId w + 1);
       sls_time := NowNanoSeconds env |} in
  if negb (csv w1) then
    let w2 := call w1 (CallPrintSnrTable (GetAddress (wifiMac parameters))) in
    match accessPeriod attributes with
    | CHANNEL_ACCESS_DTI => set_beamformedLinks w2 (u8 (beamformedLinks w2 + 1))
    | _ => w2
    end
  else w1.

Definition MacTxDataFailed (w : world) : world :=
  set_counters w (u64 (macTxDataFailed w + 1)) (transmittedPackets w)
    (droppedPackets w) (receivedPackets w).

Definition PhyTxEnd (w : world) : world :=
  set_counters w (macTxDataFailed w) (u64 (transmittedPackets w + 1))
    (droppedPackets w) (receivedPackets w).

Definition PhyRxDrop (w : world) : world :=
  set_counters w (macTxDataFailed w) (transmittedPackets w)
    (u64 (droppedPackets w + 1)) (receivedPackets w).

Definition PhyRxEnd (w : world) : world :=
  set_counters w (macTxDataFailed w) (transmittedPackets w)
    (droppedPackets w) (u64 (receivedPackets w + 1)).

Definition MuMimoSisoFbckPolled (parameters : SLS_PARAMETERS)
    (from : Mac48Address) (w : world) : world :=
  let useAwvsInMimoPhase := false in
  call w (CallSendBrpFbckFrame (GetAddress (wifiMac parameters)) from
            useAwvsInMimoPhase).

Definition MuMimoMimoPhaseComplete (w : world) : world :=
  set_muMimoCompleted w true.

Definition DataTransmissionIntervalStarted (mac : DmgWifiMac)
    (isAssociated : bool) (w : world) : world :=
  if isAssociated && firstDti1 w then
    let w1 := call w (CallPerform_TXSS_TXOP (GetAddress mac)) in
    let w2 := call w1 (CallAppendAwvsForSuMimoBFT_27 (GetAddress mac)) in
    set_firstDti w2 false (firstDti2 w2)
  else if isAssociated && firstDti2 w then
    let w1 := call w (CallPerform_TXSS_TXOP (GetAddress mac)) in
    let w2 := call w1 (CallAppendAwvsForSuMimoBFT_27 (GetAddress mac)) in
    set_firstDti w2 (firstDti1 w2) false
  else w.

(** [groupTuples] holds the [groupID] of each tuple of the AP's EDMG
    group set; [groupTuples.begin ()] of an empty list is [end ()]. *)
Definition DataTransmissionIntervalStartedAp (mac : DmgWifiMac)
    (groupTuples : list Z) (w : world) : outcome world :=
  if (beamformedLinks w =? 4) && negb (muMimoCompleted w) then
    match groupTuples with
    | [] => Undefined
    | groupID :: _ =>
        Done (call w (CallSchedule_StartMuMimoBeamforming (GetAddress mac) 1
                        true groupID))
    end
  else Done w.

(** ** SISO phase handlers *)

(** One data line of the SISO traces: the three leading identifiers,
    three 16-bit fields, the SNR in dB and the time stamp. *)
Record siso_row := {
  siso_src : Z; siso_dst : Z; siso_trace : Z;
  siso_f1 : Z; siso_f2 : Z; siso_f3 : Z;
  siso_snr : dB; siso_time : Z
}.

Definition MuMimoSisoPhaseMeasurements (env : sim_env)
    (parameters : MIMO_PARAMETERS) (from : Mac48Address)
    (measurementsMap : MU_MIMO_SNR_MAP) : list siso_row :=
  map (fun it =>
         let antennaConfig :=
           GetAntennaConfigurationShortSSW (dstWifiMac parameters) (fst (fst it)) in
         {| siso_src := u32 (srcNodeID parameters + 1);
            siso_dst := u32 (dstNodeID parameters + 1);
            siso_trace := GetCurrentTraceIndex env;
            siso_f1 := u16 (snd (fst it));
            siso_f2 := u16 (fst antennaConfig);
            siso_f3 := u16 (snd antennaConfig);
            siso_snr := RatioToDb (snd it);
            siso_time := NowNanoSeconds env |})
      measurementsMap.

Definition siso_result_row (env : sim_env) (parameters : SLS_PARAMETERS)
    (it : (Z * Z * Z) * ratio) : siso_row :=
  match fst it with
  | (g0, g1, g2) =>
      {| siso_src := u32 (sls_srcNodeID parameters + 1);
         siso_dst := u32 (sls_dstNodeID parameters + 1);
         siso_trace := GetCurrentTraceIndex env;
         siso_f1 := u16 g1;
         siso_f2 := u16 g0;
         siso_f3 := u16 g2;
         siso_snr := RatioToDb (snd it);
         siso_time := NowNanoSeconds env |}
  end.

(** Returns the data lines of [MuMimoSisoPhaseResults_<n>.csv] and the
    world after the three requests to the MAC layer. *)
Definition MuMimoSisoPhaseComplete (env : sim_env) (parameters : SLS_PARAMETERS)
    (feedbackMap : MIMO_FEEDBACK_MAP) (numberOfTxAntennas numberOfRxAntennas : Z)
    (w : world) : list siso_row * world :=
  let outputSisoPhase := map (siso_result_row env parameters) feedbackMap in
  let mac := wifiMac parameters in
  let mimoCandidates :=
    FindKBestCombinations mac (kBestCombinations w) numberOfTxAntennas
      numberOfRxAntennas feedbackMap in
  let w1 := call w (CallFindKBestCombinations (GetAddress mac)
                      (kBestCombinations w) numberOfTxAntennas
                      numberOfRxAntennas feedbackMap) in
  let w2 := call w1 (CallAppendAwvsForSuMimoBFT_27 (GetAddress mac)) in
  let useAwvsInMimoPhase := false in
  (outputSisoPhase,
   call w2 (CallStartMuMimoMimoPhase (GetAddress mac) mimoCandidates
              useAwvsInMimoPhase)).

(** ** The MIMO candidates trace *)

(** A field of a header line: a fixed name, or a name followed by a
    number printed as [uint16_t]. *)
Inductive header_field :=
| HName (name : string)
| HIndexed (name : string) (i : Z).

(** One data line of [MuMimoMimoTxCandidates_<n>.csv]: per antenna of the
    map, its identifier and the sector at the line's position. *)
Record candidate_row := {
  cand_src : Z; cand_dst : Z; cand_trace : Z;
  cand_cells : list (Z * Z)
}.

Definition candidates_header (fuel : nat) (numberOfAntennas : Z)
    : outcome (list header_field) :=
  for_u8 fuel (fun i => i <=? numberOfAntennas)
    (fun i h => Done (h ++ [HIndexed "ANTENNA_ID" (u16 i);
                            HIndexed "SECTOR_ID" (u16 i)]))
    1 [HName "SRC_ID"; HName "DST_ID"; HName "TRACE_IDX"].

(** The inner loop over the map at position [i]. *)
Definition candidate_cells (txCandidates : Antenna2SectorList) (i : Z)
    : outcome (list (Z * Z)) :=
  ofold (fun it cells =>
           s <- vec_at (snd it) i ;;
           Done (cells ++ [(u16 (fst it), u16 s)]))
    txCandidates [].

Definition MuMimoMimoCandidatesSelected (fuel : nat) (env : sim_env)
    (parameters : SLS_PARAMETERS) (muGroupId : Z)
    (txCandidates : Antenna2SectorList)
    : outcome (list header_field * list candidate_row) :=
  let numberOfAntennas := u8 (Z.of_nat (length txCandidates)) in
  header <- candidates_header fuel numberOfAntennas ;;
  match txCandidates with
  | [] => Undefined                     (* txCandidates.begin ()->second *)
  | first :: _ =>
      let numberOfCandidates := u8 (Z.of_nat (length (snd first))) in
      rows <- for_u8 fuel (fun i => i <? numberOfCandidates)
                (fun i rows =>
                   cells <- candidate_cells txCandidates i ;;
                   Done (rows ++
                         [{| cand_src := u32 (sls_srcNodeID parameters + 1);
                             cand_dst := u32 (sls_dstNodeID parameters + 1);
                             cand_trace := GetCurrentTraceIndex env;
                             cand_cells := cells |}]))
                0 [] ;;
      Done (header, rows)
  end.

(** ** The priority queue of MIMO measurements *)

(** An element of the queue: the minimum per-stream ratio of a pair of
    combinations and the identifiers of the pair. *)
Definition SNR_MEASUREMENT_AWV_IDs := (ratio * MEASUREMENT_AWV_IDs)%type.

Definition min_snr (e : SNR_MEASUREMENT_AWV_IDs) : ratio := fst e.
Definition tx_id (e : SNR_MEASUREMENT_AWV_IDs) : Z := fst (snd e).
Definition rx_ids (e : SNR_MEASUREMENT_AWV_IDs) : RX_AWV_IDs := snd (snd e).

(** [operator<] of [std::pair] over two integers. *)
Definition pair_ltb (x y : Z * Z) : bool :=
  (fst x <? fst y) || (negb (fst y <? fst x) && (snd x <? snd y)).

(** [operator<] of [std::map]: [std::lexicographical_compare]. *)
Fixpoint lexicographical_compare (a b : list (Z * Z)) : bool :=
  match a, b with
  | x :: a', y :: b' =>
      if pair_ltb x y then true
      else if pair_ltb y x then false
      else lexicographical_compare a' b'
  | [], _ :: _ => true
  | _, [] => false
  end.

Definition awv_ids_ltb (x y : MEASUREMENT_AWV_IDs) : bool :=
  (fst x <? fst y)
  || (negb (fst y <? fst x) && lexicographical_compare (snd x) (snd y)).

(** Modelled from the spec: the typedef [SNR_MEASUREMENT_AWV_IDs_QUEUE] is
    declared in a header outside [src/]; the spec describes it as a
    priority structure keyed by minQuality, max-first.  It is taken to be
    [std::priority_queue] with its default comparison, [std::less] of the
    pair, which orders by the ratio first and by the identifiers among
    equal ratios. *)
Definition entry_ltb (x y : SNR_MEASUREMENT_AWV_IDs) : bool :=
  ratio_ltb (fst x) (fst y)
  || (negb (ratio_ltb (fst y) (fst x)) && awv_ids_ltb (snd x) (snd y)).

Definition SNR_MEASUREMENT_AWV_IDs_QUEUE := list SNR_MEASUREMENT_AWV_IDs.

(** Scans the stored elements for a greatest one, starting from [best];
    returns it and the other elements. *)
Fixpoint extract_max (best : SNR_MEASUREMENT_AWV_IDs)
    (q : list SNR_MEASUREMENT_AWV_IDs)
    : SNR_MEASUREMENT_AWV_IDs * list SNR_MEASUREMENT_AWV_IDs :=
  match q with
  | [] => (best, [])
  | x :: q' =>
      if entry_ltb best x then
        let (m, r) := extract_max x q' in (m, best :: r)
      else
        let (m, r) := extract_max best q' in (m, x :: r)
  end.

(** [q.top ()], [None] when [q.empty ()]. *)
Definition pq_top (q : SNR_MEASUREMENT_AWV_IDs_QUEUE)
    : option SNR_MEASUREMENT_AWV_IDs :=
  match q with
  | [] => None
  | x :: q' => Some (fst (extract_max x q'))
  end.

(** [q.pop ()]. *)
Definition pq_pop (q : SNR_MEASUREMENT_AWV_IDs_QUEUE)
    : SNR_MEASUREMENT_AWV_IDs_QUEUE :=
  match q with
  | [] => []
  | x :: q' => snd (extract_max x q')
  end.

(** The elements in the order repeated [top]/[pop] yields them; [n]
    bounds the number of pops. *)
Fixpoint pq_drain_n (n : nat) (q : SNR_MEASUREMENT_AWV_IDs_QUEUE)
    : list SNR_MEASUREMENT_AWV_IDs :=
  match n with
  | O => []
  | Datatypes.S n' =>
      match pq_top q with
      | None => []
      | Some e => e :: pq_drain_n n' (pq_pop q)
      end
  end.

Definition pq_drain (q : SNR_MEASUREMENT_AWV_IDs_QUEUE)
    : list SNR_MEASUREMENT_AWV_IDs :=
  pq_drain_n (length q) q.

(** ** The MIMO phase measurements trace *)

(** One data line of the MIMO phase traces. *)
Record mimo_row := {
  row_src : Z; row_dst : Z; row_trace : Z;
  row_tx : list (Z * Z * Z);       (* antenna, sector, AWV per TX antenna *)
  row_rx : list (Z * Z * Z);       (* antenna, sector, AWV per RX antenna *)
  row_snr : list dB;               (* the per-stream SNR columns *)
  row_min : dB                     (* the min_Stream_SNR column *)
}.

Definition mimo_stream := (list header_field * list mimo_row)%type.

Definition indexed3 (a b c : string) (i : Z) : list header_field :=
  [HIndexed a (u16 i); HIndexed b (u16 i); HIndexed c (u16 i)].

Definition mimo_header (fuel : nat) (nTxAntennas nRxAntennas : Z)
    : outcome (list header_field) :=
  h1 <- for_u8 fuel (fun i => i <=? nTxAntennas)
          (fun i h => Done (h ++ indexed3 "TX_ANTENNA_ID" "TX_SECTOR_ID"
                                   "TX_AWV_ID" i))
          1 [HName "SRC_ID"; HName "DST_ID"; HName "TRACE_IDX"] ;;
  h2 <- for_u8 fuel (fun i => i <=? nRxAntennas)
          (fun i h => Done (h ++ indexed3 "RX_ANTENNA_ID" "RX_SECTOR_ID"
                                   "RX_AWV_ID" i))
          1 h1 ;;
  h3 <- for_u8 fuel (fun i => i <? nRxAntennas * nTxAntennas)
          (fun _ h => Done (h ++ [HName "SNR"]))
          0 h2 ;;
  Done (h3 ++ [HName "min_Stream_SNR"]).

(** The index into the flat sweep, computed in [int]. *)
Definition sweep_index (txId rxCombinationsTested rxId : Z) : Z :=
  (txId - 1) * rxCombinationsTested + rxId - 1.

(** The loop over [awvId.second] that fills [measurements]. *)
Definition fetch_measurements (mimoMeasurements : MIMO_SNR_LIST)
    (txId rxCombinationsTested : Z) (rxIds : RX_AWV_IDs)
    : outcome MIMO_SNR_LIST :=
  ofold (fun rxId measurements =>
           m <- vec_at mimoMeasurements
                  (to_size_t (sweep_index txId rxCombinationsTested (snd rxId))) ;;
           Done (measurements ++ [m]))
    rxIds [].

(** The three fields written per antenna of a combination. *)
Definition config_cells (fuel : nat) (n : Z) (combination : MIMO_AWV_CONFIGURATION)
    : outcome (list (Z * Z * Z)) :=
  for_u8 fuel (fun i => i <? n)
    (fun i cells =>
       c <- vec_at combination i ;;
       Done (cells ++ [(u16 (fst (fst c)), u16 (snd (fst c)), u16 (snd c))]))
    0 [].

(** The nested loops over the streams; the state is [snrIndex] and the
    SNR columns written so far. *)
Definition snr_cells (fuel : nat) (nTxAntennas nRxAntennas : Z)
    (measurements : MIMO_SNR_LIST) : outcome (Z * list dB) :=
  for_u8 fuel (fun i => i <? nTxAntennas)
    (fun _ st =>
       for_u8 fuel (fun j => j <? nRxAntennas)
         (fun j st =>
            m <- vec_at measurements j ;;
            v <- vec_at (snd m) (fst st) ;;
            Done (u8 (fst st + 1), snd st ++ [RatioToDb v]))
         0 st)
    0 (0, []).

(** One data line, as either stream receives it. *)
Definition write_row (fuel : nat) (env : sim_env) (parameters : MIMO_PARAMETERS)
    (nTxAntennas nRxAntennas : Z)
    (txCombination rxCombination : MIMO_AWV_CONFIGURATION)
    (measurements : MIMO_SNR_LIST) (minSnr : ratio) : outcome mimo_row :=
  tx <- config_cells fuel nTxAntennas txCombination ;;
  rx <- config_cells fuel nRxAntennas rxCombination ;;
  snr <- snr_cells fuel nTxAntennas nRxAntennas measurements ;;
  Done {| row_src := u32 (srcNodeID parameters + 1);
          row_dst := u32 (dstNodeID parameters + 1);
          row_trace := GetCurrentTraceIndex env;
          row_tx := tx; row_rx := rx; row_snr := snd snr;
          row_min := RatioToDb minSnr |}.

(** The state of the [while] loop: [txIds] and the data lines of the
    full and of the reduced trace. *)
Definition drain_state := (list Z * list mimo_row * list mimo_row)%type.

(** The body of the [while] loop for the element [top] at the head of
    the queue. *)
Definition drain_step (fuel : nat) (env : sim_env)
    (parameters : MIMO_PARAMETERS) (from : Mac48Address)
    (mimoMeasurements : MIMO_SNR_LIST) (differentRxConfigs : bool)
    (nTxAntennas nRxAntennas rxCombinationsTested : Z)
    (top : SNR_MEASUREMENT_AWV_IDs) (st : drain_state) : outcome drain_state :=
  let '(txIds, outputMimoPhase, outputMimoPhaseR) := st in
  let awvId := snd top in
  let rxCombination :=
    GetMimoConfigFromRxAwvId (srcWifiMac parameters) (snd awvId) from in
  let txCombination :=
    GetMimoConfigFromTxAwvId (dstWifiMac parameters) (fst awvId)
      (GetAddress (dstWifiMac parameters)) in
  let txId := fst awvId in
  measurements <- fetch_measurements mimoMeasurements txId
                    rxCombinationsTested (snd awvId) ;;
  row <- write_row fuel env parameters nTxAntennas nRxAntennas
           txCombination rxCombination measurements (fst top) ;;
  if differentRxConfigs || negb (existsb (Z.eqb (fst awvId)) txIds) then
    rowR <- write_row fuel env parameters nTxAntennas nRxAntennas
              txCombination rxCombination measurements (fst top) ;;
    Done (txIds ++ [fst awvId], outputMimoPhase ++ [row],
          outputMimoPhaseR ++ [rowR])
  else
    Done (txIds, outputMimoPhase ++ [row], outputMimoPhaseR).

(** [while (!minSnr.empty ()) { ...; minSnr.pop (); }]; [n] bounds the
    number of iterations. *)
Fixpoint drain_loop (n : nat) (fuel : nat) (env : sim_env)
    (parameters : MIMO_PARAMETERS) (from : Mac48Address)
    (mimoMeasurements : MIMO_SNR_LIST) (differentRxConfigs : bool)
    (nTxAntennas nRxAntennas rxCombinationsTested : Z)
    (minSnr : SNR_MEASUREMENT_AWV_IDs_QUEUE) (st : drain_state)
    : outcome drain_state :=
  match pq_top minSnr with
  | None => Done st
  | Some top =>
      match n with
      | O => Timeout
      | Datatypes.S n' =>
          st' <- drain_step fuel env parameters from mimoMeasurements
                   differentRxConfigs nTxAntennas nRxAntennas
                   rxCombinationsTested top st ;;
          drain_loop n' fuel env parameters from mimoMeasurements
            differentRxConfigs nTxAntennas nRxAntennas rxCombinationsTested
            (pq_pop minSnr) st'
      end
  end.

(** Returns the full and the reduced trace. *)
Definition MuMimoMimoPhaseMeasurements (fuel : nat) (env : sim_env)
    (parameters : MIMO_PARAMETERS) (from : Mac48Address)
    (mimoMeasurements : MIMO_SNR_LIST) (minSnr : SNR_MEASUREMENT_AWV_IDs_QUEUE)
    (differentRxConfigs : bool)
    (nTxAntennas nRxAntennas rxCombinationsTested : Z)
    : outcome (mimo_stream * mimo_stream) :=
  header <- mimo_header fuel nTxAntennas nRxAntennas ;;
  headerR <- mimo_header fuel nTxAntennas nRxAntennas ;;
  st <- drain_loop fuel fuel env parameters from mimoMeasurements
          differentRxConfigs nTxAntennas nRxAntennas rxCombinationsTested
          minSnr ([], [], []) ;;
  let '(_, outputMimoPhase, outputMimoPhaseR) := st in
  Done ((header, outputMimoPhase), (headerR, outputMimoPhaseR)).

(** ** The simulation as a sequence of trace callbacks *)

(** A callback the simulator delivers, with the arguments it passes. *)
Inductive event :=
| EvSLSCompleted (env : sim_env) (parameters : SLS_PARAMETERS)
    (attributes : SlsCompletionAttrbitutes)
| EvMacRxOk
| EvStationAssoicated
| EvMacTxDataFailed
| EvPhyTxEnd
| EvPhyRxDrop
| EvPhyRxEnd
| EvMuMimoSisoFbckPolled (parameters : SLS_PARAMETERS) (from : Mac48Address)
| EvMuMimoSisoPhaseMeasurements (env : sim_env) (parameters : MIMO_PARAMETERS)
    (from : Mac48Address) (measurementsMap : MU_MIMO_SNR_MAP)
| EvMuMimoSisoPhaseComplete (env : sim_env) (parameters : SLS_PARAMETERS)
    (feedbackMap : MIMO_FEEDBACK_MAP) (numberOfTxAntennas numberOfRxAntennas : Z)
| EvMuMimoMimoCandidatesSelected (env : sim_env) (parameters : SLS_PARAMETERS)
    (muGroupId : Z) (txCandidates : Antenna2SectorList)
| EvMuMimoMimoPhaseMeasurements (env : sim_env) (parameters : MIMO_PARAMETERS)
    (from : Mac48Address) (mimoMeasurements : MIMO_SNR_LIST)
    (minSnr : SNR_MEASUREMENT_AWV_IDs_QUEUE) (differentRxConfigs : bool)
    (nTxAntennas nRxAntennas rxCombinationsTested : Z)
| EvMuMimoMimoPhaseComplete
| EvDataTransmissionIntervalStarted (mac : DmgWifiMac) (isAssociated : bool)
| EvDataTransmissionIntervalStartedAp (mac : DmgWifiMac) (groupTuples : list Z).

(** Runs the callback bound to the event.  The callbacks that only write
    a trace leave the world as it is, unless they do not return. *)
Definition dispatch (fuel : nat) (ev : event) (w : world) : outcome world :=
  match ev with
  | EvSLSCompleted env parameters attributes =>
      Done (SLSCompleted env parameters attributes w)
  | EvMacRxOk => Done w
  | EvStationAssoicated => Done w
  | EvMacTxDataFailed => Done (MacTxDataFailed w)
  | EvPhyTxEnd => Done (PhyTxEnd w)
  | EvPhyRxDrop => Done (PhyRxDrop w)
  | EvPhyRxEnd => Done (PhyRxEnd w)
  | EvMuMimoSisoFbckPolled parameters from =>
      Done (MuMimoSisoFbckPolled parameters from w)
  | EvMuMimoSisoPhaseMeasurements _ _ _ _ => Done w
  | EvMuMimoSisoPhaseComplete env parameters feedbackMap nTx nRx =>
      Done (snd (MuMimoSisoPhaseComplete env parameters feedbackMap nTx nRx w))
  | EvMuMimoMimoCandidatesSelected env parameters muGroupId txCandidates =>
      _ <- MuMimoMimoCandidatesSelected fuel env parameters muGroupId
             txCandidates ;;
      Done w
  | EvMuMimoMimoPhaseMeasurements env parameters from mimoMeasurements minSnr
      differentRxConfigs nTx nRx rxCombinationsTested =>
      _ <- MuMimoMimoPhaseMeasurements fuel env parameters from
             mimoMeasurements minSnr differentRxConfigs nTx nRx
             rxCombinationsTested ;;
      Done w
  | EvMuMimoMimoPhaseComplete => Done (MuMimoMimoPhaseComplete w)
  | EvDataTransmissionIntervalStarted mac isAssociated =>
      Done (DataTransmissionIntervalStarted mac isAssociated w)
  | EvDataTransmissionIntervalStartedAp mac groupTuples =>
      DataTransmissionIntervalStartedAp mac groupTuples w
  end.

(** The worlds a simulation can be in after some callbacks returned. *)
Inductive reachable (w0 : world) : world -> Prop :=
| reach_start : reachable w0 w0
| reach_step (w w' : world) (fuel : nat) (ev : event) :
    reachable w0 w -> dispatch fuel ev w = Done w' -> reachable w0 w'.

Definition is_StartMuMimoBeamforming (c : ext_call) : bool :=
  match c with
  | CallSchedule_StartMuMimoBeamforming _ _ _ _ => true
  | _ => false
  end.

Definition is_AppendAwvs (c : ext_call) : bool :=
  match c with
  | CallAppendAwvsForSuMimoBFT_27 _ => true
  | _ => false
  end.

(** The requests a handler added to the world's list. *)
Definition new_calls (w w' : world) : list ext_call :=
  skipn (length (calls w)) (calls w').

(** * Properties *)

(** ** Phase sequencing *)

Lemma skipn_length_app (A : Type) (l r : list A) :
  skipn (length l) (l ++ r) = r.
Proof. induction l as [|a l IH]; simpl; auto. Qed.

Lemma new_calls_three (w : world) (a b c : ext_call) :
  new_calls w (call (call (call w a) b) c) = [a; b; c].
Proof.
  unfold new_calls; simpl.
  rewrite <- !app_assoc. apply skipn_length_app.
Qed.

Lemma siso_complete_calls
    (env : sim_env) (parameters : SLS_PARAMETERS)
    (feedbackMap : MIMO_FEEDBACK_MAP) (nTx nRx : Z) (w : world) :
  new_calls w
    (snd (MuMimoSisoPhaseComplete env parameters feedbackMap nTx nRx w))
  = [CallFindKBestCombinations (GetAddress (wifiMac parameters))
       (kBestCombinations w) nTx nRx feedbackMap;
     CallAppendAwvsForSuMimoBFT_27 (GetAddress (wifiMac parameters));
     CallStartMuMimoMimoPhase (GetAddress (wifiMac parameters))
       (FindKBestCombinations (wifiMac parameters) (kBestCombinations w)
          nTx nRx feedbackMap)
       false].
Proof.
  unfold MuMimoSisoPhaseComplete. cbn [snd]. apply new_calls_three.
Qed.

(** C7 (amended): the AWV append is not guarded by any flag.  On every
    SISO completion the handler appends the AWVs to the codebook and only
    then starts the MIMO phase, and the flag it passes to the start is the
    constant [false]; the feedback-poll handler passes [false] as well. *)
Theorem awv_append_is_unconditional :
  forall (env : sim_env) (parameters : SLS_PARAMETERS)
         (feedbackMap : MIMO_FEEDBACK_MAP) (nTx nRx : Z) (w : world)
         (from : Mac48Address),
    (exists pre candidates,
        new_calls w
          (snd (MuMimoSisoPhaseComplete env parameters feedbackMap nTx nRx w))
        = pre ++ [CallAppendAwvsForSuMimoBFT_27 (GetAddress (wifiMac parameters));
                  CallStartMuMimoMimoPhase (GetAddress (wifiMac parameters))
                    candidates false])
    /\ (forall mac candidates flag,
          In (CallStartMuMimoMimoPhase mac candidates flag)
             (new_calls w
                (snd (MuMimoSisoPhaseComplete env parameters feedbackMap
                        nTx nRx w))) ->
          flag = false)
    /\ new_calls w (MuMimoSisoFbckPolled parameters from w)
       = [CallSendBrpFbckFrame (GetAddress (wifiMac parameters)) from false].
Proof.
  intros. rewrite siso_complete_calls.
  split; [|split].
  - eexists [_], _. reflexivity.
  - intros mac candidates flag [H|[H|[H|[]]]]; congruence.
  - unfold new_calls, MuMimoSisoFbckPolled; simpl. apply skipn_length_app.
Qed.

(** ** CSV mode and the start of the training *)

(** What holds of every world of a run started with [csv] set. *)
Definition csv_invariant (w : world) : Prop :=
  csv w = true /\ beamformedLinks w = 0
  /\ existsb is_StartMuMimoBeamforming (calls w) = false.

Lemma existsb_snoc (A : Type) (f : A -> bool) (l : list A) (a : A) :
  existsb f (l ++ [a]) = existsb f l || f a.
Proof. rewrite existsb_app. simpl. now rewrite orb_false_r. Qed.

Lemma csv_invariant_call (w : world) (c : ext_call) :
  is_StartMuMimoBeamforming c = false ->
  csv_invariant w -> csv_invariant (call w c).
Proof.
  intros Hc (H1 & H2 & H3). unfold csv_invariant; simpl.
  rewrite existsb_snoc, H3, Hc. auto.
Qed.

Lemma bind_Done_inv (A B : Type) (m : outcome A) (k : A -> outcome B) (b : B) :
  bind m k = Done b -> exists a, m = Done a /\ k a = Done b.
Proof. destruct m; simpl; intros H; try discriminate. eauto. Qed.

Lemma csv_invariant_dispatch (fuel : nat) (ev : event) (w w' : world) :
  csv_invariant w -> dispatch fuel ev w = Done w' -> csv_invariant w'.
Proof.
  intros Hinv Hd. destruct ev; simpl in Hd.
  - (* SLSCompleted: the increment is in the branch csv excludes *)
    injection Hd as <-. destruct Hinv as (H1 & H2 & H3).
    unfold SLSCompleted. cbn [csv write_sls]. rewrite H1. cbn [negb].
    unfold csv_invariant; simpl. auto.
  - injection Hd as <-. exact Hinv.
  - injection Hd as <-. exact Hinv.
  - injection Hd as <-. exact Hinv.
  - injection Hd as <-. exact Hinv.
  - injection Hd as <-. exact Hinv.
  - injection Hd as <-. exact Hinv.
  - injection Hd as <-. unfold MuMimoSisoFbckPolled.
    now apply csv_invariant_call.
  - injection Hd as <-. exact Hinv.
  - injection Hd as <-. unfold MuMimoSisoPhaseComplete. cbn [snd].
    repeat (apply csv_invariant_call; [reflexivity|]). exact Hinv.
  - apply bind_Done_inv in Hd as (_ & _ & Hd). now injection Hd as <-.
  - apply bind_Done_inv in Hd as (_ & _ & Hd). now injection Hd as <-.
  - injection Hd as <-. exact Hinv.
  - injection Hd as <-. unfold DataTransmissionIntervalStarted.
    destruct (isAssociated && firstDti1 w);
      [|destruct (isAssociated && firstDti2 w)]; try exact Hinv;
      apply (csv_invariant_call
               (call w (CallPerform_TXSS_TXOP (GetAddress mac)))
               (CallAppendAwvsForSuMimoBFT_27 (GetAddress mac)) eq_refl);
      now apply csv_invariant_call.
  - (* DataTransmissionIntervalStartedAp: beamformedLinks is 0, not 4 *)
    unfold DataTransmissionIntervalStartedAp in Hd.
    destruct Hinv as (H1 & H2 & H3). rewrite H2 in Hd. simpl in Hd.
    injection Hd as <-. unfold csv_invariant; auto.
Qed.

(** C9: in a run started with [csv] set, [SLSCompleted] never increments
    [beamformedLinks]: it is 0 in every world the run reaches, the test
    [beamformedLinks == 4] of the AP's DTI handler never holds, and no
    [StartMuMimoBeamforming] is ever scheduled. *)
Theorem csv_mode_never_starts_mu_mimo :
  forall (k ap : Z) (w : world),
    reachable (initial_world true k ap) w ->
    beamformedLinks w = 0
    /\ (beamformedLinks w =? 4) = false
    /\ existsb is_StartMuMimoBeamforming (calls w) = false.
Proof.
  intros k ap w Hr.
  assert (Hinv : csv_invariant w).
  { induction Hr as [|w w' fuel ev _ IH Hd].
    - unfold csv_invariant; simpl; auto.
    - eapply csv_invariant_dispatch; eauto. }
  destruct Hinv as (_ & H2 & H3). rewrite H2. auto.
Qed.

(** ** Ranking before the MIMO phase *)

Definition is_StartMuMimoMimoPhase (c : ext_call) : bool :=
  match c with
  | CallStartMuMimoMimoPhase _ _ _ => true
  | _ => false
  end.

(** Every start of the MIMO phase in the list comes right after the
    ranking request with the configured [K] and the AWV append, and its
    candidates are what the ranking returned. *)
Definition start_follows_ranking (K : Z) (cs : list ext_call) : Prop :=
  forall pre mac candidates flag post,
    cs = pre ++ CallStartMuMimoMimoPhase mac candidates flag :: post ->
    exists pre' m nTx nRx feedbackMap,
      pre = pre' ++ [CallFindKBestCombinations mac K nTx nRx feedbackMap;
                     CallAppendAwvsForSuMimoBFT_27 mac]
      /\ GetAddress m = mac
      /\ candidates = FindKBestCombinations m K nTx nRx feedbackMap.

Lemma start_follows_ranking_snoc (K : Z) (cs : list ext_call) (x : ext_call) :
  is_StartMuMimoMimoPhase x = false ->
  start_follows_ranking K cs -> start_follows_ranking K (cs ++ [x]).
Proof.
  intros Hx H pre mac candidates flag post E.
  destruct post as [|p post _] using rev_ind.
  - apply app_inj_tail in E as [_ ->]. discriminate.
  - rewrite app_comm_cons, app_assoc in E. apply app_inj_tail in E as [E _].
    exact (H _ _ _ _ _ E).
Qed.

Lemma start_follows_ranking_siso (cs : list ext_call) (m : DmgWifiMac)
    (K nTx nRx : Z) (feedbackMap : MIMO_FEEDBACK_MAP) :
  start_follows_ranking K cs ->
  start_follows_ranking K
    (((cs ++ [CallFindKBestCombinations (GetAddress m) K nTx nRx feedbackMap])
        ++ [CallAppendAwvsForSuMimoBFT_27 (GetAddress m)])
       ++ [CallStartMuMimoMimoPhase (GetAddress m)
             (FindKBestCombinations m K nTx nRx feedbackMap) false]).
Proof.
  intros H pre mac candidates flag post E.
  destruct post as [|p post _] using rev_ind.
  - apply app_inj_tail in E as [<- [= <- <- <-]].
    exists cs, m, nTx, nRx, feedbackMap. rewrite <- app_assoc. auto.
  - rewrite app_comm_cons, app_assoc in E. apply app_inj_tail in E as [E _].
    revert pre mac candidates flag post E.
    repeat (apply start_follows_ranking_snoc; [reflexivity|]). exact H.
Qed.

(** What holds of every world of a run configured with [K]. *)
Definition ranking_invariant (K : Z) (w : world) : Prop :=
  kBestCombinations w = K /\ start_follows_ranking K (calls w).

Lemma ranking_invariant_call (K : Z) (w : world) (c : ext_call) :
  is_StartMuMimoMimoPhase c = false ->
  ranking_invariant K w -> ranking_invariant K (call w c).
Proof.
  intros Hc (H1 & H2). split; [exact H1|].
  now apply start_follows_ranking_snoc.
Qed.

Lemma ranking_invariant_dispatch (K : Z) (fuel : nat) (ev : event)
    (w w' : world) :
  ranking_invariant K w -> dispatch fuel ev w = Done w' ->
  ranking_invariant K w'.
Proof.
  intros Hinv Hd. destruct ev; simpl in Hd.
  - injection Hd as <-. unfold SLSCompleted. cbn [csv write_sls].
    destruct (negb (csv w)); [|exact Hinv].
    assert (H : ranking_invariant K
                  (call (write_sls w
                     {| sls_src := u32 (sls_srcNodeID parameters + 1);
                        sls_trace := GetCurrentTraceIndex env;
                        sls_sector := u16 (sectorID attributes);
                        sls_antenna := u16 (antennaID attributes);
                        sls_role := GetTypeOfStation (wifiMac parameters);
                        sls_bss := u32 (apNodeId w + 1);
                        sls_time := NowNanoSeconds env |})
                     (CallPrintSnrTable (GetAddress (wifiMac parameters))))).
    { apply ranking_invariant_call; [reflexivity|exact Hinv]. }
    destruct (accessPeriod attributes); exact H.
  - injection Hd as <-. exact Hinv.
  - injection Hd as <-. exact Hinv.
  - injection Hd as <-. exact Hinv.
  - injection Hd as <-. exact Hinv.
  - injection Hd as <-. exact Hinv.
  - injection Hd as <-. exact Hinv.
  - injection Hd as <-. unfold MuMimoSisoFbckPolled.
    now apply ranking_invariant_call.
  - injection Hd as <-. exact Hinv.
  - injection Hd as <-. destruct Hinv as (H1 & H2).
    unfold MuMimoSisoPhaseComplete. cbn [snd]. split; [exact H1|].
    cbn [calls call]. rewrite H1. now apply start_follows_ranking_siso.
  - apply bind_Done_inv in Hd as (_ & _ & Hd). now injection Hd as <-.
  - apply bind_Done_inv in Hd as (_ & _ & Hd). now injection Hd as <-.
  - injection Hd as <-. exact Hinv.
  - injection Hd as <-. unfold DataTransmissionIntervalStarted.
    destruct (isAssociated && firstDti1 w);
      [|destruct (isAssociated && firstDti2 w)]; try exact Hinv;
      apply (ranking_invariant_call K
               (call w (CallPerform_TXSS_TXOP (GetAddress mac)))
               (CallAppendAwvsForSuMimoBFT_27 (GetAddress mac)) eq_refl);
      now apply ranking_invariant_call.
  - unfold DataTransmissionIntervalStartedAp in Hd.
    destruct ((beamformedLinks w =? 4) && negb (muMimoCompleted w)).
    + destruct groupTuples as [|groupID rest]; [discriminate|].
      injection Hd as <-. now apply ranking_invariant_call.
    + injection Hd as <-. exact Hinv.
Qed.

(** C8: in every world of a run configured with [K], a SISO completion
    makes three requests, in this order: the ranking
    ([FindKBestCombinations] with [K], the two antenna counts and the
    feedback map it was given), the AWV append, and the start of the MIMO
    phase with exactly the list the ranking returned.  Over the whole run
    no MIMO phase is started without that ranking right before it: every
    start among the requests made follows a ranking request with [K],
    whose result it carries. *)
Theorem siso_complete_ranks_then_starts_mimo :
  forall (csvFlag : bool) (K ap : Z) (w : world),
    reachable (initial_world csvFlag K ap) w ->
    (forall (env : sim_env) (parameters : SLS_PARAMETERS)
            (feedbackMap : MIMO_FEEDBACK_MAP) (nTx nRx : Z),
        new_calls w
          (snd (MuMimoSisoPhaseComplete env parameters feedbackMap nTx nRx w))
        = [CallFindKBestCombinations (GetAddress (wifiMac parameters))
             K nTx nRx feedbackMap;
           CallAppendAwvsForSuMimoBFT_27 (GetAddress (wifiMac parameters));
           CallStartMuMimoMimoPhase (GetAddress (wifiMac parameters))
             (FindKBestCombinations (wifiMac parameters) K nTx nRx feedbackMap)
             false])
    /\ start_follows_ranking K (calls w).
Proof.
  intros csvFlag K ap w Hr.
  assert (Hinv : ranking_invariant K w).
  { induction Hr as [|w w' fuel ev _ IH Hd].
    - split; [reflexivity|]. intros pre mac candidates flag post E.
      destruct pre; discriminate.
    - eapply ranking_invariant_dispatch; eauto. }
  destruct Hinv as (H1 & H2). split; [|exact H2].
  intros. rewrite siso_complete_calls.
  now rewrite H1.
Qed.

(** ** Loops over a [uint8_t] counter *)

Lemma u8_small (x : Z) : 0 <= x < 256 -> u8 x = x.
Proof. intros H. unfold u8. now apply Z.mod_small. Qed.

Lemma u8_range (x : Z) : 0 <= u8 x < 256.
Proof. unfold u8. apply Z.mod_pos_bound. lia. Qed.

Lemma zseq_In (i start : Z) (n : nat) :
  In i (zseq start n) <-> start <= i < start + Z.of_nat n.
Proof.
  revert start. induction n as [|n IH]; intros start; simpl.
  - lia.
  - rewrite IH. lia.
Qed.

Lemma zseq_step (i n : Z) :
  i < n -> zseq i (Z.to_nat (n - i)) = i :: zseq (i + 1) (Z.to_nat (n - (i + 1))).
Proof.
  intros H. replace (Z.to_nat (n - i)) with (Datatypes.S (Z.to_nat (n - (i + 1))))
    by lia. reflexivity.
Qed.

Section ForU8.

Variable S : Type.
Variable cond : Z -> bool.
Variable body : Z -> S -> outcome S.
Variable n : Z.
Hypothesis cond_lt : forall i, cond i = (i <? n).

(** With the bound within the counter's range and enough fuel, the loop
    is the fold of its body over the counter's values. *)
Lemma for_u8_enough (fuel : nat) (i : Z) (s : S) :
  0 <= i <= n -> n <= 255 -> (Z.to_nat (n - i) < fuel)%nat ->
  for_u8 fuel cond body i s = ofold body (zseq i (Z.to_nat (n - i))) s.
Proof.
  revert i s. induction fuel as [|fuel IH]; intros i s Hi Hn Hf; [lia|].
  simpl. rewrite cond_lt. destruct (Z.ltb_spec i n) as [Hlt|Hge].
  - rewrite (zseq_step i n Hlt). simpl.
    destruct (body i s) as [s'| | |]; simpl; auto.
    rewrite u8_small by lia. apply IH; lia.
  - replace (n - i) with 0 by lia. reflexivity.
Qed.

(** Whatever the fuel, a loop that ran to its end computed that fold. *)
Lemma for_u8_Done (fuel : nat) (i : Z) (s r : S) :
  0 <= i <= n -> n <= 255 ->
  for_u8 fuel cond body i s = Done r ->
  ofold body (zseq i (Z.to_nat (n - i))) s = Done r.
Proof.
  revert i s. induction fuel as [|fuel IH]; intros i s Hi Hn H; [discriminate|].
  simpl in H. rewrite cond_lt in H. destruct (Z.ltb_spec i n) as [Hlt|Hge].
  - rewrite (zseq_step i n Hlt). simpl.
    destruct (body i s) as [s'| | |]; simpl in *; try discriminate.
    rewrite u8_small in H by lia. apply IH; auto; lia.
  - replace (n - i) with 0 by lia. exact H.
Qed.

(** A bound the counter cannot reach: the loop never ends. *)
Lemma for_u8_diverges (fuel : nat) (i : Z) (s r : S) :
  0 <= i < 256 -> 256 <= n ->
  for_u8 fuel cond body i s <> Done r.
Proof.
  revert i s. induction fuel as [|fuel IH]; intros i s Hi Hn; [discriminate|].
  simpl. rewrite cond_lt. destruct (Z.ltb_spec i n) as [Hlt|Hge]; [|lia].
  destruct (body i s) as [s'| | |]; simpl; try discriminate.
  apply IH; auto. apply u8_range.
Qed.

End ForU8.

(** A loop whose body cannot fail, with a bound the counter cannot
    reach, uses up any fuel. *)
Lemma for_u8_Timeout (S : Type) (cond : Z -> bool) (f : Z -> S -> S) (n : Z)
    (fuel : nat) (i : Z) (s : S) :
  (forall i, cond i = (i <? n)) -> 0 <= i < 256 -> 256 <= n ->
  for_u8 fuel cond (fun i s => Done (f i s)) i s = Timeout.
Proof.
  intros Hc. revert i s. induction fuel as [|fuel IH]; intros i s Hi Hn; auto.
  simpl. rewrite Hc. destruct (Z.ltb_spec i n) as [Hlt|Hge]; [|lia].
  apply IH; auto. apply u8_range.
Qed.

Lemma leb_as_ltb (n i : Z) : (i <=? n) = (i <? n + 1).
Proof. destruct (Z.leb_spec i n), (Z.ltb_spec i (n + 1)); auto; lia. Qed.

(** ** Folds and bounds-checked reads *)

Lemma vec_at_Done (A : Type) (v : list A) (i : Z) (a : A) :
  vec_at v i = Done a <->
  0 <= i < Z.of_nat (length v) /\ nth_error v (Z.to_nat i) = Some a.
Proof.
  unfold vec_at.
  destruct (Z.leb_spec 0 i), (Z.ltb_spec i (Z.of_nat (length v))); simpl;
    try (split; [discriminate | lia]).
  destruct (nth_error v (Z.to_nat i)) eqn:E.
  - split; [intros [= ->]; auto | intros [_ [= ->]]; auto].
  - apply nth_error_None in E. lia.
Qed.

Lemma vec_at_in_range (A : Type) (v : list A) (i : Z) :
  0 <= i < Z.of_nat (length v) -> exists a, vec_at v i = Done a.
Proof.
  intros H. destruct (nth_error v (Z.to_nat i)) eqn:E.
  - exists a. apply vec_at_Done. auto.
  - apply nth_error_None in E. lia.
Qed.

Lemma vec_at_cases (A : Type) (v : list A) (i : Z) :
  (exists a, vec_at v i = Done a) \/ vec_at v i = OutOfRange.
Proof.
  unfold vec_at. destruct ((0 <=? i) && (i <? Z.of_nat (length v))); auto.
  destruct (nth_error v (Z.to_nat i)); eauto.
Qed.

Lemma ofold_Done_each (St I : Type) (body : I -> St -> outcome St)
    (l : list I) (s r : St) :
  ofold body l s = Done r ->
  forall it, In it l -> exists s1 s2, body it s1 = Done s2.
Proof.
  revert s. induction l as [|x l IH]; intros s H it Hin; [destruct Hin|].
  simpl in H. apply bind_Done_inv in H as (s' & Hb & H).
  destruct Hin as [<-|Hin]; eauto.
Qed.

Lemma ofold_total (St I : Type) (body : I -> St -> outcome St) (l : list I) :
  (forall it s, In it l -> exists s', body it s = Done s') ->
  forall s, exists r, ofold body l s = Done r.
Proof.
  induction l as [|x l IH]; intros Hb s; simpl; eauto.
  destruct (Hb x s (or_introl eq_refl)) as (s' & ->). simpl.
  apply IH. intros; apply Hb; now right.
Qed.

(** A fold whose body either returns or throws [out_of_range] does the
    same. *)
Lemma ofold_cases (St I : Type) (body : I -> St -> outcome St) (l : list I) :
  (forall it s, (exists s', body it s = Done s') \/ body it s = OutOfRange) ->
  forall s, (exists r, ofold body l s = Done r) \/ ofold body l s = OutOfRange.
Proof.
  intros Hb. induction l as [|x l IH]; intros s; simpl; eauto.
  destruct (Hb x s) as [(s' & ->)| ->]; simpl; auto.
Qed.

(** ** The MIMO candidates trace: when the writer returns *)

(** The condition under which the writer returns, for a map of fewer
    than 255 antennas: the map is not empty and every antenna's list is at
    least as long as the first antenna's list length taken as a
    [uint8_t]. *)
Definition candidates_ok (txCandidates : Antenna2SectorList) : Prop :=
  match txCandidates with
  | [] => False
  | first :: _ =>
      Forall (fun it => u8 (Z.of_nat (length (snd first)))
                        <= Z.of_nat (length (snd it))) txCandidates
  end.

(** The condition with the lengths compared as they are. *)
Definition candidates_full_length (txCandidates : Antenna2SectorList) : Prop :=
  match txCandidates with
  | [] => False
  | first :: _ =>
      Forall (fun it => (length (snd first) <= length (snd it))%nat) txCandidates
  end.

Lemma candidates_header_returns (na : Z) :
  0 <= na < 255 -> exists h, candidates_header 256 na = Done h.
Proof.
  intros H. unfold candidates_header.
  rewrite (for_u8_enough _ _ _ (na + 1) (leb_as_ltb na)) by lia.
  apply ofold_total. eauto.
Qed.

Lemma candidate_cells_Done (txCandidates : Antenna2SectorList) (i : Z)
    (cells : list (Z * Z)) :
  candidate_cells txCandidates i = Done cells ->
  forall it, In it txCandidates -> 0 <= i < Z.of_nat (length (snd it)).
Proof.
  intros H it Hin. unfold candidate_cells in H.
  destruct (ofold_Done_each _ _ _ _ _ _ H it Hin) as (s1 & s2 & Hb).
  apply bind_Done_inv in Hb as (a & Ha & _).
  now apply vec_at_Done in Ha.
Qed.

Lemma candidate_cells_returns (txCandidates : Antenna2SectorList) (i : Z) :
  (forall it, In it txCandidates -> 0 <= i < Z.of_nat (length (snd it))) ->
  exists cells, candidate_cells txCandidates i = Done cells.
Proof.
  intros H. unfold candidate_cells. apply ofold_total.
  intros it s Hin. destruct (vec_at_in_range _ (snd it) i (H it Hin)) as (a & ->).
  simpl. eauto.
Qed.

Lemma candidate_cells_cases (txCandidates : Antenna2SectorList) (i : Z) :
  (exists cells, candidate_cells txCandidates i = Done cells)
  \/ candidate_cells txCandidates i = OutOfRange.
Proof.
  unfold candidate_cells. apply ofold_cases. intros it s.
  destruct (vec_at_cases _ (snd it) i) as [(a & ->)| ->]; simpl; eauto.
Qed.

(** The loop over the positions, as a fold. *)
Definition candidate_rows_body (env : sim_env) (parameters : SLS_PARAMETERS)
    (txCandidates : Antenna2SectorList) (i : Z) (rows : list candidate_row)
    : outcome (list candidate_row) :=
  cells <- candidate_cells txCandidates i ;;
  Done (rows ++ [{| cand_src := u32 (sls_srcNodeID parameters + 1);
                    cand_dst := u32 (sls_dstNodeID parameters + 1);
                    cand_trace := GetCurrentTraceIndex env;
                    cand_cells := cells |}]).

Lemma candidate_rows_Done (env : sim_env) (parameters : SLS_PARAMETERS)
    (txCandidates : Antenna2SectorList) (nc : Z) (rows : list candidate_row) :
  0 <= nc ->
  ofold (candidate_rows_body env parameters txCandidates)
    (zseq 0 (Z.to_nat nc)) [] = Done rows ->
  Forall (fun it => nc <= Z.of_nat (length (snd it))) txCandidates.
Proof.
  intros Hnc H. apply Forall_forall. intros it Hin.
  destruct (Z.eq_dec nc 0) as [->|Hpos]; [lia|].
  destruct (ofold_Done_each _ _ _ _ _ _ H (nc - 1)) as (s1 & s2 & Hb).
  { apply zseq_In. lia. }
  apply bind_Done_inv in Hb as (cells & Hc & _).
  pose proof (candidate_cells_Done _ _ _ Hc it Hin). lia.
Qed.

Lemma candidate_rows_returns (env : sim_env) (parameters : SLS_PARAMETERS)
    (txCandidates : Antenna2SectorList) (nc : Z) :
  Forall (fun it => nc <= Z.of_nat (length (snd it))) txCandidates ->
  exists rows,
    ofold (candidate_rows_body env parameters txCandidates)
      (zseq 0 (Z.to_nat nc)) [] = Done rows.
Proof.
  intros H. apply ofold_total. intros i s Hi. apply zseq_In in Hi.
  unfold candidate_rows_body.
  destruct (candidate_cells_returns txCandidates i) as (cells & ->).
  - intros it Hin. rewrite Forall_forall in H. specialize (H it Hin). lia.
  - simpl. eauto.
Qed.

Lemma candidate_rows_cases (env : sim_env) (parameters : SLS_PARAMETERS)
    (txCandidates : Antenna2SectorList) (l : list Z) (s : list candidate_row) :
  (exists rows,
      ofold (candidate_rows_body env parameters txCandidates) l s = Done rows)
  \/ ofold (candidate_rows_body env parameters txCandidates) l s = OutOfRange.
Proof.
  apply ofold_cases. intros i s'. unfold candidate_rows_body.
  destruct (candidate_cells_cases txCandidates i) as [(a & ->)| ->]; simpl; eauto.
Qed.

(** With 255 antennas the header loop tests [i <= 255] on a [uint8_t]
    and never ends. *)
Lemma candidates_writer_spins_with_255_antennas (fuel : nat) (env : sim_env)
    (parameters : SLS_PARAMETERS) (muGroupId : Z)
    (txCandidates : Antenna2SectorList) :
  length txCandidates = 255%nat ->
  MuMimoMimoCandidatesSelected fuel env parameters muGroupId txCandidates
  = Timeout.
Proof.
  intros H. unfold MuMimoMimoCandidatesSelected, candidates_header.
  rewrite H.
  rewrite (for_u8_Timeout _ _
             (fun i h => h ++ [HIndexed "ANTENNA_ID" (u16 i);
                               HIndexed "SECTOR_ID" (u16 i)]) 256);
    [reflexivity|apply (leb_as_ltb 255)|lia|lia].
Qed.

(** C10 (amended): the writer takes the number of candidates from the
    first antenna's list, truncated to 8 bits, and reads every antenna's
    list at each position below it with a bounds-checked access.  For a
    map of fewer than 255 antennas it returns if and only if the map is
    not empty and every list is at least as long as that truncated count,
    and 256 units of fuel are then enough; when the map is not empty and
    some list is shorter than the truncated count, an access throws
    [out_of_range]. *)
Theorem candidates_writer_returns_iff :
  forall (env : sim_env) (parameters : SLS_PARAMETERS) (muGroupId : Z)
         (txCandidates : Antenna2SectorList),
    (length txCandidates < 255)%nat ->
    ((exists fuel out,
         MuMimoMimoCandidatesSelected fuel env parameters muGroupId txCandidates
         = Done out)
     <-> candidates_ok txCandidates)
    /\ (candidates_ok txCandidates ->
        exists out,
          MuMimoMimoCandidatesSelected 256 env parameters muGroupId txCandidates
          = Done out)
    /\ (txCandidates <> [] ->
        ~ candidates_ok txCandidates ->
        MuMimoMimoCandidatesSelected 256 env parameters muGroupId txCandidates
        = OutOfRange).
Proof.
  intros env parameters muGroupId txCandidates Hlen.
  assert (Hna : u8 (Z.of_nat (length txCandidates))
                = Z.of_nat (length txCandidates)) by (apply u8_small; lia).
  assert (Hback : candidates_ok txCandidates ->
    exists out,
      MuMimoMimoCandidatesSelected 256 env parameters muGroupId txCandidates
      = Done out).
  { unfold candidates_ok, MuMimoMimoCandidatesSelected.
    destruct txCandidates as [|first rest]; [tauto|]. intros Hall.
    destruct (candidates_header_returns
                (u8 (Z.of_nat (length (first :: rest))))) as (h & ->); [lia|].
    cbn [bind].
    pose proof (u8_range (Z.of_nat (length (snd first)))) as Hc.
    rewrite (for_u8_enough _ _ _ (u8 (Z.of_nat (length (snd first))))
               (fun i => eq_refl)) by lia.
    rewrite Z.sub_0_r.
    destruct (candidate_rows_returns env parameters (first :: rest) _ Hall)
      as (rows & Hrows).
    unfold candidate_rows_body in Hrows. rewrite Hrows. simpl. eauto. }
  split; [split; [|intros H; destruct (Hback H) as (out & Ho); eauto]|split; auto].
  - intros (fuel & out & H). unfold MuMimoMimoCandidatesSelected in H.
    apply bind_Done_inv in H as (h & Hh & H).
    destruct txCandidates as [|first rest]; [discriminate|].
    apply bind_Done_inv in H as (rows & Hrows & _).
    pose proof (u8_range (Z.of_nat (length (snd first)))) as Hc.
    apply (for_u8_Done _ _ _ (u8 (Z.of_nat (length (snd first))))
             (fun i => eq_refl)) in Hrows; try lia.
    rewrite Z.sub_0_r in Hrows.
    eapply (candidate_rows_Done env parameters); [lia|exact Hrows].
  - intros Hne Hnot. unfold MuMimoMimoCandidatesSelected.
    destruct txCandidates as [|first rest]; [congruence|].
    destruct (candidates_header_returns
                (u8 (Z.of_nat (length (first :: rest))))) as (h & ->); [lia|].
    cbn [bind].
    pose proof (u8_range (Z.of_nat (length (snd first)))) as Hc.
    rewrite (for_u8_enough _ _ _ (u8 (Z.of_nat (length (snd first))))
               (fun i => eq_refl)) by lia.
    rewrite Z.sub_0_r.
    destruct (candidate_rows_cases env parameters (first :: rest)
                (zseq 0 (Z.to_nat (u8 (Z.of_nat (length (snd first)))))) [])
      as [(rows & Hrows)|Hrows].
    + exfalso. apply Hnot.
      eapply (candidate_rows_Done env parameters); [lia|exact Hrows].
    + unfold candidate_rows_body in Hrows. rewrite Hrows. reflexivity.
Qed.

(** ** The priority queue *)

Lemma extract_max_length (q : list SNR_MEASUREMENT_AWV_IDs)
    (best : SNR_MEASUREMENT_AWV_IDs) :
  length (snd (extract_max best q)) = length q.
Proof.
  revert best. induction q as [|x q IH]; intros best; simpl; auto.
  destruct (entry_ltb best x).
  - specialize (IH x). destruct (extract_max x q). simpl in *. now rewrite IH.
  - specialize (IH best). destruct (extract_max best q). simpl in *. now rewrite IH.
Qed.

(** Nothing is invented: what [extract_max] returns was stored. *)
Lemma extract_max_In (q : list SNR_MEASUREMENT_AWV_IDs)
    (best x : SNR_MEASUREMENT_AWV_IDs) :
  In x (fst (extract_max best q) :: snd (extract_max best q)) ->
  In x (best :: q).
Proof.
  revert best. induction q as [|y q IH]; intros best; simpl; auto.
  destruct (entry_ltb best y).
  - specialize (IH y). destruct (extract_max y q) as [m r]. simpl in *.
    intros [H|[H|H]]; auto; destruct IH as [IH|IH]; auto.
  - specialize (IH best). destruct (extract_max best q) as [m r]. simpl in *.
    intros [H|[H|H]]; auto; destruct IH as [IH|IH]; auto.
Qed.

Lemma pq_pop_length (q : SNR_MEASUREMENT_AWV_IDs_QUEUE)
    (e : SNR_MEASUREMENT_AWV_IDs) :
  pq_top q = Some e -> Datatypes.S (length (pq_pop q)) = length q.
Proof.
  destruct q as [|x q]; [discriminate|]. intros _. simpl.
  now rewrite extract_max_length.
Qed.

Lemma pq_top_None (q : SNR_MEASUREMENT_AWV_IDs_QUEUE) :
  pq_top q = None -> q = [].
Proof. destruct q; [auto|discriminate]. Qed.

Lemma pq_drain_empty (q : SNR_MEASUREMENT_AWV_IDs_QUEUE) :
  pq_top q = None -> pq_drain q = [].
Proof. intros H. now rewrite (pq_top_None q H). Qed.

Lemma pq_drain_top (q : SNR_MEASUREMENT_AWV_IDs_QUEUE)
    (e : SNR_MEASUREMENT_AWV_IDs) :
  pq_top q = Some e -> pq_drain q = e :: pq_drain (pq_pop q).
Proof.
  intros H. unfold pq_drain. rewrite <- (pq_pop_length q e H).
  simpl. now rewrite H.
Qed.

(** The drain yields every stored element once. *)
Lemma pq_drain_length (q : SNR_MEASUREMENT_AWV_IDs_QUEUE) :
  length (pq_drain q) = length q.
Proof.
  remember (length q) as n eqn:Hn. revert q Hn.
  induction n as [|n IH]; intros q Hn.
  - destruct q; [reflexivity|discriminate].
  - destruct (pq_top q) as [e|] eqn:Ht.
    + rewrite (pq_drain_top q e Ht). simpl. f_equal. apply IH.
      pose proof (pq_pop_length q e Ht). lia.
    + rewrite (pq_top_None q Ht) in Hn. discriminate.
Qed.

Lemma pq_top_pop_In (q : SNR_MEASUREMENT_AWV_IDs_QUEUE)
    (e x : SNR_MEASUREMENT_AWV_IDs) :
  pq_top q = Some e -> In x (e :: pq_pop q) -> In x q.
Proof.
  destruct q as [|y q]; [discriminate|]. simpl. intros [= <-].
  apply extract_max_In.
Qed.

Lemma pq_drain_In (q : SNR_MEASUREMENT_AWV_IDs_QUEUE)
    (x : SNR_MEASUREMENT_AWV_IDs) :
  In x (pq_drain q) -> In x q.
Proof.
  remember (length q) as n eqn:Hn. revert q Hn.
  induction n as [|n IH]; intros q Hn.
  - destruct q; [auto|discriminate].
  - destruct (pq_top q) as [e|] eqn:Ht.
    + rewrite (pq_drain_top q e Ht). intros Hin.
      apply (pq_top_pop_In q e x Ht).
      destruct Hin as [H|H]; [now left|right].
      apply IH; auto. pose proof (pq_pop_length q e Ht). lia.
    + rewrite (pq_drain_empty q Ht). intros [].
Qed.

(** ** The drain loop, entry by entry *)

Section Drain.

Variable fuel : nat.
Variable env : sim_env.
Variable parameters : MIMO_PARAMETERS.
Variable from : Mac48Address.
Variable mimoMeasurements : MIMO_SNR_LIST.
Variable differentRxConfigs : bool.
Variables nTxAntennas nRxAntennas rxCombinationsTested : Z.

(** The data line of a popped element: the measurements fetched for it,
    then the line written from them. *)
Definition entry_row (e : SNR_MEASUREMENT_AWV_IDs) : outcome mimo_row :=
  measurements <- fetch_measurements mimoMeasurements (tx_id e)
                    rxCombinationsTested (rx_ids e) ;;
  write_row fuel env parameters nTxAntennas nRxAntennas
    (GetMimoConfigFromTxAwvId (dstWifiMac parameters) (tx_id e)
       (GetAddress (dstWifiMac parameters)))
    (GetMimoConfigFromRxAwvId (srcWifiMac parameters) (rx_ids e) from)
    measurements (min_snr e).

(** The test that guards the write to the reduced trace. *)
Definition writes_reduced (txIds : list Z) (e : SNR_MEASUREMENT_AWV_IDs) : bool :=
  differentRxConfigs || negb (existsb (Z.eqb (tx_id e)) txIds).

(** The popped elements that reach the reduced trace, given the
    identifiers already in [txIds]. *)
Fixpoint reduced_entries (txIds : list Z) (es : list SNR_MEASUREMENT_AWV_IDs)
    : list SNR_MEASUREMENT_AWV_IDs :=
  match es with
  | [] => []
  | e :: es' =>
      if writes_reduced txIds e then
        e :: reduced_entries (txIds ++ [tx_id e]) es'
      else reduced_entries txIds es'
  end.

Lemma drain_step_entry_row (top : SNR_MEASUREMENT_AWV_IDs) (txIds : list Z)
    (full reduced : list mimo_row) :
  drain_step fuel env parameters from mimoMeasurements differentRxConfigs
    nTxAntennas nRxAntennas rxCombinationsTested top (txIds, full, reduced)
  = row <- entry_row top ;;
    Done (if writes_reduced txIds top
          then (txIds ++ [tx_id top], full ++ [row], reduced ++ [row])
          else (txIds, full ++ [row], reduced)).
Proof.
  unfold drain_step, entry_row, writes_reduced, tx_id, rx_ids, min_snr.
  destruct (fetch_measurements _ _ _ _) as [ms| | |]; simpl; auto.
  destruct (write_row _ _ _ _ _ _ _ _ _) as [row| | |]; simpl; auto.
  destruct (differentRxConfigs || _); reflexivity.
Qed.

(** What a completed drain has written: one line per stored element to
    the full trace, in pop order, and the lines of the elements that
    passed the test to the reduced trace. *)
Lemma drain_loop_Done (n : nat) (minSnr : SNR_MEASUREMENT_AWV_IDs_QUEUE)
    (txIds txIds' : list Z) (full reduced full' reduced' : list mimo_row) :
  drain_loop n fuel env parameters from mimoMeasurements differentRxConfigs
    nTxAntennas nRxAntennas rxCombinationsTested minSnr (txIds, full, reduced)
  = Done (txIds', full', reduced') ->
  exists rows rowsR,
    full' = full ++ rows /\ reduced' = reduced ++ rowsR
    /\ txIds' = txIds ++ map tx_id (reduced_entries txIds (pq_drain minSnr))
    /\ Forall2 (fun e row => entry_row e = Done row) (pq_drain minSnr) rows
    /\ Forall2 (fun e row => entry_row e = Done row)
         (reduced_entries txIds (pq_drain minSnr)) rowsR.
Proof.
  revert minSnr txIds full reduced.
  induction n as [|n IH]; intros minSnr txIds full reduced H.
  - cbn [drain_loop] in H.
    destruct (pq_top minSnr) as [top|] eqn:Ht; [discriminate|].
    injection H as <- <- <-. rewrite (pq_drain_empty _ Ht). simpl.
    exists [], []. rewrite !app_nil_r. repeat split; constructor.
  - cbn [drain_loop] in H. destruct (pq_top minSnr) as [top|] eqn:Ht.
    + rewrite (pq_drain_top _ _ Ht). rewrite drain_step_entry_row in H.
      apply bind_Done_inv in H as (st & Hs & H).
      apply bind_Done_inv in Hs as (row & Hrow & Hs).
      injection Hs as <-. simpl.
      destruct (writes_reduced txIds top);
        apply IH in H as (rows & rowsR & -> & -> & -> & Hf & Hr).
      * exists (row :: rows), (row :: rowsR). rewrite <- !app_assoc.
        repeat split; auto.
      * exists (row :: rows), rowsR. rewrite <- !app_assoc.
        repeat split; auto.
    + injection H as <- <- <-. rewrite (pq_drain_empty _ Ht). simpl.
      exists [], []. rewrite !app_nil_r. repeat split; constructor.
Qed.

(** With one unit of fuel per stored element the drain does not time
    out: it returns when every element's line can be written. *)
Lemma drain_loop_returns (n : nat) (minSnr : SNR_MEASUREMENT_AWV_IDs_QUEUE)
    (st : drain_state) :
  (length minSnr <= n)%nat ->
  (forall e, In e minSnr -> exists row, entry_row e = Done row) ->
  exists st',
    drain_loop n fuel env parameters from mimoMeasurements differentRxConfigs
      nTxAntennas nRxAntennas rxCombinationsTested minSnr st = Done st'.
Proof.
  revert minSnr st. induction n as [|n IH]; intros minSnr st Hn Hall.
  - destruct minSnr; [simpl; eauto|simpl in Hn; lia].
  - cbn [drain_loop]. destruct (pq_top minSnr) as [top|] eqn:Ht; [|eauto].
    destruct st as [[txIds full] reduced]. rewrite drain_step_entry_row.
    destruct (Hall top) as (row & ->).
    { apply (pq_top_pop_In minSnr top top Ht). now left. }
    simpl. apply IH.
    + pose proof (pq_pop_length minSnr top Ht). lia.
    + intros e He. apply Hall.
      apply (pq_top_pop_In minSnr top e Ht). now right.
Qed.

End Drain.

(** ** Loops that collect one value per iteration *)

(** The values [f] returns along [l], or the first failure. *)
Fixpoint omapM {I B : Type} (f : I -> outcome B) (l : list I)
    : outcome (list B) :=
  match l with
  | [] => Done []
  | x :: l' => y <- f x ;; ys <- omapM f l' ;; Done (y :: ys)
  end.

Lemma ofold_collect (I B : Type) (f : I -> outcome B) (l : list I)
    (acc : list B) :
  ofold (fun it acc => x <- f it ;; Done (acc ++ [x])) l acc
  = omap (app acc) (omapM f l).
Proof.
  revert acc. induction l as [|a l IH]; intros acc; simpl.
  - now rewrite app_nil_r.
  - destruct (f a) as [y| | |]; simpl; auto. rewrite IH.
    destruct (omapM f l); simpl; auto. now rewrite <- app_assoc.
Qed.

Lemma omapM_Done (I B : Type) (f : I -> outcome B) (l : list I) (r : list B) :
  omapM f l = Done r <-> Forall2 (fun it x => f it = Done x) l r.
Proof.
  revert r. induction l as [|a l IH]; intros r; simpl.
  - split; [intros [= <-]; constructor | intros H; inversion H; auto].
  - split.
    + intros H. apply bind_Done_inv in H as (y & Hy & H).
      apply bind_Done_inv in H as (ys & Hys & H). injection H as <-.
      constructor; auto. now apply IH.
    + intros H. inversion H as [|? x ? xs Hx Hxs]; subst.
      rewrite Hx. apply IH in Hxs. rewrite Hxs. reflexivity.
Qed.

Lemma omapM_app (I B : Type) (f : I -> outcome B) (l1 l2 : list I) :
  omapM f (l1 ++ l2)
  = y1 <- omapM f l1 ;; y2 <- omapM f l2 ;; Done (y1 ++ y2).
Proof.
  induction l1 as [|a l1 IH]; simpl.
  - destruct (omapM f l2); reflexivity.
  - destruct (f a); simpl; auto. rewrite IH.
    destruct (omapM f l1); simpl; auto. destruct (omapM f l2); reflexivity.
Qed.

Lemma ofold_ext (St I : Type) (b1 b2 : I -> St -> outcome St) (l : list I) :
  (forall it s, In it l -> b1 it s = b2 it s) ->
  forall s, ofold b1 l s = ofold b2 l s.
Proof.
  induction l as [|a l IH]; intros H s; simpl; auto.
  rewrite (H a s (or_introl eq_refl)). destruct (b2 a s); simpl; auto.
  apply IH. intros; apply H; now right.
Qed.

Lemma ofold_ext_Done (St I : Type) (b1 b2 : I -> St -> outcome St)
    (l : list I) :
  (forall it s r, b1 it s = Done r -> b2 it s = Done r) ->
  forall s r, ofold b1 l s = Done r -> ofold b2 l s = Done r.
Proof.
  intros Hb. induction l as [|a l IH]; intros s r H; simpl in *; auto.
  apply bind_Done_inv in H as (s' & Hs & H).
  rewrite (Hb _ _ _ Hs). simpl. auto.
Qed.

(** ** The header of the MIMO traces *)

Lemma mimo_header_Done (fuel : nat) (nTx nRx : Z) (h : list header_field) :
  is_u8 nTx -> is_u8 nRx ->
  mimo_header fuel nTx nRx = Done h ->
  nTx < 255 /\ nRx < 255 /\ nRx * nTx < 256.
Proof.
  unfold is_u8, mimo_header. intros HT HR H.
  apply bind_Done_inv in H as (h1 & H1 & H).
  apply bind_Done_inv in H as (h2 & H2 & H).
  apply bind_Done_inv in H as (h3 & H3 & _).
  repeat split.
  - destruct (Z.eq_dec nTx 255) as [->|]; [|lia]. exfalso. revert H1.
    apply (for_u8_diverges _ _ _ 256 (leb_as_ltb 255)); lia.
  - destruct (Z.eq_dec nRx 255) as [->|]; [|lia]. exfalso. revert H2.
    apply (for_u8_diverges _ _ _ 256 (leb_as_ltb 255)); lia.
  - destruct (Z_lt_le_dec (nRx * nTx) 256) as [|Hge]; auto. exfalso.
    revert H3. apply (for_u8_diverges _ _ _ (nRx * nTx) (fun i => eq_refl)); lia.
Qed.

Lemma mimo_header_returns (fuel : nat) (nTx nRx : Z) :
  0 <= nTx < 255 -> 0 <= nRx < 255 -> nRx * nTx < 256 -> (256 <= fuel)%nat ->
  exists h, mimo_header fuel nTx nRx = Done h.
Proof.
  intros HT HR HP Hf. unfold mimo_header.
  rewrite (for_u8_enough _ _ _ (nTx + 1) (leb_as_ltb nTx)) by lia.
  destruct (ofold_total _ _
              (fun i h => Done (h ++ indexed3 "TX_ANTENNA_ID" "TX_SECTOR_ID"
                                       "TX_AWV_ID" i))
              (zseq 1 (Z.to_nat (nTx + 1 - 1)))
              (fun it s _ => ex_intro _ _ eq_refl)
              [HName "SRC_ID"; HName "DST_ID"; HName "TRACE_IDX"])
    as (h1 & ->).
  cbn [bind].
  rewrite (for_u8_enough _ _ _ (nRx + 1) (leb_as_ltb nRx)) by lia.
  destruct (ofold_total _ _
              (fun i h => Done (h ++ indexed3 "RX_ANTENNA_ID" "RX_SECTOR_ID"
                                       "RX_AWV_ID" i))
              (zseq 1 (Z.to_nat (nRx + 1 - 1)))
              (fun it s _ => ex_intro _ _ eq_refl) h1)
    as (h2 & ->).
  cbn [bind].
  assert (0 <= nRx * nTx) by nia.
  rewrite (for_u8_enough _ _ _ (nRx * nTx) (fun i => eq_refl)) by lia.
  destruct (ofold_total _ _
              (fun (_ : Z) (h : list header_field) => Done (h ++ [HName "SNR"]))
              (zseq 0 (Z.to_nat (nRx * nTx - 0)))
              (fun it s _ => ex_intro _ _ eq_refl) h2)
    as (h3 & ->).
  cbn [bind]. eauto.
Qed.

(** A header loop whose bound the counter cannot pass spins forever. *)
Lemma mimo_header_Timeout (fuel : nat) (nRx : Z) :
  mimo_header fuel 255 nRx = Timeout.
Proof.
  unfold mimo_header.
  rewrite (for_u8_Timeout _ _
             (fun i h => h ++ indexed3 "TX_ANTENNA_ID" "TX_SECTOR_ID"
                               "TX_AWV_ID" i) 256);
    [reflexivity|apply (leb_as_ltb 255)|lia|lia].
Qed.

(** ** One data line in closed form *)

(** No [std::vector] holds more than [PTRDIFF_MAX] elements. *)
Definition size_max : Z := 9223372036854775807.

(** The values of an element are within their C++ types. *)
Definition wf_entry (e : SNR_MEASUREMENT_AWV_IDs) : Prop :=
  is_u16 (tx_id e) /\ Forall (fun rx => is_u16 (snd rx)) (rx_ids e).

(** The read of the sweep for one entry of [awvId.second]. *)
Definition fetch_cell (mimoMeasurements : MIMO_SNR_LIST)
    (txId rxCombinationsTested : Z) (rxId : Z * Z)
    : outcome (snr_tag * list ratio) :=
  vec_at mimoMeasurements
    (to_size_t (sweep_index txId rxCombinationsTested (snd rxId))).

(** The three fields of antenna [i] of a combination. *)
Definition config_cell (combination : MIMO_AWV_CONFIGURATION) (i : Z)
    : outcome (Z * Z * Z) :=
  c <- vec_at combination i ;;
  Done (u16 (fst (fst c)), u16 (snd (fst c)), u16 (snd c)).

(** The SNR column read from block [fst jk] at position [snd jk]. *)
Definition stream_cell (measurements : MIMO_SNR_LIST) (jk : Z * Z)
    : outcome dB :=
  m <- vec_at measurements (fst jk) ;;
  v <- vec_at (snd m) (snd jk) ;;
  Done (RatioToDb v).

(** The pairs (block [j], position [snrIndex]) in the order the nested
    loops visit them: [snrIndex] is [i * nRxAntennas + j]. *)
Definition stream_indices (nTxAntennas nRxAntennas : Z) : list (Z * Z) :=
  flat_map (fun i => map (fun j => (j, i * nRxAntennas + j))
                       (zseq 0 (Z.to_nat nRxAntennas)))
    (zseq 0 (Z.to_nat nTxAntennas)).

Lemma omap_app_nil (B : Type) (m : outcome (list B)) : omap (app []) m = m.
Proof. destruct m; reflexivity. Qed.

Lemma fetch_measurements_collect (mimoMeasurements : MIMO_SNR_LIST)
    (txId rxCombinationsTested : Z) (rxIds : RX_AWV_IDs) :
  fetch_measurements mimoMeasurements txId rxCombinationsTested rxIds
  = omapM (fetch_cell mimoMeasurements txId rxCombinationsTested) rxIds.
Proof.
  unfold fetch_measurements.
  rewrite (ofold_collect _ _
             (fetch_cell mimoMeasurements txId rxCombinationsTested)).
  apply omap_app_nil.
Qed.

Lemma config_fold_collect (combination : MIMO_AWV_CONFIGURATION) (l : list Z) :
  ofold (fun i cells =>
           c <- vec_at combination i ;;
           Done (cells ++ [(u16 (fst (fst c)), u16 (snd (fst c)), u16 (snd c))]))
    l []
  = omapM (config_cell combination) l.
Proof.
  rewrite <- (omap_app_nil _ (omapM _ l)).
  rewrite <- (ofold_collect _ _ (config_cell combination)).
  apply ofold_ext. intros i cells _. unfold config_cell.
  destruct (vec_at combination i); reflexivity.
Qed.

Lemma config_cells_enough (fuel : nat) (n : Z)
    (combination : MIMO_AWV_CONFIGURATION) :
  0 <= n <= 255 -> (256 <= fuel)%nat ->
  config_cells fuel n combination
  = omapM (config_cell combination) (zseq 0 (Z.to_nat n)).
Proof.
  intros Hn Hf. unfold config_cells.
  rewrite (for_u8_enough _ _ _ n (fun i => eq_refl)) by lia.
  rewrite Z.sub_0_r. apply config_fold_collect.
Qed.

Lemma config_cells_Done (fuel : nat) (n : Z)
    (combination : MIMO_AWV_CONFIGURATION) (r : list (Z * Z * Z)) :
  0 <= n <= 255 ->
  config_cells fuel n combination = Done r ->
  omapM (config_cell combination) (zseq 0 (Z.to_nat n)) = Done r.
Proof.
  intros Hn H. unfold config_cells in H.
  apply (for_u8_Done _ _ _ n (fun i => eq_refl)) in H; try lia.
  rewrite Z.sub_0_r in H. now rewrite config_fold_collect in H.
Qed.

(** The body of the inner loop over the streams. *)
Definition snr_body (measurements : MIMO_SNR_LIST) (j : Z) (st : Z * list dB)
    : outcome (Z * list dB) :=
  m <- vec_at measurements j ;;
  v <- vec_at (snd m) (fst st) ;;
  Done (u8 (fst st + 1), snd st ++ [RatioToDb v]).

Lemma snr_inner (measurements : MIMO_SNR_LIST) (n : nat) :
  forall (j0 c : Z) (cells : list dB),
    0 <= c -> c + Z.of_nat n < 256 ->
    ofold (snr_body measurements) (zseq j0 n) (c, cells)
    = omap (fun new => (c + Z.of_nat n, cells ++ new))
        (omapM (stream_cell measurements)
           (map (fun j => (j, c + (j - j0))) (zseq j0 n))).
Proof.
  induction n as [|n IH]; intros j0 c cells Hc Hn.
  - simpl. now rewrite Z.add_0_r, app_nil_r.
  - cbn [zseq map ofold omapM]. replace (c + (j0 - j0)) with c by lia.
    unfold snr_body at 1, stream_cell at 1. cbn [fst snd].
    destruct (vec_at measurements j0) as [m| | |]; simpl; auto.
    destruct (vec_at (snd m) c) as [v| | |]; simpl; auto.
    rewrite u8_small by lia. rewrite IH by lia.
    rewrite (map_ext (fun j => (j, c + 1 + (j - (j0 + 1))))
               (fun j => (j, c + (j - j0)))) by (intros; f_equal; lia).
    destruct (omapM _ _) as [ys| | |]; simpl; auto.
    rewrite <- app_assoc. simpl. do 2 f_equal. lia.
Qed.

Lemma snr_outer (measurements : MIMO_SNR_LIST) (nRx : nat) (cnt : nat) :
  forall (i0 c : Z) (cells : list dB),
    0 <= c -> c + Z.of_nat cnt * Z.of_nat nRx < 256 ->
    ofold (fun _ st => ofold (snr_body measurements) (zseq 0 nRx) st)
      (zseq i0 cnt) (c, cells)
    = omap (fun new => (c + Z.of_nat cnt * Z.of_nat nRx, cells ++ new))
        (omapM (stream_cell measurements)
           (flat_map (fun i => map (fun j => (j, c + (i - i0) * Z.of_nat nRx + j))
                                 (zseq 0 nRx))
              (zseq i0 cnt))).
Proof.
  induction cnt as [|cnt IH]; intros i0 c cells Hc Hn.
  - simpl. now rewrite Z.add_0_r, app_nil_r.
  - cbn [zseq flat_map ofold]. rewrite omapM_app.
    rewrite snr_inner by nia.
    rewrite (map_ext (fun j => (j, c + (j - 0)))
               (fun j => (j, c + (i0 - i0) * Z.of_nat nRx + j)))
      by (intros; f_equal; lia).
    destruct (omapM _ (map _ (zseq 0 nRx))) as [ys| | |];
      unfold omap; cbn [bind]; auto.
    fold (@omap (list dB)). rewrite IH by nia.
    rewrite (flat_map_ext
               (fun i => map (fun j => (j, c + Z.of_nat nRx
                                           + (i - (i0 + 1)) * Z.of_nat nRx + j))
                           (zseq 0 nRx))
               (fun i => map (fun j => (j, c + (i - i0) * Z.of_nat nRx + j))
                           (zseq 0 nRx)))
      by (intros; apply map_ext; intros; f_equal; lia).
    destruct (omapM _ _) as [zs| | |]; unfold omap; cbn [bind]; auto.
    rewrite <- app_assoc. do 2 f_equal. lia.
Qed.

Lemma snr_loops_closed (measurements : MIMO_SNR_LIST) (nTx nRx : Z) :
  0 <= nTx -> 0 <= nRx -> nRx * nTx < 256 ->
  ofold (fun _ st => ofold (snr_body measurements) (zseq 0 (Z.to_nat nRx)) st)
    (zseq 0 (Z.to_nat nTx)) (0, [])
  = omap (fun cells => (nTx * nRx, cells))
      (omapM (stream_cell measurements) (stream_indices nTx nRx)).
Proof.
  intros HT HR HP.
  rewrite snr_outer by (rewrite ?Z2Nat.id by lia; lia).
  rewrite !Z2Nat.id by lia. unfold stream_indices.
  rewrite (flat_map_ext
             (fun i => map (fun j => (j, 0 + (i - 0) * nRx + j))
                         (zseq 0 (Z.to_nat nRx)))
             (fun i => map (fun j => (j, i * nRx + j)) (zseq 0 (Z.to_nat nRx))))
    by (intros; apply map_ext; intros; f_equal; lia).
  destruct (omapM _ _); reflexivity.
Qed.

Lemma snr_cells_enough (fuel : nat) (nTx nRx : Z)
    (measurements : MIMO_SNR_LIST) :
  0 <= nTx <= 255 -> 0 <= nRx <= 255 -> nRx * nTx < 256 -> (256 <= fuel)%nat ->
  snr_cells fuel nTx nRx measurements
  = omap (fun cells => (nTx * nRx, cells))
      (omapM (stream_cell measurements) (stream_indices nTx nRx)).
Proof.
  intros HT HR HP Hf. unfold snr_cells.
  rewrite (for_u8_enough _ _ _ nTx (fun i => eq_refl)) by lia.
  rewrite Z.sub_0_r. rewrite <- snr_loops_closed by lia.
  apply ofold_ext. intros i st _.
  rewrite (for_u8_enough _ _ _ nRx (fun i => eq_refl)) by lia.
  now rewrite Z.sub_0_r.
Qed.

Lemma snr_cells_Done (fuel : nat) (nTx nRx : Z)
    (measurements : MIMO_SNR_LIST) (st : Z * list dB) :
  0 <= nTx <= 255 -> 0 <= nRx <= 255 -> nRx * nTx < 256 ->
  snr_cells fuel nTx nRx measurements = Done st ->
  omapM (stream_cell measurements) (stream_indices nTx nRx) = Done (snd st).
Proof.
  intros HT HR HP H. unfold snr_cells in H.
  apply (for_u8_Done _ _ _ nTx (fun i => eq_refl)) in H; try lia.
  rewrite Z.sub_0_r in H.
  apply (ofold_ext_Done _ _ _
           (fun _ st => ofold (snr_body measurements)
                          (zseq 0 (Z.to_nat nRx)) st)) in H.
  - rewrite snr_loops_closed in H by lia.
    destruct (omapM _ _); try discriminate. injection H as <-. reflexivity.
  - intros i s r Hi.
    apply (for_u8_Done _ _ _ nRx (fun i => eq_refl)) in Hi; try lia.
    now rewrite Z.sub_0_r in Hi.
Qed.

Lemma omapM_cases (I B : Type) (f : I -> outcome B) (l : list I) :
  (forall x, (exists y, f x = Done y) \/ f x = OutOfRange) ->
  (exists ys, omapM f l = Done ys) \/ omapM f l = OutOfRange.
Proof.
  intros Hf. induction l as [|a l IH]; simpl; eauto.
  destruct (Hf a) as [(y & ->)| ->]; simpl; auto.
  destruct IH as [(ys & ->)| ->]; simpl; eauto.
Qed.

Lemma Forall2_nth_error_r (A B : Type) (R : A -> B -> Prop) (l1 : list A)
    (l2 : list B) (n : nat) (y : B) :
  Forall2 R l1 l2 -> nth_error l2 n = Some y ->
  exists x, nth_error l1 n = Some x /\ R x y.
Proof.
  intros H. revert n. induction H as [|a b l1 l2 Hab _ IH]; intros n Hn.
  - destruct n; discriminate.
  - destruct n as [|n]; simpl in *; [injection Hn as <-; eauto|auto].
Qed.

(** ** The reduction, line by line *)

Section Reduction.

Variable env : sim_env.
Variable parameters : MIMO_PARAMETERS.
Variable from : Mac48Address.
Variable mimoMeasurements : MIMO_SNR_LIST.
Variable differentRxConfigs : bool.
Variables nTxAntennas nRxAntennas rxCombinationsTested : Z.

(** The data line of a popped element, without fuel: the blocks of the
    sweep its identifiers address, the fields of the two combinations,
    and the SNR columns read from the blocks. *)
Definition row_of (e : SNR_MEASUREMENT_AWV_IDs) : outcome mimo_row :=
  ms <- omapM (fetch_cell mimoMeasurements (tx_id e) rxCombinationsTested)
          (rx_ids e) ;;
  tx <- omapM (config_cell
                 (GetMimoConfigFromTxAwvId (dstWifiMac parameters) (tx_id e)
                    (GetAddress (dstWifiMac parameters))))
          (zseq 0 (Z.to_nat nTxAntennas)) ;;
  rx <- omapM (config_cell
                 (GetMimoConfigFromRxAwvId (srcWifiMac parameters) (rx_ids e)
                    from))
          (zseq 0 (Z.to_nat nRxAntennas)) ;;
  snr <- omapM (stream_cell ms) (stream_indices nTxAntennas nRxAntennas) ;;
  Done {| row_src := u32 (srcNodeID parameters + 1);
          row_dst := u32 (dstNodeID parameters + 1);
          row_trace := GetCurrentTraceIndex env;
          row_tx := tx; row_rx := rx; row_snr := snr;
          row_min := RatioToDb (min_snr e) |}.

Lemma entry_row_enough (fuel : nat) (e : SNR_MEASUREMENT_AWV_IDs) :
  0 <= nTxAntennas <= 255 -> 0 <= nRxAntennas <= 255 ->
  nRxAntennas * nTxAntennas < 256 -> (256 <= fuel)%nat ->
  entry_row fuel env parameters from mimoMeasurements nTxAntennas nRxAntennas
    rxCombinationsTested e
  = row_of e.
Proof.
  intros HT HR HP Hf. unfold entry_row, row_of, write_row.
  rewrite fetch_measurements_collect.
  destruct (omapM (fetch_cell _ _ _) _) as [ms| | |]; cbn [bind]; auto.
  rewrite !config_cells_enough by lia.
  destruct (omapM (config_cell _) _) as [tx| | |]; cbn [bind]; auto.
  destruct (omapM (config_cell _) _) as [rx| | |]; cbn [bind]; auto.
  rewrite snr_cells_enough by lia.
  destruct (omapM (stream_cell ms) _) as [snr| | |]; reflexivity.
Qed.

Lemma entry_row_Done (fuel : nat) (e : SNR_MEASUREMENT_AWV_IDs)
    (row : mimo_row) :
  0 <= nTxAntennas <= 255 -> 0 <= nRxAntennas <= 255 ->
  nRxAntennas * nTxAntennas < 256 ->
  entry_row fuel env parameters from mimoMeasurements nTxAntennas nRxAntennas
    rxCombinationsTested e = Done row ->
  row_of e = Done row.
Proof.
  intros HT HR HP H. unfold entry_row, write_row in H. unfold row_of.
  rewrite fetch_measurements_collect in H.
  apply bind_Done_inv in H as (ms & -> & H).
  apply bind_Done_inv in H as (tx & Htx & H).
  apply bind_Done_inv in H as (rx & Hrx & H).
  apply bind_Done_inv in H as (snr & Hsnr & H).
  apply config_cells_Done in Htx; [|lia]. apply config_cells_Done in Hrx; [|lia].
  apply snr_cells_Done in Hsnr; try lia.
  cbn [bind]. rewrite Htx, Hrx, Hsnr. exact H.
Qed.

Lemma row_of_cases (e : SNR_MEASUREMENT_AWV_IDs) :
  (exists row, row_of e = Done row) \/ row_of e = OutOfRange.
Proof.
  unfold row_of.
  destruct (omapM_cases _ _
              (fetch_cell mimoMeasurements (tx_id e) rxCombinationsTested)
              (rx_ids e)) as [(ms & ->)| ->]; cbn [bind]; auto.
  { intros x. apply vec_at_cases. }
  assert (Hcfg : forall c x,
             (exists y, config_cell c x = Done y) \/ config_cell c x = OutOfRange).
  { intros c x. unfold config_cell.
    destruct (vec_at_cases _ c x) as [(a & ->)| ->]; simpl; eauto. }
  destruct (omapM_cases _ _ (config_cell
              (GetMimoConfigFromTxAwvId (dstWifiMac parameters) (tx_id e)
                 (GetAddress (dstWifiMac parameters))))
              (zseq 0 (Z.to_nat nTxAntennas)) (Hcfg _))
    as [(tx & ->)| ->]; cbn [bind]; auto.
  destruct (omapM_cases _ _ (config_cell
              (GetMimoConfigFromRxAwvId (srcWifiMac parameters) (rx_ids e) from))
              (zseq 0 (Z.to_nat nRxAntennas)) (Hcfg _))
    as [(rx & ->)| ->]; cbn [bind]; auto.
  destruct (omapM_cases _ _ (stream_cell ms)
              (stream_indices nTxAntennas nRxAntennas))
    as [(snr & ->)| ->]; cbn [bind]; eauto.
  intros jk. unfold stream_cell.
  destruct (vec_at_cases _ ms (fst jk)) as [(m & ->)| ->]; cbn [bind]; auto.
  destruct (vec_at_cases _ (snd m) (snd jk)) as [(v & ->)| ->]; cbn [bind]; eauto.
Qed.

Lemma row_of_min (e : SNR_MEASUREMENT_AWV_IDs) (row : mimo_row) :
  row_of e = Done row -> row_min row = RatioToDb (min_snr e).
Proof.
  unfold row_of. intros H.
  apply bind_Done_inv in H as (ms & _ & H).
  apply bind_Done_inv in H as (tx & _ & H).
  apply bind_Done_inv in H as (rx & _ & H).
  apply bind_Done_inv in H as (snr & _ & H).
  now injection H as <-.
Qed.

(** What a completed reduction has written. *)
Lemma reduction_Done (fuel : nat) (minSnr : SNR_MEASUREMENT_AWV_IDs_QUEUE)
    (full reduced : mimo_stream) :
  is_u8 nTxAntennas -> is_u8 nRxAntennas ->
  MuMimoMimoPhaseMeasurements fuel env parameters from mimoMeasurements minSnr
    differentRxConfigs nTxAntennas nRxAntennas rxCombinationsTested
  = Done (full, reduced) ->
  nTxAntennas < 255 /\ nRxAntennas < 255
  /\ nRxAntennas * nTxAntennas < 256
  /\ fst reduced = fst full
  /\ Forall2 (fun e row => row_of e = Done row) (pq_drain minSnr) (snd full)
  /\ Forall2 (fun e row => row_of e = Done row)
       (reduced_entries differentRxConfigs [] (pq_drain minSnr)) (snd reduced).
Proof.
  intros HT HR H. unfold MuMimoMimoPhaseMeasurements in H.
  apply bind_Done_inv in H as (h & Hh & H).
  rewrite Hh in H. cbn [bind] in H.
  apply bind_Done_inv in H as ([[txIds rows] rowsR] & Hd & H).
  injection H as <- <-.
  destruct (mimo_header_Done _ _ _ _ HT HR Hh) as (H1 & H2 & H3).
  apply drain_loop_Done in Hd as (r1 & r2 & -> & -> & _ & Hf & Hr).
  unfold is_u8 in *. simpl.
  repeat split; auto;
    (eapply Forall2_impl; [|eassumption]); intros e row He;
    apply (entry_row_Done fuel); auto; lia.
Qed.

(** The reduction returns when the two header loops end and every stored
    element's line can be written. *)
Lemma reduction_returns (fuel : nat) (minSnr : SNR_MEASUREMENT_AWV_IDs_QUEUE) :
  0 <= nTxAntennas < 255 -> 0 <= nRxAntennas < 255 ->
  nRxAntennas * nTxAntennas < 256 ->
  (256 <= fuel)%nat -> (length minSnr <= fuel)%nat ->
  (forall e, In e minSnr -> exists row, row_of e = Done row) ->
  exists out,
    MuMimoMimoPhaseMeasurements fuel env parameters from mimoMeasurements minSnr
      differentRxConfigs nTxAntennas nRxAntennas rxCombinationsTested
    = Done out.
Proof.
  intros HT HR HP Hf Hq Hall. unfold MuMimoMimoPhaseMeasurements.
  destruct (mimo_header_returns fuel nTxAntennas nRxAntennas HT HR HP Hf)
    as (h & ->).
  cbn [bind].
  destruct (drain_loop_returns fuel env parameters from mimoMeasurements
              differentRxConfigs nTxAntennas nRxAntennas rxCombinationsTested
              fuel minSnr ([], [], []) Hq) as ([[txIds rows] rowsR] & ->).
  - intros e He. rewrite entry_row_enough by lia. auto.
  - cbn [bind]. eauto.
Qed.

(** With 255 TX antennas the first header loop tests [i <= 255] on a
    [uint8_t]: the handler never gets to the queue. *)
Lemma reduction_spins_with_255_tx_antennas (fuel : nat)
    (minSnr : SNR_MEASUREMENT_AWV_IDs_QUEUE) :
  MuMimoMimoPhaseMeasurements fuel env parameters from mimoMeasurements minSnr
    differentRxConfigs 255 nRxAntennas rxCombinationsTested
  = Timeout.
Proof.
  unfold MuMimoMimoPhaseMeasurements. now rewrite mimo_header_Timeout.
Qed.

End Reduction.

(** ** The reduced trace *)

Lemma reduced_entries_In (flag : bool) (es : list SNR_MEASUREMENT_AWV_IDs) :
  forall txIds x, In x (reduced_entries flag txIds es) -> In x es.
Proof.
  induction es as [|e es IH]; intros txIds x; simpl; auto.
  destruct (writes_reduced flag txIds e); simpl; intros H.
  - destruct H as [H|H]; eauto.
  - eauto.
Qed.

Lemma reduced_entries_length (flag : bool) (es : list SNR_MEASUREMENT_AWV_IDs) :
  forall txIds, (length (reduced_entries flag txIds es) <= length es)%nat.
Proof.
  induction es as [|e es IH]; intros txIds; simpl; auto.
  destruct (writes_reduced flag txIds e); simpl.
  - specialize (IH (txIds ++ [tx_id e])). lia.
  - specialize (IH txIds). lia.
Qed.

Lemma reduced_entries_all (es : list SNR_MEASUREMENT_AWV_IDs) :
  forall txIds, reduced_entries true txIds es = es.
Proof.
  induction es as [|e es IH]; intros txIds; simpl; auto. now rewrite IH.
Qed.

(** Following the specification's words: an element reaches the reduced
    trace when the flag is set or no element popped before it has the same
    txId. *)
Fixpoint first_per_tx (flag : bool) (earlier es : list SNR_MEASUREMENT_AWV_IDs)
    : list SNR_MEASUREMENT_AWV_IDs :=
  match es with
  | [] => []
  | e :: es' =>
      if flag || negb (existsb (fun e' => tx_id e =? tx_id e') earlier) then
        e :: first_per_tx flag (earlier ++ [e]) es'
      else first_per_tx flag (earlier ++ [e]) es'
  end.

(** The code tests [txIds], which holds the txId of the elements written
    so far; that is the same test. *)
Lemma reduced_entries_first_per_tx (flag : bool)
    (es : list SNR_MEASUREMENT_AWV_IDs) :
  forall (txIds : list Z) (earlier : list SNR_MEASUREMENT_AWV_IDs),
    (forall t, existsb (Z.eqb t) txIds
               = existsb (fun e' => t =? tx_id e') earlier) ->
    reduced_entries flag txIds es = first_per_tx flag earlier es.
Proof.
  induction es as [|e es IH]; intros txIds earlier Hinv; simpl; auto.
  unfold writes_reduced. rewrite (Hinv (tx_id e)).
  destruct (flag || negb (existsb (fun e' => tx_id e =? tx_id e') earlier))
    eqn:Hk.
  - f_equal. apply IH. intros t. rewrite !existsb_snoc. now rewrite Hinv.
  - apply IH. intros t. rewrite existsb_snoc, Hinv.
    apply orb_false_iff in Hk as (_ & Hk). apply negb_false_iff in Hk.
    destruct (Z.eqb_spec t (tx_id e)) as [->|]; [|now rewrite orb_false_r].
    now rewrite Hk.
Qed.

Lemma reduced_entries_app (flag : bool) (l1 l2 : list SNR_MEASUREMENT_AWV_IDs) :
  forall txIds,
    reduced_entries flag txIds (l1 ++ l2)
    = reduced_entries flag txIds l1
      ++ reduced_entries flag
           (txIds ++ map tx_id (reduced_entries flag txIds l1)) l2.
Proof.
  induction l1 as [|e l1 IH]; intros txIds; simpl.
  - now rewrite app_nil_r.
  - destruct (writes_reduced flag txIds e); simpl; rewrite IH; auto.
    now rewrite <- app_assoc.
Qed.

Lemma NoDup_snoc (A : Type) (l : list A) (a : A) :
  NoDup l -> ~ In a l -> NoDup (l ++ [a]).
Proof.
  induction l as [|x l IH]; intros Hl Ha; simpl.
  - constructor; [intros []|constructor].
  - inversion Hl as [|? ? Hx Hl']; subst. constructor.
    + rewrite in_app_iff. simpl. intros [H|[H|[]]]; [auto|].
      apply Ha. now left.
    + apply IH; auto. intros H. apply Ha. now right.
Qed.

Lemma reduced_entries_NoDup (es : list SNR_MEASUREMENT_AWV_IDs) :
  forall txIds,
    NoDup txIds ->
    NoDup (txIds ++ map tx_id (reduced_entries false txIds es)).
Proof.
  induction es as [|e es IH]; intros txIds Hnd; simpl.
  - now rewrite app_nil_r.
  - unfold writes_reduced. simpl.
    destruct (existsb (Z.eqb (tx_id e)) txIds) eqn:Hex; simpl; auto.
    specialize (IH (txIds ++ [tx_id e])). rewrite <- app_assoc in IH.
    apply IH. apply NoDup_snoc; auto.
    intros Hin. assert (existsb (Z.eqb (tx_id e)) txIds = true); [|congruence].
    apply existsb_exists. exists (tx_id e). split; auto. apply Z.eqb_refl.
Qed.

Lemma Forall2_impl_In (A B : Type) (R1 R2 : A -> B -> Prop) (l1 : list A)
    (l2 : list B) :
  (forall a b, In a l1 -> R1 a b -> R2 a b) ->
  Forall2 R1 l1 l2 -> Forall2 R2 l1 l2.
Proof.
  intros H F. induction F as [|a b l1 l2 Hab F IH]; constructor.
  - apply H; auto. now left.
  - apply IH. intros; apply H; auto. now right.
Qed.

Lemma Forall2_Done_eq (A B : Type) (f : A -> outcome B) (l : list A)
    (r1 r2 : list B) :
  Forall2 (fun a b => f a = Done b) l r1 ->
  Forall2 (fun a b => f a = Done b) l r2 -> r1 = r2.
Proof.
  intros H. revert r2. induction H as [|a b l r1 Hab _ IH]; intros r2 H2.
  - now inversion H2.
  - inversion H2 as [|? b' ? r2' Hab' H2']; subst. f_equal; auto. congruence.
Qed.

(** C2: in a completed reduction every popped element has its line in
    the full trace, in pop order.  The reduced trace holds the lines of
    the elements for which the flag is set or no element popped before has
    the same txId; an element popped after [pre] is written to it exactly
    when the flag is set or no element of [pre] already written there has
    its txId.  With the flag set the two traces have the same lines;
    without it no two lines of the reduced trace come from elements with
    one txId. *)
Theorem reduced_trace_one_line_per_tx :
  forall (fuel : nat) (env : sim_env) (parameters : MIMO_PARAMETERS)
         (from : Mac48Address) (mimoMeasurements : MIMO_SNR_LIST)
         (minSnr : SNR_MEASUREMENT_AWV_IDs_QUEUE) (differentRxConfigs : bool)
         (nTx nRx rxCombinationsTested : Z) (full reduced : mimo_stream),
    is_u8 nTx -> is_u8 nRx ->
    MuMimoMimoPhaseMeasurements fuel env parameters from mimoMeasurements
      minSnr differentRxConfigs nTx nRx rxCombinationsTested
    = Done (full, reduced) ->
    Forall2 (fun e row =>
               row_of env parameters from mimoMeasurements nTx nRx
                 rxCombinationsTested e = Done row)
      (pq_drain minSnr) (snd full)
    /\ Forall2 (fun e row =>
                  row_of env parameters from mimoMeasurements nTx nRx
                    rxCombinationsTested e = Done row)
         (first_per_tx differentRxConfigs [] (pq_drain minSnr)) (snd reduced)
    /\ (forall pre e,
          first_per_tx differentRxConfigs [] (pre ++ [e])
          = first_per_tx differentRxConfigs [] pre
            ++ (if differentRxConfigs
                   || negb (existsb (fun e' => tx_id e =? tx_id e')
                              (first_per_tx differentRxConfigs [] pre))
                then [e] else []))
    /\ (differentRxConfigs = true -> snd reduced = snd full)
    /\ (differentRxConfigs = false ->
        NoDup (map tx_id (first_per_tx false [] (pq_drain minSnr)))).
Proof.
  intros fuel env parameters from mimoMeasurements minSnr flag nTx nRx rxC
    full reduced HT HR H.
  apply reduction_Done in H as (_ & _ & _ & _ & Hf & Hr); auto.
  assert (Heq : forall es,
             reduced_entries flag [] es = first_per_tx flag [] es).
  { intros es. apply reduced_entries_first_per_tx. reflexivity. }
  rewrite Heq in Hr. repeat split; auto.
  - intros pre e. rewrite <- !Heq. rewrite reduced_entries_app. simpl.
    unfold writes_reduced. f_equal.
    replace (existsb (Z.eqb (tx_id e)) (map tx_id (reduced_entries flag [] pre)))
      with (existsb (fun e' => tx_id e =? tx_id e') (reduced_entries flag [] pre)).
    + destruct (flag || _); reflexivity.
    + induction (reduced_entries flag [] pre) as [|x l IH]; simpl; auto.
      now rewrite IH.
  - intros ->. rewrite <- Heq, reduced_entries_all in Hr.
    eapply Forall2_Done_eq; eauto.
  - intros ->. rewrite <- Heq.
    apply (reduced_entries_NoDup (pq_drain minSnr) []). constructor.
Qed.

(** C5 (amended): the reduction applies no bound.  A completed reduction
    has written as many lines to the full trace as the queue it was given
    held elements; the reduced trace has at most as many, and as many when
    [differentRxConfigs] is set. *)
Theorem reduction_writes_every_queued_entry :
  forall (fuel : nat) (env : sim_env) (parameters : MIMO_PARAMETERS)
         (from : Mac48Address) (mimoMeasurements : MIMO_SNR_LIST)
         (minSnr : SNR_MEASUREMENT_AWV_IDs_QUEUE) (differentRxConfigs : bool)
         (nTx nRx rxCombinationsTested : Z) (full reduced : mimo_stream),
    is_u8 nTx -> is_u8 nRx ->
    MuMimoMimoPhaseMeasurements fuel env parameters from mimoMeasurements
      minSnr differentRxConfigs nTx nRx rxCombinationsTested
    = Done (full, reduced) ->
    length (snd full) = length minSnr
    /\ (length (snd reduced) <= length minSnr)%nat
    /\ (differentRxConfigs = true -> length (snd reduced) = length minSnr).
Proof.
  intros fuel env parameters from mimoMeasurements minSnr flag nTx nRx rxC
    full reduced HT HR H.
  apply reduction_Done in H as (_ & _ & _ & _ & Hf & Hr); auto.
  apply Forall2_length in Hf, Hr. rewrite pq_drain_length in Hf.
  repeat split.
  - auto.
  - rewrite <- Hr, <- (pq_drain_length minSnr). apply reduced_entries_length.
  - intros ->. rewrite reduced_entries_all in Hr.
    now rewrite <- Hr, pq_drain_length.
Qed.

(** ** Order of the traces *)

(** [a] is not below [b] in minimum per-stream ratio. *)
Definition not_below (a b : SNR_MEASUREMENT_AWV_IDs) : Prop :=
  ratio_ltb (min_snr a) (min_snr b) = false.

Section Order.

(** [operator<] on the ratios is a strict weak ordering, as
    [std::priority_queue] requires of its comparison: it is for
    [double] values none of which is a NaN. *)
Hypothesis ratio_ltb_asym :
  forall a b, ratio_ltb a b = true -> ratio_ltb b a = false.
Hypothesis ratio_ltb_negtrans :
  forall a b c, ratio_ltb a b = false -> ratio_ltb b c = false ->
                ratio_ltb a c = false.

Lemma ratio_ltb_irrefl (a : ratio) : ratio_ltb a a = false.
Proof.
  destruct (ratio_ltb a a) eqn:E; auto. now rewrite (ratio_ltb_asym a a E) in E.
Qed.

(** The element the scan keeps is not below the one it started from nor
    below any element it leaves behind. *)
Lemma extract_max_greatest (q : list SNR_MEASUREMENT_AWV_IDs) :
  forall best,
    not_below (fst (extract_max best q)) best
    /\ Forall (not_below (fst (extract_max best q))) (snd (extract_max best q)).
Proof.
  unfold not_below, min_snr.
  induction q as [|x q IH]; intros best; simpl.
  - split; [apply ratio_ltb_irrefl|constructor].
  - destruct (entry_ltb best x) eqn:E; unfold entry_ltb in E.
    + assert (Hxb : ratio_ltb (fst x) (fst best) = false).
      { destruct (ratio_ltb (fst best) (fst x)) eqn:E1; [auto|].
        simpl in E. apply andb_true_iff in E as (E & _).
        now apply negb_true_iff in E. }
      specialize (IH x). destruct (extract_max x q) as [m r]. simpl in *.
      destruct IH as (Hm & Hr). split; [eauto|]. constructor; eauto.
    + apply orb_false_iff in E as (Hbx & _).
      specialize (IH best). destruct (extract_max best q) as [m r]. simpl in *.
      destruct IH as (Hm & Hr). split; [auto|]. constructor; eauto.
Qed.

Lemma pq_drain_sorted (q : SNR_MEASUREMENT_AWV_IDs_QUEUE) :
  StronglySorted not_below (pq_drain q).
Proof.
  remember (length q) as n eqn:Hn. revert q Hn.
  induction n as [|n IH]; intros q Hn.
  - destruct q; [constructor|discriminate].
  - destruct (pq_top q) as [e|] eqn:Ht.
    + rewrite (pq_drain_top q e Ht).
      pose proof (pq_pop_length q e Ht) as Hl. constructor.
      * apply IH. lia.
      * apply Forall_forall. intros x Hx. apply pq_drain_In in Hx.
        destruct q as [|y q]; [discriminate|]. simpl in Ht, Hx.
        injection Ht as <-.
        destruct (extract_max_greatest q y) as (_ & Hr).
        rewrite Forall_forall in Hr. auto.
    + rewrite (pq_drain_empty q Ht). constructor.
Qed.

Lemma reduced_entries_sorted (flag : bool) (es : list SNR_MEASUREMENT_AWV_IDs) :
  StronglySorted not_below es ->
  forall txIds, StronglySorted not_below (reduced_entries flag txIds es).
Proof.
  induction 1 as [|e es Hs IH Hall]; intros txIds; simpl; [constructor|].
  destruct (writes_reduced flag txIds e); auto.
  constructor; auto. apply Forall_forall. intros x Hx.
  apply reduced_entries_In in Hx. rewrite Forall_forall in Hall. auto.
Qed.

Lemma rows_min_column (env : sim_env) (parameters : MIMO_PARAMETERS)
    (from : Mac48Address) (mimoMeasurements : MIMO_SNR_LIST)
    (nTx nRx rxC : Z) (es : list SNR_MEASUREMENT_AWV_IDs)
    (rows : list mimo_row) :
  Forall2 (fun e row =>
             row_of env parameters from mimoMeasurements nTx nRx rxC e
             = Done row) es rows ->
  map row_min rows = map (fun e => RatioToDb (min_snr e)) es.
Proof.
  induction 1 as [|e row es rows He _ IH]; simpl; auto.
  f_equal; auto. eapply row_of_min; eauto.
Qed.

(** C3: the lines of the full trace and the lines of the reduced trace
    are in descending order of the minimum per-stream ratio: each trace's
    [min_Stream_SNR] column is the conversion of the ratios of a list of
    elements in which no element is below a later one, namely the elements
    in the order the max-first queue yields them, and those among them
    that reach the reduced trace. *)
Theorem traces_descend_by_min_snr :
  forall (fuel : nat) (env : sim_env) (parameters : MIMO_PARAMETERS)
         (from : Mac48Address) (mimoMeasurements : MIMO_SNR_LIST)
         (minSnr : SNR_MEASUREMENT_AWV_IDs_QUEUE) (differentRxConfigs : bool)
         (nTx nRx rxCombinationsTested : Z) (full reduced : mimo_stream),
    is_u8 nTx -> is_u8 nRx ->
    MuMimoMimoPhaseMeasurements fuel env parameters from mimoMeasurements
      minSnr differentRxConfigs nTx nRx rxCombinationsTested
    = Done (full, reduced) ->
    StronglySorted not_below (pq_drain minSnr)
    /\ map row_min (snd full)
       = map (fun e => RatioToDb (min_snr e)) (pq_drain minSnr)
    /\ StronglySorted not_below
         (reduced_entries differentRxConfigs [] (pq_drain minSnr))
    /\ map row_min (snd reduced)
       = map (fun e => RatioToDb (min_snr e))
           (reduced_entries differentRxConfigs [] (pq_drain minSnr)).
Proof.
  intros fuel env parameters from mimoMeasurements minSnr flag nTx nRx rxC
    full reduced HT HR H.
  apply reduction_Done in H as (_ & _ & _ & _ & Hf & Hr); auto.
  pose proof (pq_drain_sorted minSnr) as Hs.
  repeat split; auto.
  - eapply rows_min_column; eauto.
  - now apply reduced_entries_sorted.
  - eapply rows_min_column; eauto.
Qed.

End Order.

(** ** Addressing the sweep *)

Lemma sweep_index_bounds (txId rxC rxId : Z) :
  is_u16 txId -> is_u8 rxC -> is_u16 rxId ->
  -256 <= sweep_index txId rxC rxId < 16777216.
Proof. unfold is_u16, is_u8, sweep_index. intros. nia. Qed.

Lemma to_size_t_nonneg (x : Z) :
  0 <= x < 16777216 -> to_size_t x = x.
Proof. intros H. unfold to_size_t. apply Z.mod_small. lia. Qed.

(** A negative [int] converts to an index no vector has. *)
Lemma to_size_t_negative (x : Z) :
  -256 <= x < 0 -> to_size_t x = x + 18446744073709551616.
Proof.
  intros H. unfold to_size_t.
  rewrite <- (Z.mod_add x 1 18446744073709551616) by lia.
  apply Z.mod_small. lia.
Qed.

Lemma fetch_cell_Done (mimoMeasurements : MIMO_SNR_LIST) (txId rxC : Z)
    (rxId : Z * Z) (m : snr_tag * list ratio) :
  is_u16 txId -> is_u8 rxC -> is_u16 (snd rxId) ->
  Z.of_nat (length mimoMeasurements) <= size_max ->
  fetch_cell mimoMeasurements txId rxC rxId = Done m ->
  0 <= sweep_index txId rxC (snd rxId) < Z.of_nat (length mimoMeasurements)
  /\ nth_error mimoMeasurements (Z.to_nat (sweep_index txId rxC (snd rxId)))
     = Some m.
Proof.
  intros HT HC HR Hmax H. unfold fetch_cell in H.
  pose proof (sweep_index_bounds txId rxC (snd rxId) HT HC HR) as Hb.
  apply vec_at_Done in H as (Hr & Hn).
  destruct (Z_lt_le_dec (sweep_index txId rxC (snd rxId)) 0) as [Hneg|Hpos].
  - rewrite to_size_t_negative in Hr by lia. unfold size_max in Hmax. lia.
  - rewrite to_size_t_nonneg in Hr, Hn by lia. auto.
Qed.

(** The SNR columns of a line are read from the blocks of the sweep at
    the indices [(txId - 1) * rxCombinationsTested + rxId - 1], [rxId]
    running over the element's RX identifiers: column [i * nRx + j] is the
    conversion of position [i * nRx + j] of the block addressed by the
    [j]-th RX identifier. *)
Definition emitted_from_sweep (mimoMeasurements : MIMO_SNR_LIST)
    (nTx nRx rxCombinationsTested : Z) (e : SNR_MEASUREMENT_AWV_IDs)
    (row : mimo_row) : Prop :=
  Forall2
    (fun jk d =>
       exists rxId block v,
         nth_error (rx_ids e) (Z.to_nat (fst jk)) = Some rxId
         /\ 0 <= (tx_id e - 1) * rxCombinationsTested + (snd rxId - 1)
         /\ nth_error mimoMeasurements
              (Z.to_nat ((tx_id e - 1) * rxCombinationsTested + (snd rxId - 1)))
            = Some block
         /\ nth_error (snd block) (Z.to_nat (snd jk)) = Some v
         /\ d = RatioToDb v)
    (stream_indices nTx nRx) (row_snr row).

Lemma row_of_emitted (env : sim_env) (parameters : MIMO_PARAMETERS)
    (from : Mac48Address) (mimoMeasurements : MIMO_SNR_LIST)
    (nTx nRx rxC : Z) (e : SNR_MEASUREMENT_AWV_IDs) (row : mimo_row) :
  is_u8 rxC -> wf_entry e ->
  Z.of_nat (length mimoMeasurements) <= size_max ->
  row_of env parameters from mimoMeasurements nTx nRx rxC e = Done row ->
  emitted_from_sweep mimoMeasurements nTx nRx rxC e row.
Proof.
  intros HC (HT & HRs) Hmax H. unfold row_of in H.
  apply bind_Done_inv in H as (ms & Hms & H).
  apply bind_Done_inv in H as (tx & _ & H).
  apply bind_Done_inv in H as (rx & _ & H).
  apply bind_Done_inv in H as (snr & Hsnr & H).
  injection H as <-. unfold emitted_from_sweep. cbn [row_snr].
  apply omapM_Done in Hms, Hsnr.
  eapply Forall2_impl; [|exact Hsnr].
  intros jk d Hd. unfold stream_cell in Hd.
  apply bind_Done_inv in Hd as (m & Hm & Hd).
  apply bind_Done_inv in Hd as (v & Hv & Hd). injection Hd as <-.
  apply vec_at_Done in Hm as (_ & Hm). apply vec_at_Done in Hv as (_ & Hv).
  destruct (Forall2_nth_error_r _ _ _ _ _ _ _ Hms Hm) as (rxId & Hrx & Hf).
  rewrite Forall_forall in HRs.
  apply fetch_cell_Done in Hf as (Hr & Hn); auto.
  - exists rxId, m, v. unfold sweep_index in Hr, Hn.
    replace ((tx_id e - 1) * rxC + (snd rxId - 1))
      with ((tx_id e - 1) * rxC + snd rxId - 1) by lia.
    repeat split; auto. lia.
  - apply HRs. eapply nth_error_In; eauto.
Qed.

(** C1: in a completed reduction, the SNR columns of the line of every
    popped element are read from the flat sweep at the indices
    [(txId - 1) * rxCombinationsTested + (rxId - 1)], for the element's
    txId and each of its RX identifiers; this holds of the lines of the
    full trace and of the lines of the reduced trace. *)
Theorem measurements_addressed_by_combination_indices :
  forall (fuel : nat) (env : sim_env) (parameters : MIMO_PARAMETERS)
         (from : Mac48Address) (mimoMeasurements : MIMO_SNR_LIST)
         (minSnr : SNR_MEASUREMENT_AWV_IDs_QUEUE) (differentRxConfigs : bool)
         (nTx nRx rxCombinationsTested : Z) (full reduced : mimo_stream),
    is_u8 nTx -> is_u8 nRx -> is_u8 rxCombinationsTested ->
    Forall wf_entry minSnr ->
    Z.of_nat (length mimoMeasurements) <= size_max ->
    MuMimoMimoPhaseMeasurements fuel env parameters from mimoMeasurements
      minSnr differentRxConfigs nTx nRx rxCombinationsTested
    = Done (full, reduced) ->
    Forall2 (emitted_from_sweep mimoMeasurements nTx nRx rxCombinationsTested)
      (pq_drain minSnr) (snd full)
    /\ Forall2 (emitted_from_sweep mimoMeasurements nTx nRx rxCombinationsTested)
         (reduced_entries differentRxConfigs [] (pq_drain minSnr))
         (snd reduced).
Proof.
  intros fuel env parameters from mimoMeasurements minSnr flag nTx nRx rxC
    full reduced HT HR HC Hwf Hmax H.
  apply reduction_Done in H as (_ & _ & _ & _ & Hf & Hr); auto.
  rewrite Forall_forall in Hwf.
  split.
  - eapply Forall2_impl_In; [|exact Hf]. intros e row He Hrow.
    apply (row_of_emitted env parameters from); auto.
    apply Hwf. now apply pq_drain_In.
  - eapply Forall2_impl_In; [|exact Hr]. intros e row He Hrow.
    apply (row_of_emitted env parameters from); auto.
    apply Hwf. apply pq_drain_In. eapply reduced_entries_In; eauto.
Qed.

(** ** When the reduction fails *)

Lemma extract_max_keeps (q : list SNR_MEASUREMENT_AWV_IDs)
    (best x : SNR_MEASUREMENT_AWV_IDs) :
  In x (best :: q) ->
  In x (fst (extract_max best q) :: snd (extract_max best q)).
Proof.
  revert best. induction q as [|y q IH]; intros best; simpl; auto.
  destruct (entry_ltb best y).
  - specialize (IH y). destruct (extract_max y q) as [m r]. simpl in *.
    intros [H|[H|H]]; auto; destruct IH as [IH|IH]; auto.
  - specialize (IH best). destruct (extract_max best q) as [m r]. simpl in *.
    intros [H|[H|H]]; auto; destruct IH as [IH|IH]; auto.
Qed.

(** Every stored element is popped. *)
Lemma pq_drain_keeps (q : SNR_MEASUREMENT_AWV_IDs_QUEUE)
    (x : SNR_MEASUREMENT_AWV_IDs) :
  In x q -> In x (pq_drain q).
Proof.
  remember (length q) as n eqn:Hn. revert q Hn.
  induction n as [|n IH]; intros q Hn Hin.
  - destruct q; [destruct Hin|discriminate].
  - destruct q as [|y q]; [destruct Hin|].
    rewrite (pq_drain_top (y :: q) _ eq_refl).
    apply (extract_max_keeps q y x) in Hin. destruct Hin as [H|H]; [now left|].
    right. apply IH; auto. simpl. rewrite extract_max_length.
    simpl in Hn. lia.
Qed.

Lemma drain_loop_cases (fuel : nat) (env : sim_env)
    (parameters : MIMO_PARAMETERS) (from : Mac48Address)
    (mimoMeasurements : MIMO_SNR_LIST) (flag : bool) (nTx nRx rxC : Z)
    (n : nat) :
  (forall e,
      (exists row,
          entry_row fuel env parameters from mimoMeasurements nTx nRx rxC e
          = Done row)
      \/ entry_row fuel env parameters from mimoMeasurements nTx nRx rxC e
         = OutOfRange) ->
  forall minSnr st,
    (length minSnr <= n)%nat ->
    (exists st',
        drain_loop n fuel env parameters from mimoMeasurements flag nTx nRx rxC
          minSnr st = Done st')
    \/ drain_loop n fuel env parameters from mimoMeasurements flag nTx nRx rxC
         minSnr st = OutOfRange.
Proof.
  intros Hrow. induction n as [|n IH]; intros minSnr st Hn.
  - destruct minSnr; [simpl; eauto|simpl in Hn; lia].
  - cbn [drain_loop]. destruct (pq_top minSnr) as [top|] eqn:Ht; [|eauto].
    destruct st as [[txIds full] reduced]. rewrite drain_step_entry_row.
    destruct (Hrow top) as [(row & ->)| ->]; cbn [bind]; auto.
    apply IH. pose proof (pq_pop_length minSnr top Ht). lia.
Qed.

Lemma row_of_sweep_in_range (env : sim_env) (parameters : MIMO_PARAMETERS)
    (from : Mac48Address) (mimoMeasurements : MIMO_SNR_LIST)
    (nTx nRx rxC : Z) (e : SNR_MEASUREMENT_AWV_IDs) (row : mimo_row) :
  is_u8 rxC -> wf_entry e ->
  Z.of_nat (length mimoMeasurements) <= size_max ->
  row_of env parameters from mimoMeasurements nTx nRx rxC e = Done row ->
  forall rxId, In rxId (rx_ids e) ->
    0 <= sweep_index (tx_id e) rxC (snd rxId)
      < Z.of_nat (length mimoMeasurements).
Proof.
  intros HC (HT & HRs) Hmax H rxId Hin. unfold row_of in H.
  apply bind_Done_inv in H as (ms & Hms & _). apply omapM_Done in Hms.
  rewrite Forall_forall in HRs.
  revert Hin. induction Hms as [|rx m l ms Hrx _ IH]; intros Hin.
  - destruct Hin.
  - assert (HRl : forall x, In x l -> is_u16 (snd x)).
    { intros x Hx. apply HRs. now right. }
    destruct Hin as [<-|Hin]; [|apply IH; auto; intros; apply HRs; now right].
    apply fetch_cell_Done in Hrx as (Hr & _); auto.
    apply HRs. now left.
Qed.

(** ** When a line can be written *)

Lemma omapM_returns_iff (I B : Type) (f : I -> outcome B) (l : list I) :
  (exists ys, omapM f l = Done ys)
  <-> (forall x, In x l -> exists y, f x = Done y).
Proof.
  induction l as [|a l IH]; simpl.
  - split; [intros _ x []|eauto].
  - split.
    + intros (ys & H) x Hx.
      apply bind_Done_inv in H as (y & Hy & H).
      apply bind_Done_inv in H as (ys' & Hys & _).
      destruct Hx as [<-|Hx]; [eauto|].
      apply IH; eauto.
    + intros H. destruct (H a (or_introl eq_refl)) as (y & ->).
      destruct IH as (_ & IH). destruct IH as (ys & ->).
      { intros x Hx. apply H. now right. }
      simpl. eauto.
Qed.

Lemma Forall2_nth_error_l (A B : Type) (R : A -> B -> Prop) (l1 : list A)
    (l2 : list B) (n : nat) (x : A) :
  Forall2 R l1 l2 -> nth_error l1 n = Some x ->
  exists y, nth_error l2 n = Some y /\ R x y.
Proof.
  intros H. revert n. induction H as [|a b l1 l2 Hab _ IH]; intros n Hn.
  - destruct n; discriminate.
  - destruct n as [|n]; simpl in *; [injection Hn as <-; eauto|auto].
Qed.

Lemma stream_indices_In (nTx nRx : Z) (jk : Z * Z) :
  In jk (stream_indices nTx nRx)
  <-> exists i, 0 <= i < nTx /\ 0 <= fst jk < nRx
                /\ snd jk = i * nRx + fst jk.
Proof.
  unfold stream_indices. rewrite in_flat_map. split.
  - intros (i & Hi & Hjk). apply in_map_iff in Hjk as (j & <- & Hj).
    apply zseq_In in Hi. apply zseq_In in Hj. exists i. cbn [fst snd]. lia.
  - intros (i & Hi & Hj & Hk). exists i. split; [apply zseq_In; lia|].
    apply in_map_iff. exists (fst jk). split; [|apply zseq_In; lia].
    destruct jk as [j k]. cbn [fst snd] in *. now subst k.
Qed.

(** A combination is read at the positions below [n]: it has that many
    entries. *)
Lemma config_cells_return_iff (combination : MIMO_AWV_CONFIGURATION) (n : Z) :
  0 <= n ->
  (exists r, omapM (config_cell combination) (zseq 0 (Z.to_nat n)) = Done r)
  <-> n <= Z.of_nat (length combination).
Proof.
  intros Hn. rewrite omapM_returns_iff. split.
  - intros H. destruct (Z.eq_dec n 0) as [->|Hne]; [lia|].
    destruct (H (n - 1)) as (y & Hy); [apply zseq_In; lia|].
    unfold config_cell in Hy. apply bind_Done_inv in Hy as (c & Hc & _).
    apply vec_at_Done in Hc. lia.
  - intros H i Hi. apply zseq_In in Hi. unfold config_cell.
    destruct (vec_at_in_range _ combination i) as (c & ->); [lia|].
    simpl. eauto.
Qed.

Lemma fetch_cell_returns (mimoMeasurements : MIMO_SNR_LIST) (txId rxC : Z)
    (rxId : Z * Z) :
  is_u16 txId -> is_u8 rxC -> is_u16 (snd rxId) ->
  0 <= sweep_index txId rxC (snd rxId) < Z.of_nat (length mimoMeasurements) ->
  exists m, fetch_cell mimoMeasurements txId rxC rxId = Done m.
Proof.
  intros HT HC HR Hin. unfold fetch_cell.
  pose proof (sweep_index_bounds txId rxC (snd rxId) HT HC HR) as Hb.
  rewrite to_size_t_nonneg by lia. now apply vec_at_in_range.
Qed.

(** Every bounds-checked access made for the line of [e] is within
    range: the blocks of the sweep its identifiers address, the first
    [nTx] and [nRx] entries of the two configurations, and, for every
    stream, the block of the [j]-th RX identifier at position
    [i * nRx + j]. *)
Definition accesses_in_range (parameters : MIMO_PARAMETERS)
    (from : Mac48Address) (mimoMeasurements : MIMO_SNR_LIST)
    (nTx nRx rxC : Z) (e : SNR_MEASUREMENT_AWV_IDs) : Prop :=
  (forall rxId, In rxId (rx_ids e) ->
     0 <= sweep_index (tx_id e) rxC (snd rxId)
       < Z.of_nat (length mimoMeasurements))
  /\ nTx <= Z.of_nat (length (GetMimoConfigFromTxAwvId (dstWifiMac parameters)
                                (tx_id e)
                                (GetAddress (dstWifiMac parameters))))
  /\ nRx <= Z.of_nat (length (GetMimoConfigFromRxAwvId (srcWifiMac parameters)
                                (rx_ids e) from))
  /\ (forall i j, 0 <= i < nTx -> 0 <= j < nRx ->
        exists rxId block,
          nth_error (rx_ids e) (Z.to_nat j) = Some rxId
          /\ nth_error mimoMeasurements
               (Z.to_nat (sweep_index (tx_id e) rxC (snd rxId)))
             = Some block
          /\ i * nRx + j < Z.of_nat (length (snd block))).

Lemma stream_cell_returns_iff (mimoMeasurements : MIMO_SNR_LIST)
    (rxC : Z) (e : SNR_MEASUREMENT_AWV_IDs) (ms : MIMO_SNR_LIST) (j k : Z) :
  is_u8 rxC -> wf_entry e ->
  Z.of_nat (length mimoMeasurements) <= size_max ->
  Forall2 (fun rxId m => fetch_cell mimoMeasurements (tx_id e) rxC rxId = Done m)
    (rx_ids e) ms ->
  0 <= j -> 0 <= k ->
  (exists d, stream_cell ms (j, k) = Done d)
  <-> (exists rxId block,
          nth_error (rx_ids e) (Z.to_nat j) = Some rxId
          /\ nth_error mimoMeasurements
               (Z.to_nat (sweep_index (tx_id e) rxC (snd rxId)))
             = Some block
          /\ k < Z.of_nat (length (snd block))).
Proof.
  intros HC (HT & HRs) Hmax Hms Hj Hk. rewrite Forall_forall in HRs.
  unfold stream_cell. cbn [fst snd]. split.
  - intros (d & H). apply bind_Done_inv in H as (m & Hm & H).
    apply bind_Done_inv in H as (v & Hv & _).
    apply vec_at_Done in Hm as (_ & Hm). apply vec_at_Done in Hv as (Hv & _).
    destruct (Forall2_nth_error_r _ _ _ _ _ _ _ Hms Hm) as (rxId & Hrx & Hf).
    apply fetch_cell_Done in Hf as (_ & Hf); auto.
    + exists rxId, m. repeat split; auto. lia.
    + apply HRs. eapply nth_error_In; eauto.
  - intros (rxId & block & Hrx & Hb & Hlen).
    destruct (Forall2_nth_error_l _ _ _ _ _ _ _ Hms Hrx) as (m & Hm & Hf).
    apply fetch_cell_Done in Hf as (_ & Hf); auto.
    + assert (m = block) by congruence. subst m.
      assert (Hvm : vec_at ms j = Done block).
      { apply vec_at_Done. split; [|exact Hm].
        assert (Z.to_nat j < length ms)%nat
          by (apply nth_error_Some; congruence).
        lia. }
      rewrite Hvm. cbn [bind].
      destruct (vec_at_in_range _ (snd block) k) as (v & ->); [lia|].
      simpl. eauto.
    + apply HRs. eapply nth_error_In; eauto.
Qed.

(** The line of an element can be written exactly when all its accesses
    are within range. *)
Lemma row_of_returns_iff (env : sim_env) (parameters : MIMO_PARAMETERS)
    (from : Mac48Address) (mimoMeasurements : MIMO_SNR_LIST)
    (nTx nRx rxC : Z) (e : SNR_MEASUREMENT_AWV_IDs) :
  0 <= nTx -> 0 <= nRx -> is_u8 rxC -> wf_entry e ->
  Z.of_nat (length mimoMeasurements) <= size_max ->
  (exists row,
      row_of env parameters from mimoMeasurements nTx nRx rxC e = Done row)
  <-> accesses_in_range parameters from mimoMeasurements nTx nRx rxC e.
Proof.
  intros HT HR HC Hwf Hmax. pose proof Hwf as (HTx & HRs).
  rewrite Forall_forall in HRs. unfold row_of, accesses_in_range. split.
  - intros (row & H).
    apply bind_Done_inv in H as (ms & Hms & H).
    apply bind_Done_inv in H as (tx & Htx & H).
    apply bind_Done_inv in H as (rx & Hrx & H).
    apply bind_Done_inv in H as (snr & Hsnr & _).
    split; [|split; [|split]].
    + intros rxId Hin.
      destruct (proj1 (omapM_returns_iff _ _ _ _) (ex_intro _ ms Hms) rxId Hin)
        as (m & Hm).
      apply fetch_cell_Done in Hm as (Hm & _); auto.
    + apply config_cells_return_iff; eauto.
    + apply config_cells_return_iff; eauto.
    + intros i j Hi Hj. apply omapM_Done in Hms.
      apply (stream_cell_returns_iff mimoMeasurements rxC e ms j (i * nRx + j));
        auto; try lia; try nia.
      apply (proj1 (omapM_returns_iff _ _ _ _) (ex_intro _ snr Hsnr)).
      apply stream_indices_In. exists i. cbn [fst snd]. lia.
  - intros (HA & HB & HCfg & HD).
    destruct (proj2 (omapM_returns_iff _ _
                       (fetch_cell mimoMeasurements (tx_id e) rxC) (rx_ids e)))
      as (ms & Hms).
    { intros rxId Hin. apply fetch_cell_returns; auto. }
    rewrite Hms. cbn [bind].
    destruct (proj2 (config_cells_return_iff _ nTx HT) HB) as (tx & ->).
    cbn [bind].
    destruct (proj2 (config_cells_return_iff _ nRx HR) HCfg) as (rx & ->).
    cbn [bind]. apply omapM_Done in Hms.
    destruct (proj2 (omapM_returns_iff _ _ (stream_cell ms)
                       (stream_indices nTx nRx))) as (snr & ->).
    { intros [j k] Hjk. apply stream_indices_In in Hjk as (i & Hi & Hj & Hk).
      cbn [fst snd] in Hj, Hk. subst k.
      apply (stream_cell_returns_iff mimoMeasurements rxC e ms j (i * nRx + j));
        auto; try lia; try nia. }
    cbn [bind]. eauto.
Qed.

(** C4 (amended): the reduction never compares the length of the sweep
    with a product of combination counts, and has no error of its own.
    With fewer than 255 antennas on either side and fewer than 256
    streams (and enough fuel) it returns exactly when, for every queued
    element, every bounds-checked access is within range; otherwise it
    throws [out_of_range].  In particular every index a queued element
    addresses is then within the sweep, whatever the sweep's length, and
    an element that addresses an index outside the sweep makes the
    handler throw [out_of_range]. *)
Theorem sweep_length_is_not_checked :
  forall (fuel : nat) (env : sim_env) (parameters : MIMO_PARAMETERS)
         (from : Mac48Address) (mimoMeasurements : MIMO_SNR_LIST)
         (minSnr : SNR_MEASUREMENT_AWV_IDs_QUEUE) (differentRxConfigs : bool)
         (nTx nRx rxCombinationsTested : Z),
    0 <= nTx < 255 -> 0 <= nRx < 255 -> nRx * nTx < 256 ->
    is_u8 rxCombinationsTested -> Forall wf_entry minSnr ->
    Z.of_nat (length mimoMeasurements) <= size_max ->
    (256 <= fuel)%nat -> (length minSnr <= fuel)%nat ->
    ((exists out,
         MuMimoMimoPhaseMeasurements fuel env parameters from mimoMeasurements
           minSnr differentRxConfigs nTx nRx rxCombinationsTested = Done out)
     <-> (forall e, In e minSnr ->
            accesses_in_range parameters from mimoMeasurements nTx nRx
              rxCombinationsTested e))
    /\ ((exists out,
            MuMimoMimoPhaseMeasurements fuel env parameters from
              mimoMeasurements minSnr differentRxConfigs nTx nRx
              rxCombinationsTested = Done out)
        \/ MuMimoMimoPhaseMeasurements fuel env parameters from
             mimoMeasurements minSnr differentRxConfigs nTx nRx
             rxCombinationsTested = OutOfRange)
    /\ ((exists e rxId,
            In e minSnr /\ In rxId (rx_ids e)
            /\ ~ (0 <= sweep_index (tx_id e) rxCombinationsTested (snd rxId)
                    < Z.of_nat (length mimoMeasurements))) ->
        MuMimoMimoPhaseMeasurements fuel env parameters from mimoMeasurements
          minSnr differentRxConfigs nTx nRx rxCombinationsTested = OutOfRange).
Proof.
  intros fuel env parameters from mimoMeasurements minSnr flag nTx nRx rxC
    HT HR HP HC Hwf Hmax Hf Hq.
  rewrite Forall_forall in Hwf.
  assert (Hiff : (exists out,
      MuMimoMimoPhaseMeasurements fuel env parameters from mimoMeasurements
        minSnr flag nTx nRx rxC = Done out)
    <-> (forall e, In e minSnr ->
           accesses_in_range parameters from mimoMeasurements nTx nRx rxC e)).
  { split.
    - intros ([full reduced] & H) e He.
      apply reduction_Done in H as (_ & _ & _ & _ & Hfull & _);
        [|unfold is_u8; lia|unfold is_u8; lia].
      apply (row_of_returns_iff env); auto; try lia.
      apply pq_drain_keeps in He. revert He.
      induction Hfull as [|x row es rows Hx _ IH]; intros He;
        [destruct He|destruct He as [<-|He]; eauto].
    - intros Hall. apply reduction_returns; auto.
      intros e He. apply row_of_returns_iff; auto; lia. }
  assert (Hcases : (exists out,
      MuMimoMimoPhaseMeasurements fuel env parameters from mimoMeasurements
        minSnr flag nTx nRx rxC = Done out)
    \/ MuMimoMimoPhaseMeasurements fuel env parameters from mimoMeasurements
         minSnr flag nTx nRx rxC = OutOfRange).
  { unfold MuMimoMimoPhaseMeasurements.
    destruct (mimo_header_returns fuel nTx nRx HT HR HP Hf) as (h & ->).
    cbn [bind].
    destruct (drain_loop_cases fuel env parameters from mimoMeasurements flag
                nTx nRx rxC fuel) with (minSnr := minSnr)
                (st := (@nil Z, @nil mimo_row, @nil mimo_row))
      as [(st' & ->)| ->]; auto.
    - intros x. rewrite entry_row_enough by lia. apply row_of_cases.
    - left. cbn [bind]. destruct st' as [[a b] c]. eauto. }
  split; [exact Hiff|]. split; [exact Hcases|].
  intros (e & rxId & He & Hrx & Hout).
  destruct Hcases as [Hd|Ho]; [|exact Ho].
  exfalso. apply Hout. destruct (proj1 Hiff Hd e He) as (HA & _). auto.
Qed.

(** * Further properties of the callbacks *)

(** ** A run as a list of callbacks *)

(** The callbacks of [evs] delivered in order, as long as each returns. *)
Definition run (fuel : nat) (evs : list event) (w : world) : outcome world :=
  ofold (dispatch fuel) evs w.

Definition is_SLSCompleted_in_DTI (ev : event) : bool :=
  match ev with
  | EvSLSCompleted _ _ attributes =>
      match accessPeriod attributes with
      | CHANNEL_ACCESS_DTI => true
      | _ => false
      end
  | _ => false
  end.

Definition is_MuMimoMimoPhaseComplete (ev : event) : bool :=
  match ev with
  | EvMuMimoMimoPhaseComplete => true
  | _ => false
  end.

Definition is_Perform_TXSS_TXOP (c : ext_call) : bool :=
  match c with
  | CallPerform_TXSS_TXOP _ => true
  | _ => false
  end.

(** The line [SLSCompleted] writes, for the AP node identifier [ap]. *)
Definition sls_line (ap : Z) (env : sim_env) (parameters : SLS_PARAMETERS)
    (attributes : SlsCompletionAttrbitutes) : sls_row :=
  {| sls_src := u32 (sls_srcNodeID parameters + 1);
     sls_trace := GetCurrentTraceIndex env;
     sls_sector := u16 (sectorID attributes);
     sls_antenna := u16 (antennaID attributes);
     sls_role := GetTypeOfStation (wifiMac parameters);
     sls_bss := u32 (ap + 1);
     sls_time := NowNanoSeconds env |}.

Definition sls_lines_of (ap : Z) (ev : event) : list sls_row :=
  match ev with
  | EvSLSCompleted env parameters attributes =>
      [sls_line ap env parameters attributes]
  | _ => []
  end.

(** Every [Perform_TXSS_TXOP] request in the list is followed at once by
    the AWV append of the same station. *)
Definition txss_then_append (cs : list ext_call) : Prop :=
  forall pre mac post,
    cs = pre ++ CallPerform_TXSS_TXOP mac :: post ->
    exists post', post = CallAppendAwvsForSuMimoBFT_27 mac :: post'.

Definition flag_spent (b : bool) : nat := if b then 0%nat else 1%nat.

(** Takes a returned callback apart, one goal per way it can return. *)
Ltac dispatch_cases ev w Hd :=
  destruct ev; simpl in Hd;
  [ injection Hd as <-
  | injection Hd as <- | injection Hd as <- | injection Hd as <-
  | injection Hd as <- | injection Hd as <- | injection Hd as <-
  | injection Hd as <- | injection Hd as <- | injection Hd as <-
  | apply bind_Done_inv in Hd as (_ & _ & Hd); injection Hd as <-
  | apply bind_Done_inv in Hd as (_ & _ & Hd); injection Hd as <-
  | injection Hd as <- | injection Hd as <-
  | unfold DataTransmissionIntervalStartedAp in Hd;
    destruct ((beamformedLinks w =? 4) && negb (muMimoCompleted w)) eqn:?;
    [ match type of Hd with
      | match ?g with _ => _ end = _ =>
          destruct g; [discriminate|injection Hd as <-]
      end
    | injection Hd as <- ] ].

Lemma run_reachable (fuel : nat) (evs : list event) :
  forall w w', run fuel evs w = Done w' -> reachable w w'.
Proof.
  unfold run. induction evs as [|ev evs IH] using rev_ind; intros w w' H.
  - injection H as <-. constructor.
  - assert (Happ : forall l1 l2 s,
               ofold (dispatch fuel) (l1 ++ l2) s
               = s' <- ofold (dispatch fuel) l1 s ;; ofold (dispatch fuel) l2 s').
    { induction l1 as [|a l1 IHl]; intros l2 s; simpl; auto.
      destruct (dispatch fuel a s); simpl; auto. }
    rewrite Happ in H. apply bind_Done_inv in H as (w1 & H1 & H2).
    simpl in H2. apply bind_Done_inv in H2 as (w2 & H2 & H3).
    injection H3 as <-. eapply reach_step; eauto.
Qed.

(** ** The link counter and the start of the training *)

Lemma u8_succ (a n : Z) : u8 (u8 (a + 1) + n) = u8 (a + (n + 1)).
Proof.
  unfold u8. rewrite Zplus_mod_idemp_l. f_equal. lia.
Qed.

Lemma dispatch_links (fuel : nat) (ev : event) (w w' : world) :
  dispatch fuel ev w = Done w' ->
  csv w' = csv w
  /\ beamformedLinks w'
     = (if negb (csv w) && is_SLSCompleted_in_DTI ev
        then u8 (beamformedLinks w + 1) else beamformedLinks w)
  /\ muMimoCompleted w'
     = muMimoCompleted w || is_MuMimoMimoPhaseComplete ev.
Proof.
  intros Hd. dispatch_cases ev w Hd;
    try (cbn [is_SLSCompleted_in_DTI is_MuMimoMimoPhaseComplete];
         rewrite ?andb_false_r, ?orb_false_r, ?orb_true_r;
         repeat split; reflexivity).
  - unfold SLSCompleted. cbn [csv write_sls is_SLSCompleted_in_DTI
                                is_MuMimoMimoPhaseComplete].
    rewrite orb_false_r.
    destruct (csv w) eqn:E; destruct (accessPeriod attributes); simpl;
      rewrite ?E; repeat split; reflexivity.
  - unfold DataTransmissionIntervalStarted.
    cbn [is_SLSCompleted_in_DTI is_MuMimoMimoPhaseComplete].
    rewrite andb_false_r, orb_false_r.
    destruct (isAssociated && firstDti1 w), (isAssociated && firstDti2 w);
      repeat split; reflexivity.
Qed.

Lemma run_links (fuel : nat) (evs : list event) :
  forall w w',
    run fuel evs w = Done w' -> csv w = false ->
    csv w' = false
    /\ u8 (beamformedLinks w')
       = u8 (beamformedLinks w
             + Z.of_nat (length (filter is_SLSCompleted_in_DTI evs)))
    /\ muMimoCompleted w'
       = muMimoCompleted w || existsb is_MuMimoMimoPhaseComplete evs.
Proof.
  unfold run. induction evs as [|ev evs IH]; intros w w' H Hcsv.
  - injection H as <-. simpl. rewrite Z.add_0_r, orb_false_r. auto.
  - simpl in H. apply bind_Done_inv in H as (w1 & H1 & H).
    apply dispatch_links in H1 as (Hc & Hb & Hm).
    rewrite Hcsv in Hc, Hb. cbn [negb andb] in Hb.
    destruct (IH w1 w' H) as (Hc' & Hb' & Hm'); [congruence|].
    split; [exact Hc'|]. split.
    + rewrite Hb', Hb. cbn [filter].
      destruct (is_SLSCompleted_in_DTI ev); [|reflexivity].
      cbn [length]. rewrite u8_succ. f_equal. lia.
    + rewrite Hm', Hm. cbn [existsb]. now rewrite orb_assoc.
Qed.

Lemma dispatch_links_range (fuel : nat) (ev : event) (w w' : world) :
  dispatch fuel ev w = Done w' ->
  is_u8 (beamformedLinks w) -> is_u8 (beamformedLinks w').
Proof.
  intros Hd Hr. apply dispatch_links in Hd as (_ & Hb & _). rewrite Hb.
  destruct (negb (csv w) && is_SLSCompleted_in_DTI ev); auto. apply u8_range.
Qed.

(** X1: without CSV output, [beamformedLinks] is the number of SLS
    completions reported in the DTI so far, modulo 256, and the AP's
    DTI-start handler schedules [StartMuMimoBeamforming] (one microsecond
    ahead, for the first group) exactly when that number modulo 256 is 4
    and no [MuMimoMimoPhaseComplete] has run: a fifth completion before
    the AP's next DTI makes it miss the test. *)
Theorem ap_starts_training_at_four_links_mod_256 :
  forall (fuel : nat) (evs : list event) (K ap : Z) (w : world)
         (mac : DmgWifiMac) (groupID : Z) (rest : list Z),
    run fuel evs (initial_world false K ap) = Done w ->
    beamformedLinks w
    = Z.of_nat (length (filter is_SLSCompleted_in_DTI evs)) mod 256
    /\ DataTransmissionIntervalStartedAp mac (groupID :: rest) w
       = Done (if (Z.of_nat (length (filter is_SLSCompleted_in_DTI evs))
                     mod 256 =? 4)
                  && negb (existsb is_MuMimoMimoPhaseComplete evs)
               then call w (CallSchedule_StartMuMimoBeamforming
                              (GetAddress mac) 1 true groupID)
               else w).
Proof.
  intros fuel evs K ap w mac groupID rest H.
  assert (Hr : is_u8 (beamformedLinks w)).
  { apply run_reachable in H.
    induction H as [|w1 w2 f ev _ IH Hd]; [unfold is_u8; simpl; lia|].
    eapply dispatch_links_range; eauto. }
  apply run_links in H as (_ & Hb & Hm); [|reflexivity].
  cbn [beamformedLinks muMimoCompleted initial_world] in Hb, Hm.
  rewrite (u8_small _ Hr) in Hb. unfold u8 in Hb. rewrite Z.add_0_l in Hb.
  split; [exact Hb|].
  unfold DataTransmissionIntervalStartedAp. rewrite Hb, Hm. cbn [orb].
  destruct ((_ =? 4) && _); reflexivity.
Qed.

(** ** After the MIMO phase completed *)

Lemma filter_snoc (A : Type) (f : A -> bool) (l : list A) (a : A) :
  filter f (l ++ [a]) = filter f l ++ (if f a then [a] else []).
Proof. rewrite filter_app. simpl. destruct (f a); reflexivity. Qed.

Lemma filter_call_other (f : ext_call -> bool) (w : world) (c : ext_call) :
  f c = false -> filter f (calls (call w c)) = filter f (calls w).
Proof.
  intros H. cbn [calls call]. rewrite filter_snoc, H. apply app_nil_r.
Qed.

Lemma dispatch_after_complete (fuel : nat) (ev : event) (w w' : world) :
  muMimoCompleted w = true -> dispatch fuel ev w = Done w' ->
  muMimoCompleted w' = true
  /\ filter is_StartMuMimoBeamforming (calls w')
     = filter is_StartMuMimoBeamforming (calls w).
Proof.
  intros Hm Hd.
  split.
  - apply dispatch_links in Hd as (_ & _ & ->). now rewrite Hm.
  - dispatch_cases ev w Hd; try reflexivity.
    + unfold SLSCompleted. cbn [csv write_sls].
      destruct (negb (csv w)); [|reflexivity].
      destruct (accessPeriod attributes);
        cbn [calls set_beamformedLinks];
        rewrite (filter_call_other is_StartMuMimoBeamforming) by reflexivity;
        reflexivity.
    + apply (filter_call_other is_StartMuMimoBeamforming). reflexivity.
    + unfold MuMimoSisoPhaseComplete. cbn [snd].
      rewrite !(filter_call_other is_StartMuMimoBeamforming) by reflexivity.
      reflexivity.
    + unfold DataTransmissionIntervalStarted.
      destruct (isAssociated && firstDti1 w);
        [|destruct (isAssociated && firstDti2 w)];
        cbn [calls set_firstDti];
        rewrite ?(filter_call_other is_StartMuMimoBeamforming) by reflexivity;
        reflexivity.
    + rewrite Hm in *. rewrite andb_false_r in *. discriminate.
Qed.

(** X2: [muMimoCompleted] is never reset.  From the moment
    [MuMimoMimoPhaseComplete] has run, whatever callbacks follow and
    whatever [beamformedLinks] becomes, no further
    [StartMuMimoBeamforming] is scheduled. *)
Theorem no_training_after_mimo_phase_complete :
  forall (w0 w : world),
    reachable (MuMimoMimoPhaseComplete w0) w ->
    muMimoCompleted w = true
    /\ filter is_StartMuMimoBeamforming (calls w)
       = filter is_StartMuMimoBeamforming (calls w0).
Proof.
  intros w0 w Hr. induction Hr as [|w1 w2 fuel ev _ IH Hd].
  - split; reflexivity.
  - destruct IH as (Hm & Hc).
    destruct (dispatch_after_complete fuel ev w1 w2 Hm Hd) as (Hm' & Hc').
    split; [exact Hm'|congruence].
Qed.

(** ** The two first-DTI flags *)

Lemma txss_then_append_snoc (cs : list ext_call) (x : ext_call) :
  is_Perform_TXSS_TXOP x = false ->
  txss_then_append cs -> txss_then_append (cs ++ [x]).
Proof.
  intros Hx H pre mac post E.
  destruct post as [|p post _] using rev_ind.
  - apply app_inj_tail in E as [_ ->]. discriminate.
  - rewrite app_comm_cons, app_assoc in E. apply app_inj_tail in E as [E _].
    destruct (H _ _ _ E) as (post' & ->). eexists. reflexivity.
Qed.

Lemma txss_then_append_pair (cs : list ext_call) (m : Mac48Address) :
  txss_then_append cs ->
  txss_then_append
    ((cs ++ [CallPerform_TXSS_TXOP m]) ++ [CallAppendAwvsForSuMimoBFT_27 m]).
Proof.
  intros H pre mac post E.
  destruct post as [|p post _] using rev_ind.
  - apply app_inj_tail in E as [_ E]. discriminate.
  - rewrite app_comm_cons, app_assoc in E. apply app_inj_tail in E as [E <-].
    destruct post as [|q post _] using rev_ind.
    + apply app_inj_tail in E as [_ [= <-]]. eexists. reflexivity.
    + rewrite app_comm_cons, app_assoc in E.
      apply app_inj_tail in E as [E _].
      destruct (H _ _ _ E) as (post' & ->). eexists.
      rewrite <- !app_comm_cons. reflexivity.
Qed.

(** What holds of the flags and of the TXSS requests in every world. *)
Definition txss_invariant (w : world) : Prop :=
  length (filter is_Perform_TXSS_TXOP (calls w))
  = (flag_spent (firstDti1 w) + flag_spent (firstDti2 w))%nat
  /\ (firstDti2 w = false -> firstDti1 w = false)
  /\ txss_then_append (calls w).

Lemma txss_invariant_call (w : world) (c : ext_call) :
  is_Perform_TXSS_TXOP c = false ->
  txss_invariant w -> txss_invariant (call w c).
Proof.
  intros Hc (H1 & H2 & H3). unfold txss_invariant.
  rewrite (filter_call_other is_Perform_TXSS_TXOP) by exact Hc.
  repeat split; auto. now apply txss_then_append_snoc.
Qed.

Lemma txss_invariant_dispatch (fuel : nat) (ev : event) (w w' : world) :
  txss_invariant w -> dispatch fuel ev w = Done w' -> txss_invariant w'.
Proof.
  intros Hinv Hd. dispatch_cases ev w Hd; try exact Hinv.
  - unfold SLSCompleted. cbn [csv write_sls].
    destruct (negb (csv w)); [|exact Hinv].
    assert (H : txss_invariant
                  (call (write_sls w
                     {| sls_src := u32 (sls_srcNodeID parameters + 1);
                        sls_trace := GetCurrentTraceIndex env;
                        sls_sector := u16 (sectorID attributes);
                        sls_antenna := u16 (antennaID attributes);
                        sls_role := GetTypeOfStation (wifiMac parameters);
                        sls_bss := u32 (apNodeId w + 1);
                        sls_time := NowNanoSeconds env |})
                     (CallPrintSnrTable (GetAddress (wifiMac parameters))))).
    { apply txss_invariant_call; [reflexivity|exact Hinv]. }
    destruct (accessPeriod attributes); exact H.
  - now apply txss_invariant_call.
  - unfold MuMimoSisoPhaseComplete. cbn [snd].
    repeat (apply txss_invariant_call; [reflexivity|]). exact Hinv.
  - destruct Hinv as (H1 & H2 & H3).
    unfold DataTransmissionIntervalStarted.
    destruct isAssociated; cbn [andb]; [|repeat split; auto].
    destruct (firstDti1 w) eqn:E1.
    + unfold txss_invariant.
      cbn [calls call set_firstDti firstDti1 firstDti2].
      rewrite !filter_snoc. cbn [is_Perform_TXSS_TXOP].
      rewrite app_nil_r, length_app, H1. rewrite ?E1. cbn [length flag_spent].
      repeat split; auto; try lia; now apply txss_then_append_pair.
    + destruct (firstDti2 w) eqn:E2;
        [|cbv iota; unfold txss_invariant; rewrite ?E1, ?E2;
          repeat split; auto].
      unfold txss_invariant.
      cbn [calls call set_firstDti firstDti1 firstDti2].
      rewrite !filter_snoc. cbn [is_Perform_TXSS_TXOP].
      rewrite app_nil_r, length_app, H1. rewrite ?E1, ?E2.
      cbn [length flag_spent].
      repeat split; auto; try lia; now apply txss_then_append_pair.
  - now apply txss_invariant_call.
Qed.

(** X3: the two first-DTI flags are shared by all stations.  Over a whole
    run the stations' DTI-start handler requests [Perform_TXSS_TXOP] once
    per flag it has cleared, [firstDti1] before [firstDti2], hence at most
    twice in total, and each such request is followed at once by the AWV
    append of the same station. *)
Theorem txss_requested_once_per_flag :
  forall (csvFlag : bool) (K ap : Z) (w : world),
    reachable (initial_world csvFlag K ap) w ->
    length (filter is_Perform_TXSS_TXOP (calls w))
    = (flag_spent (firstDti1 w) + flag_spent (firstDti2 w))%nat
    /\ (length (filter is_Perform_TXSS_TXOP (calls w)) <= 2)%nat
    /\ (firstDti2 w = false -> firstDti1 w = false)
    /\ txss_then_append (calls w).
Proof.
  intros csvFlag K ap w Hr.
  assert (Hinv : txss_invariant w).
  { induction Hr as [|w1 w2 fuel ev _ IH Hd].
    - repeat split; auto. intros pre mac post E. destruct pre; discriminate.
    - eapply txss_invariant_dispatch; eauto. }
  destruct Hinv as (H1 & H2 & H3). repeat split; auto.
  rewrite H1. destruct (firstDti1 w), (firstDti2 w); simpl; lia.
Qed.

(** ** The SLS trace *)

Lemma dispatch_sls (fuel : nat) (ev : event) (w w' : world) :
  dispatch fuel ev w = Done w' ->
  apNodeId w' = apNodeId w
  /\ slsStream w' = slsStream w ++ sls_lines_of (apNodeId w) ev.
Proof.
  intros Hd. dispatch_cases ev w Hd;
    try (cbn [sls_lines_of]; rewrite ?app_nil_r; split; reflexivity).
  - unfold SLSCompleted. cbn [csv write_sls sls_lines_of].
    destruct (negb (csv w)); [|split; reflexivity].
    destruct (accessPeriod attributes); split; reflexivity.
  - unfold DataTransmissionIntervalStarted. cbn [sls_lines_of].
    rewrite app_nil_r.
    destruct (isAssociated && firstDti1 w), (isAssociated && firstDti2 w);
      split; reflexivity.
Qed.

(** X4: every [SLSCompleted] callback appends exactly one line to the
    shared SLS trace, with or without CSV output, and no other callback
    writes to it: after a run the trace is the lines of the run's SLS
    completions, in the order they were reported. *)
Theorem sls_trace_has_one_line_per_completion :
  forall (fuel : nat) (evs : list event) (w w' : world),
    run fuel evs w = Done w' ->
    slsStream w' = slsStream w ++ flat_map (sls_lines_of (apNodeId w)) evs.
Proof.
  unfold run. intros fuel evs. induction evs as [|ev evs IH]; intros w w' H.
  - injection H as <-. simpl. now rewrite app_nil_r.
  - simpl in H. apply bind_Done_inv in H as (w1 & H1 & H).
    apply dispatch_sls in H1 as (Ha & Hs).
    rewrite (IH w1 w' H), Hs, Ha. cbn [flat_map]. now rewrite app_assoc.
Qed.

(** ** The shape of the MIMO traces *)

Lemma zseq_length (start : Z) (n : nat) : length (zseq start n) = n.
Proof. revert start. induction n as [|n IH]; intros; simpl; auto. Qed.

Lemma flat_map_length_const (A B : Type) (f : A -> list B) (k : nat)
    (l : list A) :
  (forall a, length (f a) = k) -> length (flat_map f l) = (length l * k)%nat.
Proof.
  intros H. induction l as [|a l IH]; simpl; auto.
  now rewrite length_app, H, IH.
Qed.

(** A loop body that only appends: the fold appends everything. *)
Lemma ofold_append (I B : Type) (g : I -> list B) (l : list I) (h : list B) :
  ofold (fun i h => Done (h ++ g i)) l h = Done (h ++ flat_map g l).
Proof.
  revert h. induction l as [|a l IH]; intros h; simpl.
  - now rewrite app_nil_r.
  - rewrite IH. now rewrite <- app_assoc.
Qed.

(** The header line of either MIMO trace. *)
Definition mimo_header_fields (nTxAntennas nRxAntennas : Z)
    : list header_field :=
  [HName "SRC_ID"; HName "DST_ID"; HName "TRACE_IDX"]
  ++ flat_map (indexed3 "TX_ANTENNA_ID" "TX_SECTOR_ID" "TX_AWV_ID")
       (zseq 1 (Z.to_nat nTxAntennas))
  ++ flat_map (indexed3 "RX_ANTENNA_ID" "RX_SECTOR_ID" "RX_AWV_ID")
       (zseq 1 (Z.to_nat nRxAntennas))
  ++ flat_map (fun _ => [HName "SNR"])
       (zseq 0 (Z.to_nat (nRxAntennas * nTxAntennas)))
  ++ [HName "min_Stream_SNR"].

(** The number of comma-separated fields of a data line. *)
Definition row_fields (r : mimo_row) : nat :=
  (3 + 3 * length (row_tx r) + 3 * length (row_rx r) + length (row_snr r) + 1)%nat.

Lemma mimo_header_Done_fields (fuel : nat) (nTx nRx : Z)
    (h : list header_field) :
  is_u8 nTx -> is_u8 nRx ->
  mimo_header fuel nTx nRx = Done h -> h = mimo_header_fields nTx nRx.
Proof.
  intros HT HR H.
  destruct (mimo_header_Done _ _ _ _ HT HR H) as (H1 & H2 & H3).
  unfold is_u8 in *. unfold mimo_header in H.
  apply bind_Done_inv in H as (h1 & E1 & H).
  apply bind_Done_inv in H as (h2 & E2 & H).
  apply bind_Done_inv in H as (h3 & E3 & H). injection H as <-.
  apply (for_u8_Done _ _ _ (nTx + 1) (leb_as_ltb nTx)) in E1; try lia.
  apply (for_u8_Done _ _ _ (nRx + 1) (leb_as_ltb nRx)) in E2; try lia.
  assert (0 <= nRx * nTx) by nia.
  apply (for_u8_Done _ _ _ (nRx * nTx) (fun i => eq_refl)) in E3; try lia.
  rewrite (ofold_append _ _
             (indexed3 "TX_ANTENNA_ID" "TX_SECTOR_ID" "TX_AWV_ID")) in E1.
  rewrite (ofold_append _ _
             (indexed3 "RX_ANTENNA_ID" "RX_SECTOR_ID" "RX_AWV_ID")) in E2.
  rewrite (ofold_append _ _ (fun _ : Z => [HName "SNR"])) in E3.
  injection E1 as <-. injection E2 as <-. injection E3 as <-.
  unfold mimo_header_fields.
  replace (nTx + 1 - 1) with nTx by lia. replace (nRx + 1 - 1) with nRx by lia.
  rewrite Z.sub_0_r. rewrite <- !app_assoc. cbn [app].
  now rewrite <- !app_assoc.
Qed.

Lemma mimo_header_fields_length (nTx nRx : Z) :
  0 <= nTx -> 0 <= nRx ->
  length (mimo_header_fields nTx nRx)
  = (3 + 3 * Z.to_nat nTx + 3 * Z.to_nat nRx + Z.to_nat (nRx * nTx) + 1)%nat.
Proof.
  intros HT HR. unfold mimo_header_fields.
  rewrite !length_app.
  rewrite !(flat_map_length_const _ _ _ 3%nat) by reflexivity.
  rewrite (flat_map_length_const _ _ _ 1%nat) by reflexivity.
  rewrite !zseq_length. simpl. lia.
Qed.

Lemma stream_indices_length (nTx nRx : Z) :
  0 <= nTx -> 0 <= nRx ->
  length (stream_indices nTx nRx) = Z.to_nat (nRx * nTx).
Proof.
  intros HT HR. unfold stream_indices.
  rewrite (flat_map_length_const _ _ _ (Z.to_nat nRx))
    by (intros; now rewrite length_map, zseq_length).
  rewrite zseq_length. rewrite Z2Nat.inj_mul by lia. lia.
Qed.

Lemma reduction_header (fuel : nat) (env : sim_env)
    (parameters : MIMO_PARAMETERS) (from : Mac48Address)
    (mimoMeasurements : MIMO_SNR_LIST) (minSnr : SNR_MEASUREMENT_AWV_IDs_QUEUE)
    (flag : bool) (nTx nRx rxC : Z) (full reduced : mimo_stream) :
  MuMimoMimoPhaseMeasurements fuel env parameters from mimoMeasurements minSnr
    flag nTx nRx rxC = Done (full, reduced) ->
  mimo_header fuel nTx nRx = Done (fst full).
Proof.
  unfold MuMimoMimoPhaseMeasurements. intros H.
  apply bind_Done_inv in H as (h & Hh & H). rewrite Hh in H. cbn [bind] in H.
  apply bind_Done_inv in H as ([[txIds rows] rowsR] & _ & H).
  now injection H as <- <-.
Qed.

Lemma Forall2_In_r (A B : Type) (R : A -> B -> Prop) (l1 : list A)
    (l2 : list B) (b : B) :
  Forall2 R l1 l2 -> In b l2 -> exists a, In a l1 /\ R a b.
Proof.
  induction 1 as [|x y l1 l2 Hxy _ IH]; intros Hin; [destruct Hin|].
  destruct Hin as [<-|Hin].
  - exists x. split; [now left|exact Hxy].
  - destruct (IH Hin) as (a & Ha & HR). exists a. split; [now right|exact HR].
Qed.

Lemma row_of_lengths (env : sim_env) (parameters : MIMO_PARAMETERS)
    (from : Mac48Address) (mimoMeasurements : MIMO_SNR_LIST)
    (nTx nRx rxC : Z) (e : SNR_MEASUREMENT_AWV_IDs) (row : mimo_row) :
  0 <= nTx -> 0 <= nRx ->
  row_of env parameters from mimoMeasurements nTx nRx rxC e = Done row ->
  length (row_tx row) = Z.to_nat nTx
  /\ length (row_rx row) = Z.to_nat nRx
  /\ length (row_snr row) = Z.to_nat (nRx * nTx).
Proof.
  intros HT HR H. unfold row_of in H.
  apply bind_Done_inv in H as (ms & _ & H).
  apply bind_Done_inv in H as (tx & Htx & H).
  apply bind_Done_inv in H as (rx & Hrx & H).
  apply bind_Done_inv in H as (snr & Hsnr & H).
  injection H as <-. cbn [row_tx row_rx row_snr].
  apply omapM_Done, Forall2_length in Htx, Hrx, Hsnr.
  rewrite zseq_length in Htx, Hrx. rewrite stream_indices_length in Hsnr by lia.
  auto.
Qed.

(** X5: in a completed reduction both traces start with the same header
    line, and every data line of either trace has exactly the header's
    number of fields: three identifiers, three fields per TX antenna,
    three per RX antenna, [nTx * nRx] SNR columns and the minimum. *)
Theorem mimo_lines_match_header :
  forall (fuel : nat) (env : sim_env) (parameters : MIMO_PARAMETERS)
         (from : Mac48Address) (mimoMeasurements : MIMO_SNR_LIST)
         (minSnr : SNR_MEASUREMENT_AWV_IDs_QUEUE) (differentRxConfigs : bool)
         (nTx nRx rxCombinationsTested : Z) (full reduced : mimo_stream),
    is_u8 nTx -> is_u8 nRx ->
    MuMimoMimoPhaseMeasurements fuel env parameters from mimoMeasurements
      minSnr differentRxConfigs nTx nRx rxCombinationsTested
    = Done (full, reduced) ->
    fst full = mimo_header_fields nTx nRx
    /\ fst reduced = fst full
    /\ forall row, In row (snd full) \/ In row (snd reduced) ->
         length (row_tx row) = Z.to_nat nTx
         /\ length (row_rx row) = Z.to_nat nRx
         /\ length (row_snr row) = Z.to_nat (nRx * nTx)
         /\ row_fields row = length (fst full).
Proof.
  intros fuel env parameters from mimoMeasurements minSnr flag nTx nRx rxC
    full reduced HT HR H.
  pose proof (reduction_header _ _ _ _ _ _ _ _ _ _ _ _ H) as Hh.
  apply mimo_header_Done_fields in Hh; auto.
  apply reduction_Done in H as (_ & _ & _ & He & Hf & Hr); auto.
  unfold is_u8 in *. repeat split; auto; rewrite ?Hh;
    (assert (Hrow : exists e,
                row_of env parameters from mimoMeasurements nTx nRx rxC e
                = Done row);
     [destruct H as [Hin|Hin];
      [destruct (Forall2_In_r _ _ _ _ _ _ Hf Hin) as (e & _ & E)
      |destruct (Forall2_In_r _ _ _ _ _ _ Hr Hin) as (e & _ & E)]; eauto|]);
    destruct Hrow as (e & E);
    apply row_of_lengths in E as (L1 & L2 & L3); try lia; auto.
  unfold row_fields. rewrite L1, L2, L3, mimo_header_fields_length by lia.
  reflexivity.
Qed.

(** ** The identification columns of a line *)

(** The three fields written for one antenna of a combination. *)
Definition config_fields (c : AWV_CONFIGURATION) : Z * Z * Z :=
  (u16 (fst (fst c)), u16 (snd (fst c)), u16 (snd c)).

Lemma nth_error_skipn_cons (A : Type) (l : list A) (n : nat) (a : A) :
  nth_error l n = Some a -> skipn n l = a :: skipn (Datatypes.S n) l.
Proof.
  revert n. induction l as [|x l IH]; intros n H.
  - destruct n; discriminate.
  - destruct n as [|n]; simpl in *; [now injection H as <-|auto].
Qed.

Lemma config_cells_firstn (combination : MIMO_AWV_CONFIGURATION) (n : nat) :
  forall (k : Z) (r : list (Z * Z * Z)),
    0 <= k ->
    omapM (config_cell combination) (zseq k n) = Done r ->
    r = map config_fields (firstn n (skipn (Z.to_nat k) combination)).
Proof.
  induction n as [|n IH]; intros k r Hk H.
  - now injection H as <-.
  - cbn [zseq omapM] in H.
    apply bind_Done_inv in H as (y & Hy & H).
    apply bind_Done_inv in H as (ys & Hys & H). injection H as <-.
    unfold config_cell in Hy. apply bind_Done_inv in Hy as (c & Hc & Hy).
    injection Hy as <-. apply vec_at_Done in Hc as (_ & Hc).
    rewrite (nth_error_skipn_cons _ _ _ _ Hc). cbn [firstn map].
    f_equal. apply IH in Hys; [|lia].
    now replace (Z.to_nat (k + 1)) with (Datatypes.S (Z.to_nat k)) in Hys by lia.
Qed.

(** X6: the identification columns of a line are those of the popped
    element.  Its TX columns are the first [nTx] entries of the
    configuration the peer's codebook gives for the element's txId
    (looked up under the peer's own address), its RX columns the first
    [nRx] entries of the configuration the station's codebook gives for
    the element's RX identifiers (looked up under the reporting peer),
    each field cut to 16 bits; both configurations are at least that
    long, and the line starts with the two node identifiers plus one. *)
Theorem lines_identify_the_combinations :
  forall (fuel : nat) (env : sim_env) (parameters : MIMO_PARAMETERS)
         (from : Mac48Address) (mimoMeasurements : MIMO_SNR_LIST)
         (minSnr : SNR_MEASUREMENT_AWV_IDs_QUEUE) (differentRxConfigs : bool)
         (nTx nRx rxCombinationsTested : Z) (full reduced : mimo_stream),
    is_u8 nTx -> is_u8 nRx ->
    MuMimoMimoPhaseMeasurements fuel env parameters from mimoMeasurements
      minSnr differentRxConfigs nTx nRx rxCombinationsTested
    = Done (full, reduced) ->
    Forall2
      (fun e row =>
         let txCombination :=
           GetMimoConfigFromTxAwvId (dstWifiMac parameters) (tx_id e)
             (GetAddress (dstWifiMac parameters)) in
         let rxCombination :=
           GetMimoConfigFromRxAwvId (srcWifiMac parameters) (rx_ids e) from in
         row_tx row = map config_fields (firstn (Z.to_nat nTx) txCombination)
         /\ row_rx row = map config_fields (firstn (Z.to_nat nRx) rxCombination)
         /\ (Z.to_nat nTx <= length txCombination)%nat
         /\ (Z.to_nat nRx <= length rxCombination)%nat
         /\ row_src row = u32 (srcNodeID parameters + 1)
         /\ row_dst row = u32 (dstNodeID parameters + 1)
         /\ row_trace row = GetCurrentTraceIndex env)
      (pq_drain minSnr) (snd full).
Proof.
  intros fuel env parameters from mimoMeasurements minSnr flag nTx nRx rxC
    full reduced HT HR H.
  apply reduction_Done in H as (_ & _ & _ & _ & Hf & _); auto.
  eapply Forall2_impl; [|exact Hf]. intros e row E. cbv zeta.
  pose proof (row_of_lengths _ _ _ _ _ _ _ _ _ (proj1 HT) (proj1 HR) E)
    as (L1 & L2 & _).
  unfold row_of in E.
  apply bind_Done_inv in E as (ms & _ & E).
  apply bind_Done_inv in E as (tx & Htx & E).
  apply bind_Done_inv in E as (rx & Hrx & E).
  apply bind_Done_inv in E as (snr & _ & E).
  injection E as <-. cbn [row_tx row_rx row_src row_dst row_trace] in *.
  apply config_cells_firstn in Htx, Hrx; try lia. cbn [Z.to_nat skipn] in Htx, Hrx.
  subst tx rx. rewrite length_map, length_firstn in L1, L2.
  repeat split; auto; lia.
Qed.

(** ** Antenna counts the header loops cannot pass *)

Lemma for_u8_pure_cases (S : Type) (cond : Z -> bool) (f : Z -> S -> S)
    (fuel : nat) :
  forall i s,
    for_u8 fuel cond (fun i s => Done (f i s)) i s = Timeout
    \/ exists r, for_u8 fuel cond (fun i s => Done (f i s)) i s = Done r.
Proof.
  induction fuel as [|fuel IH]; intros i s; simpl; auto.
  destruct (cond i); eauto.
Qed.

Lemma mimo_header_spins (fuel : nat) (nTx nRx : Z) :
  is_u8 nTx -> is_u8 nRx ->
  nTx = 255 \/ nRx = 255 \/ 256 <= nRx * nTx ->
  mimo_header fuel nTx nRx = Timeout.
Proof.
  unfold is_u8. intros HT HR Hbig. unfold mimo_header.
  destruct (for_u8_pure_cases _ (fun i => i <=? nTx)
              (fun i h => h ++ indexed3 "TX_ANTENNA_ID" "TX_SECTOR_ID"
                                "TX_AWV_ID" i)
              fuel 1 [HName "SRC_ID"; HName "DST_ID"; HName "TRACE_IDX"])
    as [->|(h1 & E1)]; [reflexivity|].
  destruct (Z.eq_dec nTx 255) as [->|HnT].
  { exfalso. revert E1.
    apply (for_u8_diverges _ _ _ 256 (leb_as_ltb 255)); lia. }
  rewrite E1. cbn [bind].
  destruct (for_u8_pure_cases _ (fun i => i <=? nRx)
              (fun i h => h ++ indexed3 "RX_ANTENNA_ID" "RX_SECTOR_ID"
                                "RX_AWV_ID" i)
              fuel 1 h1)
    as [->|(h2 & E2)]; [reflexivity|].
  destruct (Z.eq_dec nRx 255) as [->|HnR].
  { exfalso. revert E2.
    apply (for_u8_diverges _ _ _ 256 (leb_as_ltb 255)); lia. }
  rewrite E2. cbn [bind].
  rewrite (for_u8_Timeout _ _ (fun (_ : Z) h => h ++ [HName "SNR"])
             (nRx * nTx)); [reflexivity|reflexivity|lia|lia].
Qed.

(** X7: the header loops run on [uint8_t] counters.  With 255 TX or RX
    antennas ([i <= 255] always holds) or with 256 or more streams
    ([i < nRx * nTx] always holds) the handler never returns: it writes
    header fields without end and reads nothing of the queue, whatever
    the queue holds. *)
Theorem reduction_never_returns_beyond_uint8 :
  forall (fuel : nat) (env : sim_env) (parameters : MIMO_PARAMETERS)
         (from : Mac48Address) (mimoMeasurements : MIMO_SNR_LIST)
         (minSnr : SNR_MEASUREMENT_AWV_IDs_QUEUE) (differentRxConfigs : bool)
         (nTx nRx rxCombinationsTested : Z),
    is_u8 nTx -> is_u8 nRx ->
    nTx = 255 \/ nRx = 255 \/ 256 <= nRx * nTx ->
    MuMimoMimoPhaseMeasurements fuel env parameters from mimoMeasurements
      minSnr differentRxConfigs nTx nRx rxCombinationsTested
    = Timeout.
Proof.
  intros. unfold MuMimoMimoPhaseMeasurements.
  now rewrite mimo_header_spins.
Qed.

(** ** Every queued element once, and the reduced trace within the full *)

Lemma extract_max_Permutation (q : list SNR_MEASUREMENT_AWV_IDs) :
  forall best,
    Permutation (best :: q)
      (fst (extract_max best q) :: snd (extract_max best q)).
Proof.
  induction q as [|x q IH]; intros best; simpl; [reflexivity|].
  destruct (entry_ltb best x).
  - specialize (IH x). destruct (extract_max x q) as [m r]. simpl in *.
    rewrite IH. apply perm_swap.
  - specialize (IH best). destruct (extract_max best q) as [m r]. simpl in *.
    rewrite perm_swap, IH. apply perm_swap.
Qed.

Lemma pq_drain_Permutation (q : SNR_MEASUREMENT_AWV_IDs_QUEUE) :
  Permutation (pq_drain q) q.
Proof.
  remember (length q) as n eqn:Hn. revert q Hn.
  induction n as [|n IH]; intros q Hn.
  - destruct q; [reflexivity|discriminate].
  - destruct q as [|y q]; [discriminate|].
    rewrite (pq_drain_top (y :: q) _ eq_refl).
    eapply Permutation_trans;
      [|apply Permutation_sym, (extract_max_Permutation q y)].
    cbn [pq_top pq_pop]. apply perm_skip.
    apply IH. rewrite extract_max_length. simpl in Hn. lia.
Qed.

(** [l1] is [l2] with some elements left out, the order kept. *)
Inductive subsequence {A : Type} : list A -> list A -> Prop :=
| subsequence_nil : subsequence [] []
| subsequence_keep (a : A) (l1 l2 : list A) :
    subsequence l1 l2 -> subsequence (a :: l1) (a :: l2)
| subsequence_drop (a : A) (l1 l2 : list A) :
    subsequence l1 l2 -> subsequence l1 (a :: l2).

Lemma reduced_rows_subsequence (B : Type)
    (f : SNR_MEASUREMENT_AWV_IDs -> outcome B) (flag : bool)
    (es : list SNR_MEASUREMENT_AWV_IDs) (rows : list B) :
  Forall2 (fun e row => f e = Done row) es rows ->
  forall txIds rowsR,
    Forall2 (fun e row => f e = Done row) (reduced_entries flag txIds es) rowsR ->
    subsequence rowsR rows.
Proof.
  induction 1 as [|e row es rows He _ IH]; intros txIds rowsR HR.
  - inversion HR. constructor.
  - simpl in HR. destruct (writes_reduced flag txIds e).
    + inversion HR as [|? row' ? rowsR' He' HR']; subst.
      assert (row' = row) by congruence. subst. constructor. eauto.
    + constructor. eauto.
Qed.

(** X8: a completed reduction writes one line for every element of the
    queue it was given, none twice and none left out (the lines of the
    full trace are the lines of a rearrangement of the queue), and the
    reduced trace is the full trace with lines left out, in the same
    order. *)
Theorem every_queued_element_written_once :
  forall (fuel : nat) (env : sim_env) (parameters : MIMO_PARAMETERS)
         (from : Mac48Address) (mimoMeasurements : MIMO_SNR_LIST)
         (minSnr : SNR_MEASUREMENT_AWV_IDs_QUEUE) (differentRxConfigs : bool)
         (nTx nRx rxCombinationsTested : Z) (full reduced : mimo_stream),
    is_u8 nTx -> is_u8 nRx ->
    MuMimoMimoPhaseMeasurements fuel env parameters from mimoMeasurements
      minSnr differentRxConfigs nTx nRx rxCombinationsTested
    = Done (full, reduced) ->
    (exists es,
        Permutation es minSnr
        /\ Forall2 (fun e row =>
                      row_of env parameters from mimoMeasurements nTx nRx
                        rxCombinationsTested e = Done row)
             es (snd full))
    /\ subsequence (snd reduced) (snd full).
Proof.
  intros fuel env parameters from mimoMeasurements minSnr flag nTx nRx rxC
    full reduced HT HR H.
  apply reduction_Done in H as (_ & _ & _ & _ & Hf & Hr); auto.
  split.
  - exists (pq_drain minSnr). split; [apply pq_drain_Permutation|exact Hf].
  - eapply reduced_rows_subsequence; eauto.
Qed.

(** ** What [differentRxConfigs] changes *)

Lemma drain_loop_full_any_flag (fuel : nat) (env : sim_env)
    (parameters : MIMO_PARAMETERS) (from : Mac48Address)
    (mimoMeasurements : MIMO_SNR_LIST) (flag1 flag2 : bool)
    (nTx nRx rxC : Z) (n : nat) :
  forall minSnr txIds1 txIds2 full reduced1 reduced2,
    omap (fun st : drain_state => snd (fst st))
      (drain_loop n fuel env parameters from mimoMeasurements flag1 nTx nRx
         rxC minSnr (txIds1, full, reduced1))
    = omap (fun st : drain_state => snd (fst st))
        (drain_loop n fuel env parameters from mimoMeasurements flag2 nTx nRx
           rxC minSnr (txIds2, full, reduced2)).
Proof.
  induction n as [|n IH]; intros minSnr txIds1 txIds2 full reduced1 reduced2;
    cbn [drain_loop].
  - destruct (pq_top minSnr); reflexivity.
  - destruct (pq_top minSnr) as [top|]; [|reflexivity].
    rewrite !drain_step_entry_row.
    destruct (entry_row fuel env parameters from mimoMeasurements nTx nRx rxC
                top) as [row| | |]; cbn [bind]; auto.
    destruct (writes_reduced flag1 txIds1 top),
             (writes_reduced flag2 txIds2 top); apply IH.
Qed.

(** X9: [differentRxConfigs] changes the reduced trace only.  Whether
    the handler returns, throws or spins, and every line of the full
    trace, are the same for both values of the flag. *)
Theorem flag_changes_only_the_reduced_trace :
  forall (fuel : nat) (env : sim_env) (parameters : MIMO_PARAMETERS)
         (from : Mac48Address) (mimoMeasurements : MIMO_SNR_LIST)
         (minSnr : SNR_MEASUREMENT_AWV_IDs_QUEUE)
         (nTx nRx rxCombinationsTested : Z),
    omap fst
      (MuMimoMimoPhaseMeasurements fuel env parameters from mimoMeasurements
         minSnr true nTx nRx rxCombinationsTested)
    = omap fst
        (MuMimoMimoPhaseMeasurements fuel env parameters from mimoMeasurements
           minSnr false nTx nRx rxCombinationsTested).
Proof.
  intros. unfold MuMimoMimoPhaseMeasurements.
  destruct (mimo_header fuel nTx nRx) as [h| | |]; cbn [bind omap]; auto.
  pose proof (drain_loop_full_any_flag fuel env parameters from
                mimoMeasurements true false nTx nRx rxCombinationsTested fuel
                minSnr [] [] [] [] []) as H.
  destruct (drain_loop fuel fuel env parameters from mimoMeasurements true
              nTx nRx rxCombinationsTested minSnr ([], [], []))
    as [[[t1 f1] r1]| | |];
  destruct (drain_loop fuel fuel env parameters from mimoMeasurements false
              nTx nRx rxCombinationsTested minSnr ([], [], []))
    as [[[t2 f2] r2]| | |]; simpl in H; try discriminate; try reflexivity.
  injection H as ->. reflexivity.
Qed.

(** ** The lines of the MIMO candidates trace *)

(** The cell written for one antenna of the map at position [i]. *)
Definition candidate_cell (i : Z) (it : Z * list Z)
    : outcome (Z * Z) :=
  s <- vec_at (snd it) i ;; Done (u16 (fst it), u16 s).

Lemma candidate_cells_collect (txCandidates : Antenna2SectorList) (i : Z) :
  candidate_cells txCandidates i = omapM (candidate_cell i) txCandidates.
Proof.
  unfold candidate_cells.
  rewrite <- (omap_app_nil _ (omapM _ txCandidates)).
  rewrite <- (ofold_collect _ _ (candidate_cell i)).
  apply ofold_ext. intros it cells _. unfold candidate_cell.
  destruct (vec_at (snd it) i); reflexivity.
Qed.

Definition candidate_line (env : sim_env) (parameters : SLS_PARAMETERS)
    (txCandidates : Antenna2SectorList) (i : Z) : outcome candidate_row :=
  cells <- candidate_cells txCandidates i ;;
  Done {| cand_src := u32 (sls_srcNodeID parameters + 1);
          cand_dst := u32 (sls_dstNodeID parameters + 1);
          cand_trace := GetCurrentTraceIndex env;
          cand_cells := cells |}.

Lemma candidate_rows_collect (env : sim_env) (parameters : SLS_PARAMETERS)
    (txCandidates : Antenna2SectorList) (l : list Z) :
  ofold (candidate_rows_body env parameters txCandidates) l []
  = omapM (candidate_line env parameters txCandidates) l.
Proof.
  rewrite <- (omap_app_nil _ (omapM _ l)).
  rewrite <- (ofold_collect _ _ (candidate_line env parameters txCandidates)).
  apply ofold_ext. intros i rows _.
  unfold candidate_rows_body, candidate_line.
  destruct (candidate_cells txCandidates i); reflexivity.
Qed.

Lemma nth_error_zseq (start : Z) (n i : nat) (z : Z) :
  nth_error (zseq start n) i = Some z -> z = start + Z.of_nat i.
Proof.
  revert start i. induction n as [|n IH]; intros start i H.
  - destruct i; discriminate.
  - destruct i as [|i]; simpl in H.
    + injection H as <-. lia.
    + apply IH in H. lia.
Qed.

(** X10: when the candidates writer returns, its header names
    [numberOfAntennas] antenna/sector pairs (the map's size cut to 8
    bits), and it has written as many lines as the first antenna's list is
    long modulo 256, candidates beyond that count being left out.  Line
    [i] holds, for every antenna of the map in the map's order, the
    antenna's identifier and the sector at position [i] of its list. *)
Theorem candidates_lines_hold_sectors_by_position :
  forall (fuel : nat) (env : sim_env) (parameters : SLS_PARAMETERS)
         (muGroupId : Z) (txCandidates : Antenna2SectorList)
         (header : list header_field) (rows : list candidate_row),
    MuMimoMimoCandidatesSelected fuel env parameters muGroupId txCandidates
    = Done (header, rows) ->
    header
    = [HName "SRC_ID"; HName "DST_ID"; HName "TRACE_IDX"]
      ++ flat_map (fun i => [HIndexed "ANTENNA_ID" (u16 i);
                             HIndexed "SECTOR_ID" (u16 i)])
           (zseq 1 (Z.to_nat (u8 (Z.of_nat (length txCandidates)))))
    /\ exists first rest,
         txCandidates = first :: rest
         /\ length rows = Z.to_nat (u8 (Z.of_nat (length (snd first))))
         /\ forall (i : nat) (row : candidate_row),
              nth_error rows i = Some row ->
              cand_src row = u32 (sls_srcNodeID parameters + 1)
              /\ cand_dst row = u32 (sls_dstNodeID parameters + 1)
              /\ cand_trace row = GetCurrentTraceIndex env
              /\ Forall2
                   (fun it cell =>
                      exists s,
                        nth_error (snd it) i = Some s
                        /\ cell = (u16 (fst it), u16 s))
                   txCandidates (cand_cells row).
Proof.
  intros fuel env parameters muGroupId txCandidates header rows H.
  unfold MuMimoMimoCandidatesSelected in H.
  apply bind_Done_inv in H as (h & Hh & H).
  destruct txCandidates as [|first rest]; [discriminate|].
  apply bind_Done_inv in H as (rs & Hrows & H). injection H as <- <-.
  pose proof (u8_range (Z.of_nat (length (first :: rest)))) as Hna.
  pose proof (u8_range (Z.of_nat (length (snd first)))) as Hnc.
  split.
  - unfold candidates_header in Hh.
    destruct (Z.eq_dec (u8 (Z.of_nat (length (first :: rest)))) 255) as [E|E].
    { exfalso. rewrite E in Hh. revert Hh.
      apply (for_u8_diverges _ _ _ 256 (leb_as_ltb 255)); lia. }
    apply (for_u8_Done _ _ _ (u8 (Z.of_nat (length (first :: rest))) + 1)
             (leb_as_ltb _)) in Hh; try lia.
    rewrite (ofold_append _ _
               (fun i => [HIndexed "ANTENNA_ID" (u16 i);
                          HIndexed "SECTOR_ID" (u16 i)])) in Hh.
    replace (u8 (Z.of_nat (length (first :: rest))) + 1 - 1)
      with (u8 (Z.of_nat (length (first :: rest)))) in Hh by lia.
    injection Hh as <-. reflexivity.
  - exists first, rest. split; [reflexivity|].
    apply (for_u8_Done _ _ _ (u8 (Z.of_nat (length (snd first))))
             (fun i => eq_refl)) in Hrows; try lia.
    rewrite Z.sub_0_r in Hrows.
    change (ofold (candidate_rows_body env parameters (first :: rest))
              (zseq 0 (Z.to_nat (u8 (Z.of_nat (length (snd first)))))) []
            = Done rs) in Hrows.
    rewrite candidate_rows_collect in Hrows. apply omapM_Done in Hrows.
    split.
    + apply Forall2_length in Hrows. now rewrite zseq_length in Hrows.
    + intros i row Hi.
      destruct (Forall2_nth_error_r _ _ _ _ _ _ _ Hrows Hi) as (z & Hz & Hl).
      apply nth_error_zseq in Hz. rewrite Z.add_0_l in Hz. subst z.
      unfold candidate_line in Hl.
      apply bind_Done_inv in Hl as (cells & Hc & Hl). injection Hl as <-.
      cbn [cand_src cand_dst cand_trace cand_cells]. repeat split.
      rewrite candidate_cells_collect in Hc. apply omapM_Done in Hc.
      eapply Forall2_impl; [|exact Hc]. intros it cell Hcell.
      unfold candidate_cell in Hcell.
      apply bind_Done_inv in Hcell as (s & Hs & Hcell). injection Hcell as <-.
      apply vec_at_Done in Hs as (_ & Hs). rewrite Nat2Z.id in Hs. eauto.
Qed.

(** ** The packet counters *)

Definition is_MacTxDataFailed (ev : event) : bool :=
  match ev with EvMacTxDataFailed => true | _ => false end.

Definition is_PhyTxEnd (ev : event) : bool :=
  match ev with EvPhyTxEnd => true | _ => false end.

Definition is_PhyRxDrop (ev : event) : bool :=
  match ev with EvPhyRxDrop => true | _ => false end.

Definition is_PhyRxEnd (ev : event) : bool :=
  match ev with EvPhyRxEnd => true | _ => false end.

Lemma u64_succ (a n : Z) : u64 (u64 (a + 1) + n) = u64 (a + (n + 1)).
Proof.
  unfold u64. rewrite Zplus_mod_idemp_l. f_equal. lia.
Qed.

Lemma u64_idem (a : Z) : u64 (u64 a) = u64 a.
Proof. unfold u64. apply Zmod_mod. Qed.

Lemma dispatch_counters (fuel : nat) (ev : event) (w w' : world) :
  dispatch fuel ev w = Done w' ->
  macTxDataFailed w'
  = (if is_MacTxDataFailed ev then u64 (macTxDataFailed w + 1)
     else macTxDataFailed w)
  /\ transmittedPackets w'
     = (if is_PhyTxEnd ev then u64 (transmittedPackets w + 1)
        else transmittedPackets w)
  /\ droppedPackets w'
     = (if is_PhyRxDrop ev then u64 (droppedPackets w + 1)
        else droppedPackets w)
  /\ receivedPackets w'
     = (if is_PhyRxEnd ev then u64 (receivedPackets w + 1)
        else receivedPackets w).
Proof.
  intros Hd. dispatch_cases ev w Hd;
    cbn [is_MacTxDataFailed is_PhyTxEnd is_PhyRxDrop is_PhyRxEnd];
    try (repeat split; reflexivity).
  - unfold SLSCompleted. cbn [csv write_sls].
    destruct (csv w), (accessPeriod attributes); repeat split; reflexivity.
  - unfold DataTransmissionIntervalStarted.
    destruct (isAssociated && firstDti1 w), (isAssociated && firstDti2 w);
      repeat split; reflexivity.
Qed.

(** A counter that only the callbacks recognised by [is_ev] increment. *)
Lemma run_counts (c : world -> Z) (is_ev : event -> bool) (fuel : nat) :
  (forall ev w w',
      dispatch fuel ev w = Done w' ->
      c w' = if is_ev ev then u64 (c w + 1) else c w) ->
  forall (evs : list event) (w w' : world),
    run fuel evs w = Done w' ->
    c w = u64 (c w) ->
    c w' = u64 (c w + Z.of_nat (length (filter is_ev evs))).
Proof.
  intros Hstep. unfold run.
  induction evs as [|ev evs IH]; intros w w' H Hr.
  - injection H as <-. simpl. now rewrite Z.add_0_r.
  - simpl in H. apply bind_Done_inv in H as (w1 & H1 & H).
    apply Hstep in H1. cbn [filter].
    destruct (is_ev ev).
    + rewrite (IH w1 w' H) by (rewrite H1; now rewrite u64_idem).
      rewrite H1. cbn [length]. rewrite u64_succ. f_equal. lia.
    + rewrite (IH w1 w' H) by congruence. now rewrite H1.
Qed.

(** X11: over any run of callbacks from the initial values, each of the
    four packet counters holds the number of calls of its own callback so
    far, modulo 2^64 (the counters are [uint64_t]); no other callback
    changes a counter. *)
Theorem counters_count_their_callbacks :
  forall (fuel : nat) (evs : list event) (csvFlag : bool) (K ap : Z)
         (w : world),
    run fuel evs (initial_world csvFlag K ap) = Done w ->
    macTxDataFailed w
    = u64 (Z.of_nat (length (filter is_MacTxDataFailed evs)))
    /\ transmittedPackets w
       = u64 (Z.of_nat (length (filter is_PhyTxEnd evs)))
    /\ droppedPackets w
       = u64 (Z.of_nat (length (filter is_PhyRxDrop evs)))
    /\ receivedPackets w
       = u64 (Z.of_nat (length (filter is_PhyRxEnd evs))).
Proof.
  intros fuel evs csvFlag K ap w H.
  repeat split.
  - apply (run_counts macTxDataFailed is_MacTxDataFailed fuel) in H;
      [exact H| |reflexivity].
    intros ev w1 w2 Hd. now apply dispatch_counters in Hd.
  - apply (run_counts transmittedPackets is_PhyTxEnd fuel) in H;
      [exact H| |reflexivity].
    intros ev w1 w2 Hd. now apply dispatch_counters in Hd.
  - apply (run_counts droppedPackets is_PhyRxDrop fuel) in H;
      [exact H| |reflexivity].
    intros ev w1 w2 Hd. now apply dispatch_counters in Hd.
  - apply (run_counts receivedPackets is_PhyRxEnd fuel) in H;
      [exact H| |reflexivity].
    intros ev w1 w2 Hd. now apply dispatch_counters in Hd.
Qed.

End Handlers.

Arguments Build_mimo_row {dB}.
Arguments row_src {dB}.
Arguments row_dst {dB}.
Arguments row_trace {dB}.
Arguments row_tx {dB}.
Arguments row_rx {dB}.
Arguments row_snr {dB}.
Arguments row_min {dB}.
Arguments Build_siso_row {dB}.
Arguments siso_src {dB}.
Arguments siso_dst {dB}.
Arguments siso_trace {dB}.
Arguments siso_f1 {dB}.
Arguments siso_f2 {dB}.
Arguments siso_f3 {dB}.
Arguments siso_snr {dB}.
Arguments siso_time {dB}.
Arguments fetch_measurements {ratio snr_tag}.
Arguments snr_cells {ratio dB} RatioToDb {snr_tag}.
Arguments write_row {ratio dB} RatioToDb {snr_tag MIMO_ANTENNA_COMBINATIONS_LIST}.
Arguments drain_step {ratio dB} RatioToDb {snr_tag MIMO_ANTENNA_COMBINATIONS_LIST}.
Arguments drain_loop {ratio} ratio_ltb {dB} RatioToDb
  {snr_tag MIMO_ANTENNA_COMBINATIONS_LIST}.
Arguments MuMimoMimoPhaseMeasurements {ratio} ratio_ltb {dB} RatioToDb
  {snr_tag MIMO_ANTENNA_COMBINATIONS_LIST}.
Arguments MuMimoSisoPhaseMeasurements {ratio dB} RatioToDb
  {MIMO_ANTENNA_COMBINATIONS_LIST}.
Arguments MuMimoSisoPhaseComplete {ratio dB} RatioToDb
  {MIMO_ANTENNA_COMBINATIONS_LIST}.
Arguments siso_result_row {ratio dB} RatioToDb {MIMO_ANTENNA_COMBINATIONS_LIST}.
Arguments pq_top {ratio}.
Arguments pq_pop {ratio}.

(** ** Where the conversion to decibels happens *)

Section Conversion.

(** Linear ratios and decibel values are both [double] in the program.
    In this section the two type variables of the handlers are one type
    [num], so that a conversion applied before a comparison would be well
    typed; [num_ltb] stands for [operator<] and [zero] for [0.0]. *)
Variable num : Type.
Variable num_ltb : num -> num -> bool.
Variable RatioToDb : num -> num.
Variable zero : num.
Variable snr_tag : Type.
Variable MIMO_ANTENNA_COMBINATIONS_LIST : Type.

(** [operator<] is a strict weak ordering (no value is a NaN). *)
Hypothesis num_ltb_asym :
  forall a b, num_ltb a b = true -> num_ltb b a = false.
Hypothesis num_ltb_negtrans :
  forall a b c, num_ltb a b = false -> num_ltb b c = false ->
                num_ltb a c = false.

Lemma num_ltb_irrefl (a : num) : num_ltb a a = false.
Proof.
  destruct (num_ltb a a) eqn:E; auto. now rewrite (num_ltb_asym a a E) in E.
Qed.

(** *** The minimum per stream *)

(** Modelled from the spec: the min-per-stream reduction of the score
    reducer (section 4.4, step 2: minQuality = min over the
    nTxAntennas x nRxAntennas per-stream quality values for that pair),
    which the MAC layer, not under [src/], carries out when it fills the
    queue.  The values are compared as linear ratios. *)
Definition min_quality (vs : list num) : option num :=
  match vs with
  | [] => None
  | v :: vs' =>
      Some (fold_left (fun m x => if num_ltb x m then x else m) vs' v)
  end.

(** [m] is one of [vs] and none of [vs] is below it. *)
Definition least_of (m : num) (vs : list num) : Prop :=
  In m vs /\ Forall (fun v => num_ltb v m = false) vs.

Lemma fold_min_least (vs : list num) :
  forall (seen : list num) (m : num),
    least_of m seen ->
    least_of (fold_left (fun m x => if num_ltb x m then x else m) vs m)
      (seen ++ vs).
Proof.
  induction vs as [|x vs IH]; intros seen m (Hin & Hall).
  - rewrite app_nil_r. split; auto.
  - cbn [fold_left]. replace (seen ++ x :: vs) with ((seen ++ [x]) ++ vs)
      by (rewrite <- app_assoc; reflexivity).
    apply IH. rewrite Forall_forall in Hall.
    destruct (num_ltb x m) eqn:E; split.
    + apply in_or_app. right. now left.
    + apply Forall_forall. intros v Hv. apply in_app_or in Hv as [Hv|[<-|[]]].
      * apply (num_ltb_negtrans v m x); auto.
      * apply num_ltb_irrefl.
    + apply in_or_app. now left.
    + apply Forall_forall. intros v Hv. apply in_app_or in Hv as [Hv|[<-|[]]];
        auto.
Qed.

Lemma min_quality_least (vs : list num) (m : num) :
  min_quality vs = Some m -> least_of m vs.
Proof.
  destruct vs as [|v vs]; [discriminate|]. intros [= <-].
  apply (fold_min_least vs [v] v). split; [now left|].
  constructor; [apply num_ltb_irrefl|constructor].
Qed.

(** The linear value of the stream [jk] of the pair [e]: position
    [snd jk] of the block that the [fst jk]-th RX identifier addresses. *)
Definition stream_value (mimoMeasurements : MIMO_SNR_LIST num snr_tag)
    (rxCombinationsTested : Z) (e : SNR_MEASUREMENT_AWV_IDs num)
    (jk : Z * Z) (v : num) : Prop :=
  exists rxId block,
    nth_error (rx_ids num e) (Z.to_nat (fst jk)) = Some rxId
    /\ 0 <= (tx_id num e - 1) * rxCombinationsTested + (snd rxId - 1)
    /\ nth_error mimoMeasurements
         (Z.to_nat ((tx_id num e - 1) * rxCombinationsTested + (snd rxId - 1)))
       = Some block
    /\ nth_error (snd block) (Z.to_nat (snd jk)) = Some v.

(** The per-stream values of the pair [e], in the order of the columns. *)
Definition per_stream (mimoMeasurements : MIMO_SNR_LIST num snr_tag)
    (nTx nRx rxCombinationsTested : Z) (e : SNR_MEASUREMENT_AWV_IDs num)
    (vs : list num) : Prop :=
  Forall2 (stream_value mimoMeasurements rxCombinationsTested e)
    (stream_indices nTx nRx) vs.

(** The queue as the reducer of the spec fills it: the key of every
    element is the minimum of the element's per-stream values. *)
Definition keyed_by_min (mimoMeasurements : MIMO_SNR_LIST num snr_tag)
    (nTx nRx rxCombinationsTested : Z)
    (minSnr : SNR_MEASUREMENT_AWV_IDs_QUEUE num) : Prop :=
  forall e vs,
    In e minSnr ->
    per_stream mimoMeasurements nTx nRx rxCombinationsTested e vs ->
    min_quality vs = Some (min_snr num e).

(** The line [row] holds the conversions of the per-stream values of
    [e] and of its key. *)
Definition converted_line (mimoMeasurements : MIMO_SNR_LIST num snr_tag)
    (nTx nRx rxCombinationsTested : Z) (e : SNR_MEASUREMENT_AWV_IDs num)
    (row : mimo_row num) : Prop :=
  exists vs,
    per_stream mimoMeasurements nTx nRx rxCombinationsTested e vs
    /\ row_snr row = map RatioToDb vs
    /\ row_min row = RatioToDb (min_snr num e).

(** The same, the key being the least of the per-stream values: the
    [min_Stream_SNR] column is the conversion of the least linear value. *)
Definition reduced_then_converted
    (mimoMeasurements : MIMO_SNR_LIST num snr_tag)
    (nTx nRx rxCombinationsTested : Z) (e : SNR_MEASUREMENT_AWV_IDs num)
    (row : mimo_row num) : Prop :=
  exists vs,
    per_stream mimoMeasurements nTx nRx rxCombinationsTested e vs
    /\ least_of (min_snr num e) vs
    /\ row_snr row = map RatioToDb vs
    /\ row_min row = RatioToDb (min_snr num e).

Lemma Forall2_converted (A : Type) (P : A -> num -> Prop) (l : list A)
    (ds : list num) :
  Forall2 (fun a d => exists v, P a v /\ d = RatioToDb v) l ds ->
  exists vs, Forall2 P l vs /\ ds = map RatioToDb vs.
Proof.
  induction 1 as [|a d l ds (v & Hv & ->) _ (vs & Hvs & ->)].
  - exists []. split; constructor.
  - exists (v :: vs). split; [constructor; auto|reflexivity].
Qed.

Lemma row_of_converted (env : sim_env)
    (parameters : MIMO_PARAMETERS num MIMO_ANTENNA_COMBINATIONS_LIST)
    (from : Mac48Address) (mimoMeasurements : MIMO_SNR_LIST num snr_tag)
    (nTx nRx rxC : Z) (e : SNR_MEASUREMENT_AWV_IDs num) (row : mimo_row num) :
  is_u8 rxC -> wf_entry num e ->
  Z.of_nat (length mimoMeasurements) <= size_max ->
  row_of num num RatioToDb snr_tag MIMO_ANTENNA_COMBINATIONS_LIST env
    parameters from mimoMeasurements nTx nRx rxC e = Done row ->
  converted_line mimoMeasurements nTx nRx rxC e row.
Proof.
  intros HC Hwf Hmax H.
  pose proof (row_of_min _ _ _ _ _ _ _ _ _ _ _ _ _ _ H) as Hmin.
  apply row_of_emitted in H; auto. unfold emitted_from_sweep in H.
  assert (H' : Forall2
                 (fun jk d =>
                    exists v, stream_value mimoMeasurements rxC e jk v
                              /\ d = RatioToDb v)
                 (stream_indices nTx nRx) (row_snr row)).
  { eapply Forall2_impl_In; [|exact H].
    intros jk d _ (rxId & block & v & H1 & H2 & H3 & H4 & H5).
    exists v. split; [|exact H5]. exists rxId, block. auto. }
  apply Forall2_converted in H' as (vs & Hvs & Hsnr).
  exists vs. auto.
Qed.

(** *** The ranking *)

(** An entry of the feedback map: its key holds the antenna
    ([std::get<0>]), the station and the sector ([std::get<2>]). *)
Definition fb_antenna (it : (Z * Z * Z) * num) : Z := fst (fst (fst it)).
Definition fb_sector (it : (Z * Z * Z) * num) : Z := snd (fst it).

(** Modelled from the spec: the order of the combination ranker
    (section 4.2: sort descending by quality; equal quality => prefer
    lower sectorId). *)
Definition ranks_before (x y : (Z * Z * Z) * num) : bool :=
  num_ltb (snd y) (snd x)
  || (negb (num_ltb (snd x) (snd y)) && (fb_sector x <=? fb_sector y)).

Fixpoint insert_ranked (x : (Z * Z * Z) * num)
    (l : list ((Z * Z * Z) * num)) : list ((Z * Z * Z) * num) :=
  match l with
  | [] => [x]
  | y :: l' =>
      if ranks_before x y then x :: y :: l' else y :: insert_ranked x l'
  end.

Definition sort_ranked (l : list ((Z * Z * Z) * num))
    : list ((Z * Z * Z) * num) :=
  fold_right insert_ranked [] l.

(** Modelled from the spec: a ratio of exactly 0 is an unmeasurable
    sector and is excluded from ranking (section 3). *)
Definition measured (it : (Z * Z * Z) * num) : bool :=
  num_ltb zero (snd it) || num_ltb (snd it) zero.

Definition antennas (feedbackMap : MIMO_FEEDBACK_MAP num) : list Z :=
  nodup Z.eq_dec (map fb_antenna feedbackMap).

(** Modelled from the spec: the ranking of the combination ranker
    (section 4.2), which [FindKBestCombinations] of the MAC layer, not
    under [src/], carries out before it expands the result into joint
    combinations: for each antenna, its measured sectors sorted
    descending by quality, the first [k] of them kept. *)
Definition rank (k : Z) (feedbackMap : MIMO_FEEDBACK_MAP num)
    : list (list ((Z * Z * Z) * num)) :=
  map (fun a =>
         firstn (Z.to_nat k)
           (sort_ranked
              (filter (fun it => (fb_antenna it =? a) && measured it)
                 feedbackMap)))
    (antennas feedbackMap).

(** A ranked list holds entries of the feedback map, none below a later
    one in linear ratio. *)
Definition ranked_by_ratio (feedbackMap : MIMO_FEEDBACK_MAP num)
    (l : list ((Z * Z * Z) * num)) : Prop :=
  StronglySorted (fun x y => num_ltb (snd x) (snd y) = false) l
  /\ incl l feedbackMap.

Lemma insert_ranked_In (x z : (Z * Z * Z) * num)
    (l : list ((Z * Z * Z) * num)) :
  In z (insert_ranked x l) -> z = x \/ In z l.
Proof.
  induction l as [|y l IH]; simpl.
  - intros [<-|[]]. now left.
  - destruct (ranks_before x y); simpl.
    + intros [<-|H]; auto.
    + intros [<-|H]; auto. destruct (IH H); auto.
Qed.

Lemma insert_ranked_sorted (x : (Z * Z * Z) * num)
    (l : list ((Z * Z * Z) * num)) :
  StronglySorted (fun x y => num_ltb (snd x) (snd y) = false) l ->
  StronglySorted (fun x y => num_ltb (snd x) (snd y) = false)
    (insert_ranked x l).
Proof.
  induction 1 as [|y l Hs IH Hall]; simpl.
  - constructor; constructor.
  - rewrite Forall_forall in Hall.
    destruct (ranks_before x y) eqn:E; unfold ranks_before in E.
    + assert (Hxy : num_ltb (snd x) (snd y) = false).
      { destruct (num_ltb (snd y) (snd x)) eqn:E1; [auto|].
        simpl in E. apply andb_true_iff in E as (E & _).
        now apply negb_true_iff in E. }
      constructor; [constructor; auto; now apply Forall_forall|].
      constructor; auto. apply Forall_forall. intros z Hz.
      apply (num_ltb_negtrans (snd x) (snd y) (snd z)); auto.
    + apply orb_false_iff in E as (Hyx & _).
      constructor; auto. apply Forall_forall. intros z Hz.
      apply insert_ranked_In in Hz as [->|Hz]; auto.
Qed.

Lemma sort_ranked_sorted (l : list ((Z * Z * Z) * num)) :
  StronglySorted (fun x y => num_ltb (snd x) (snd y) = false) (sort_ranked l).
Proof.
  induction l as [|x l IH]; simpl; [constructor|].
  now apply insert_ranked_sorted.
Qed.

Lemma sort_ranked_In (z : (Z * Z * Z) * num) (l : list ((Z * Z * Z) * num)) :
  In z (sort_ranked l) -> In z l.
Proof.
  induction l as [|x l IH]; simpl; auto.
  intros H. apply insert_ranked_In in H as [->|H]; auto.
Qed.

Lemma firstn_In (A : Type) (n : nat) (l : list A) (x : A) :
  In x (firstn n l) -> In x l.
Proof.
  intros H. rewrite <- (firstn_skipn n l). apply in_or_app. now left.
Qed.

Lemma StronglySorted_firstn (A : Type) (R : A -> A -> Prop) (l : list A) :
  StronglySorted R l -> forall n, StronglySorted R (firstn n l).
Proof.
  induction 1 as [|x l Hs IH Hall]; intros n.
  - rewrite firstn_nil. constructor.
  - destruct n as [|n]; simpl; constructor; auto.
    rewrite Forall_forall in *. intros y Hy. apply Hall.
    now apply (firstn_In _ n).
Qed.

Lemma rank_ranked (k : Z) (feedbackMap : MIMO_FEEDBACK_MAP num) :
  Forall (ranked_by_ratio feedbackMap) (rank k feedbackMap).
Proof.
  unfold rank. apply Forall_forall. intros l Hl.
  apply in_map_iff in Hl as (a & <- & _). split.
  - apply StronglySorted_firstn. apply sort_ranked_sorted.
  - intros z Hz. apply firstn_In in Hz. apply sort_ranked_In in Hz.
    now apply filter_In in Hz as (Hz & _).
Qed.

(** C6: comparisons and orderings are made on linear ratios, and
    [RatioToDb] is applied to a value only as it is written to a trace.

    The reduction: the lines are written in the order the queue yields
    its elements, none below a later one in its linear key; the SNR
    columns of a line are the conversions of the linear per-stream values
    of its pair and its last column is the conversion of the element's
    key.  When the queue was filled as the spec's reducer fills it, the
    key is the least of those linear values: the reduction comes first
    and the conversion of its result is what the last column holds.

    The SISO traces: each line's SNR field is the conversion of the
    ratio of its map entry.  The ranking is requested on the feedback
    map as it was received; with the spec's ranking in the MAC layer, the
    candidates handed to the MIMO phase are the expansion of lists of
    entries of that map, ranked by linear ratio. *)
Theorem decibels_only_when_written :
  (forall (fuel : nat) (env : sim_env)
          (parameters : MIMO_PARAMETERS num MIMO_ANTENNA_COMBINATIONS_LIST)
          (from : Mac48Address) (mimoMeasurements : MIMO_SNR_LIST num snr_tag)
          (minSnr : SNR_MEASUREMENT_AWV_IDs_QUEUE num)
          (differentRxConfigs : bool) (nTx nRx rxCombinationsTested : Z)
          (full reduced : mimo_stream num),
      is_u8 nTx -> is_u8 nRx -> is_u8 rxCombinationsTested ->
      Forall (wf_entry num) minSnr ->
      Z.of_nat (length mimoMeasurements) <= size_max ->
      MuMimoMimoPhaseMeasurements num_ltb RatioToDb fuel env parameters from
        mimoMeasurements minSnr differentRxConfigs nTx nRx rxCombinationsTested
      = Done (full, reduced) ->
      StronglySorted (not_below num num_ltb) (pq_drain num num_ltb minSnr)
      /\ Forall2
           (converted_line mimoMeasurements nTx nRx rxCombinationsTested)
           (pq_drain num num_ltb minSnr) (snd full)
      /\ Forall2
           (converted_line mimoMeasurements nTx nRx rxCombinationsTested)
           (reduced_entries num differentRxConfigs []
              (pq_drain num num_ltb minSnr))
           (snd reduced)
      /\ (keyed_by_min mimoMeasurements nTx nRx rxCombinationsTested minSnr ->
          Forall2
            (reduced_then_converted mimoMeasurements nTx nRx
               rxCombinationsTested)
            (pq_drain num num_ltb minSnr) (snd full)
          /\ Forall2
               (reduced_then_converted mimoMeasurements nTx nRx
                  rxCombinationsTested)
               (reduced_entries num differentRxConfigs []
                  (pq_drain num num_ltb minSnr))
               (snd reduced)))
  /\ (forall (env : sim_env)
             (parameters : MIMO_PARAMETERS num MIMO_ANTENNA_COMBINATIONS_LIST)
             (from : Mac48Address) (measurementsMap : MU_MIMO_SNR_MAP num),
         map siso_snr
           (MuMimoSisoPhaseMeasurements RatioToDb env parameters from
              measurementsMap)
         = map (fun it => RatioToDb (snd it)) measurementsMap)
  /\ (forall (env : sim_env)
             (parameters : SLS_PARAMETERS num MIMO_ANTENNA_COMBINATIONS_LIST)
             (feedbackMap : MIMO_FEEDBACK_MAP num) (nTx nRx : Z)
             (w : world num MIMO_ANTENNA_COMBINATIONS_LIST)
             (expand : Z -> Z -> list (list ((Z * Z * Z) * num)) ->
                       MIMO_ANTENNA_COMBINATIONS_LIST),
         (forall k t r m,
             FindKBestCombinations num MIMO_ANTENNA_COMBINATIONS_LIST
               (wifiMac num MIMO_ANTENNA_COMBINATIONS_LIST parameters) k t r m
             = expand t r (rank k m)) ->
         map siso_snr
           (fst (MuMimoSisoPhaseComplete RatioToDb env parameters feedbackMap
                   nTx nRx w))
         = map (fun it => RatioToDb (snd it)) feedbackMap
         /\ new_calls num MIMO_ANTENNA_COMBINATIONS_LIST w
              (snd (MuMimoSisoPhaseComplete RatioToDb env parameters
                      feedbackMap nTx nRx w))
            = [CallFindKBestCombinations num MIMO_ANTENNA_COMBINATIONS_LIST
                 (GetAddress num MIMO_ANTENNA_COMBINATIONS_LIST
                    (wifiMac num MIMO_ANTENNA_COMBINATIONS_LIST parameters))
                 (kBestCombinations num MIMO_ANTENNA_COMBINATIONS_LIST w)
                 nTx nRx feedbackMap;
               CallAppendAwvsForSuMimoBFT_27 num MIMO_ANTENNA_COMBINATIONS_LIST
                 (GetAddress num MIMO_ANTENNA_COMBINATIONS_LIST
                    (wifiMac num MIMO_ANTENNA_COMBINATIONS_LIST parameters));
               CallStartMuMimoMimoPhase num MIMO_ANTENNA_COMBINATIONS_LIST
                 (GetAddress num MIMO_ANTENNA_COMBINATIONS_LIST
                    (wifiMac num MIMO_ANTENNA_COMBINATIONS_LIST parameters))
                 (expand nTx nRx
                    (rank (kBestCombinations num MIMO_ANTENNA_COMBINATIONS_LIST w)
                       feedbackMap))
                 false]
         /\ Forall (ranked_by_ratio feedbackMap)
              (rank (kBestCombinations num MIMO_ANTENNA_COMBINATIONS_LIST w)
                 feedbackMap)).
Proof.
  split; [|split].
  - intros fuel env parameters from mimoMeasurements minSnr flag nTx nRx rxC
      full reduced HT HR HC Hwf Hmax H.
    apply reduction_Done in H as (_ & _ & _ & _ & Hf & Hr); auto.
    rewrite Forall_forall in Hwf.
    assert (Hfull : Forall2 (converted_line mimoMeasurements nTx nRx rxC)
                      (pq_drain num num_ltb minSnr) (snd full)).
    { eapply Forall2_impl_In; [|exact Hf]. intros e row He Hrow.
      apply (row_of_converted env parameters from); auto.
      apply Hwf. now apply pq_drain_In in He. }
    assert (Hred : Forall2 (converted_line mimoMeasurements nTx nRx rxC)
                     (reduced_entries num flag [] (pq_drain num num_ltb minSnr))
                     (snd reduced)).
    { eapply Forall2_impl_In; [|exact Hr]. intros e row He Hrow.
      apply (row_of_converted env parameters from); auto.
      apply Hwf. apply reduced_entries_In in He. now apply pq_drain_In in He. }
    split; [now apply pq_drain_sorted|]. split; [exact Hfull|].
    split; [exact Hred|].
    intros Hkey.
    assert (Hleast : forall e row,
               In e minSnr ->
               converted_line mimoMeasurements nTx nRx rxC e row ->
               reduced_then_converted mimoMeasurements nTx nRx rxC e row).
    { intros e row He (vs & Hvs & Hsnr & Hmin). exists vs.
      split; [exact Hvs|]. split; [|auto].
      apply min_quality_least. now apply Hkey. }
    split.
    + eapply Forall2_impl_In; [|exact Hfull]. intros e row He Hc.
      apply Hleast; auto. now apply pq_drain_In in He.
    + eapply Forall2_impl_In; [|exact Hred]. intros e row He Hc.
      apply Hleast; auto.
      apply reduced_entries_In in He. now apply pq_drain_In in He.
  - intros. unfold MuMimoSisoPhaseMeasurements. rewrite map_map. reflexivity.
  - intros env parameters feedbackMap nTx nRx w expand Hrank. split; [|split].
    + unfold MuMimoSisoPhaseComplete. cbn [fst]. rewrite map_map.
      apply map_ext. intros [[[g0 g1] g2] v]. reflexivity.
    + rewrite siso_complete_calls. now rewrite Hrank.
    + apply rank_ranked.
Qed.

End Conversion.

(** * A concrete station and concrete runs *)

(** Ratios in integer units, and a stand-in for the conversion. *)
Definition ex_RatioToDb (r : Z) : Z := 10 * Z.log2 r.

Definition ex_mac (addr : Mac48Address) : DmgWifiMac Z (list Z) :=
  {| GetAddress := addr;
     GetTypeOfStation := 0;
     FindKBestCombinations := fun k _ _ fb =>
       map (fun it => snd (fst it)) (firstn (Z.to_nat k) fb);
     GetAntennaConfigurationShortSSW := fun cdown => (1, cdown);
     GetMimoConfigFromRxAwvId := fun rx _ =>
       map (fun p => ((fst p, snd p), 0)) rx;
     GetMimoConfigFromTxAwvId := fun tx _ => [((1, tx), 0)] |}.

Definition ex_env : sim_env :=
  {| GetCurrentTraceIndex := 0; NowNanoSeconds := 1000 |}.

Definition ex_mimo_parameters : MIMO_PARAMETERS Z (list Z) :=
  {| srcNodeID := 1; dstNodeID := 0;
     srcWifiMac := ex_mac 2; dstWifiMac := ex_mac 1 |}.

Definition ex_sls_parameters : SLS_PARAMETERS Z (list Z) :=
  {| sls_srcNodeID := 0; sls_dstNodeID := 1; wifiMac := ex_mac 1 |}.

(** Two TX and two RX combinations, one stream each; two pairs tie. *)
Definition ex_sweep : MIMO_SNR_LIST Z unit :=
  [(tt, [10]); (tt, [90]); (tt, [40]); (tt, [90])].

Definition ex_queue : SNR_MEASUREMENT_AWV_IDs_QUEUE Z :=
  [(10, (1, [(1, 1)])); (90, (1, [(1, 2)]));
   (40, (2, [(1, 1)])); (90, (2, [(1, 2)]))].

Definition ex_run (differentRxConfigs : bool)
    : outcome (mimo_stream Z * mimo_stream Z) :=
  MuMimoMimoPhaseMeasurements Z.ltb ex_RatioToDb 256 ex_env ex_mimo_parameters
    7 ex_sweep ex_queue differentRxConfigs 1 1 2.

Definition traces_of (o : outcome (mimo_stream Z * mimo_stream Z))
    : mimo_stream Z * mimo_stream Z :=
  match o with
  | Done out => out
  | _ => (([], []), ([], []))
  end.

Definition ex_traces : mimo_stream Z * mimo_stream Z :=
  Eval vm_compute in traces_of (ex_run false).

Lemma ex_queue_wf : Forall (wf_entry Z) ex_queue.
Proof.
  unfold ex_queue.
  repeat (constructor;
          [split; [unfold is_u16, tx_id; simpl; lia
                  |repeat constructor; unfold is_u16; simpl; lia]|]).
  constructor.
Qed.

Lemma Z_ltb_asym (a b : Z) : (a <? b) = true -> (b <? a) = false.
Proof. intros H. apply Z.ltb_lt in H. apply Z.ltb_ge. lia. Qed.

Lemma Z_ltb_negtrans (a b c : Z) :
  (a <? b) = false -> (b <? c) = false -> (a <? c) = false.
Proof. rewrite !Z.ltb_ge. lia. Qed.

(** The run of [ex_queue] over [ex_sweep] reads each line's SNR column
    at the index its identifiers give. *)
Lemma measurements_addressed_witness :
  Forall2 (emitted_from_sweep Z Z ex_RatioToDb unit ex_sweep 1 1 2)
    (pq_drain Z Z.ltb ex_queue) (snd (fst ex_traces))
  /\ Forall2 (emitted_from_sweep Z Z ex_RatioToDb unit ex_sweep 1 1 2)
       (reduced_entries Z false [] (pq_drain Z Z.ltb ex_queue))
       (snd (snd ex_traces)).
Proof.
  apply (measurements_addressed_by_combination_indices Z Z.ltb Z ex_RatioToDb
           unit (list Z) 256%nat ex_env ex_mimo_parameters 7 ex_sweep ex_queue
           false 1 1 2 (fst ex_traces) (snd ex_traces)).
  - unfold is_u8. lia.
  - unfold is_u8. lia.
  - unfold is_u8. lia.
  - exact ex_queue_wf.
  - unfold size_max. simpl. lia.
  - vm_compute. reflexivity.
Defined.

(** The same run: one line per txId in the reduced trace. *)
Lemma reduced_trace_witness :
  Forall2 (fun e row =>
             row_of Z Z ex_RatioToDb unit (list Z) ex_env ex_mimo_parameters 7
               ex_sweep 1 1 2 e = Done row)
    (pq_drain Z Z.ltb ex_queue) (snd (fst ex_traces))
  /\ NoDup (map (tx_id Z) (first_per_tx Z false [] (pq_drain Z Z.ltb ex_queue))).
Proof.
  destruct (reduced_trace_one_line_per_tx Z Z.ltb Z ex_RatioToDb unit (list Z)
              256%nat ex_env ex_mimo_parameters 7 ex_sweep ex_queue false
              1 1 2 (fst ex_traces) (snd ex_traces))
    as (H1 & _ & _ & _ & H5).
  - unfold is_u8. lia.
  - unfold is_u8. lia.
  - vm_compute. reflexivity.
  - split; [exact H1|exact (H5 eq_refl)].
Defined.

(** The same run: both traces descend. *)
Lemma traces_descend_witness :
  StronglySorted (not_below Z Z.ltb) (pq_drain Z Z.ltb ex_queue)
  /\ map row_min (snd (fst ex_traces))
     = map (fun e => ex_RatioToDb (min_snr Z e)) (pq_drain Z Z.ltb ex_queue)
  /\ StronglySorted (not_below Z Z.ltb)
       (reduced_entries Z false [] (pq_drain Z Z.ltb ex_queue))
  /\ map row_min (snd (snd ex_traces))
     = map (fun e => ex_RatioToDb (min_snr Z e))
         (reduced_entries Z false [] (pq_drain Z Z.ltb ex_queue)).
Proof.
  apply (traces_descend_by_min_snr Z Z.ltb Z ex_RatioToDb unit (list Z)
           Z_ltb_asym Z_ltb_negtrans 256%nat ex_env ex_mimo_parameters 7
           ex_sweep ex_queue false 1 1 2 (fst ex_traces) (snd ex_traces)).
  - unfold is_u8. lia.
  - unfold is_u8. lia.
  - vm_compute. reflexivity.
Defined.

(** The same run: four queued elements, four lines. *)
Lemma reduction_count_witness :
  length (snd (fst ex_traces)) = length ex_queue
  /\ (length (snd (snd ex_traces)) <= length ex_queue)%nat
  /\ (false = true -> length (snd (snd ex_traces)) = length ex_queue).
Proof.
  apply (reduction_writes_every_queued_entry Z Z.ltb Z ex_RatioToDb unit
           (list Z) 256%nat ex_env ex_mimo_parameters 7 ex_sweep ex_queue false
           1 1 2 (fst ex_traces) (snd ex_traces)).
  - unfold is_u8. lia.
  - unfold is_u8. lia.
  - vm_compute. reflexivity.
Defined.

(** ** A sweep shorter than the product of the combination counts *)

(** Three TX combinations and four RX combinations tested: twelve
    blocks are expected, ten are delivered. *)
Definition ex_txCombinations : list Z := [1; 2; 3].

Definition ex_short_sweep : MIMO_SNR_LIST Z unit :=
  map (fun v => (tt, [v])) [100; 95; 90; 85; 80; 75; 70; 65; 60; 55].

(** The queue holds the ten pairs whose block was delivered. *)
Definition ex_short_queue : SNR_MEASUREMENT_AWV_IDs_QUEUE Z :=
  [(100, (1, [(1, 1)])); (95, (1, [(1, 2)])); (90, (1, [(1, 3)]));
   (85, (1, [(1, 4)])); (80, (2, [(1, 1)])); (75, (2, [(1, 2)]));
   (70, (2, [(1, 3)])); (65, (2, [(1, 4)])); (60, (3, [(1, 1)]));
   (55, (3, [(1, 2)]))].

Definition ex_short_run (minSnr : SNR_MEASUREMENT_AWV_IDs_QUEUE Z)
    : outcome (mimo_stream Z * mimo_stream Z) :=
  MuMimoMimoPhaseMeasurements Z.ltb ex_RatioToDb 256 ex_env ex_mimo_parameters
    7 ex_short_sweep minSnr false 1 1 4.

(** C4, counterexample: with ten blocks where twelve are expected the
    reduction returns, and has written ten lines. *)
Lemma short_sweep_is_processed :
  Z.of_nat (length ex_short_sweep) <> Z.of_nat (length ex_txCombinations) * 4
  /\ exists full reduced,
       ex_short_run ex_short_queue = Done (full, reduced)
       /\ length (snd full) = 10%nat.
Proof.
  split; [vm_compute; discriminate|].
  eexists _, _. split; vm_compute; reflexivity.
Qed.

Lemma ex_short_queue_wf : Forall (wf_entry Z) ex_short_queue.
Proof.
  unfold ex_short_queue.
  repeat (constructor;
          [split; [unfold is_u16, tx_id; simpl; lia
                  |repeat constructor; unfold is_u16; simpl; lia]|]).
  constructor.
Qed.

(** The ten queued pairs address blocks the short sweep holds, and all
    their accesses are within range; the pair (3, 3) addresses block 10,
    which the short sweep lacks. *)
Lemma sweep_length_witness :
  (forall e, In e ex_short_queue ->
     accesses_in_range Z unit (list Z) ex_mimo_parameters 7 ex_short_sweep
       1 1 4 e)
  /\ ex_short_run ((50, (3, [(1, 3)])) :: ex_short_queue) = OutOfRange.
Proof.
  split.
  - destruct (sweep_length_is_not_checked Z Z.ltb Z ex_RatioToDb unit (list Z)
                256%nat ex_env ex_mimo_parameters 7 ex_short_sweep
                ex_short_queue false 1 1 4)
      as (H & _ & _).
    + lia.
    + lia.
    + lia.
    + unfold is_u8. lia.
    + exact ex_short_queue_wf.
    + unfold size_max. simpl. lia.
    + lia.
    + simpl. lia.
    + apply H. eexists. vm_compute. reflexivity.
  - destruct (sweep_length_is_not_checked Z Z.ltb Z ex_RatioToDb unit (list Z)
                256%nat ex_env ex_mimo_parameters 7 ex_short_sweep
                ((50, (3, [(1, 3)])) :: ex_short_queue) false 1 1 4)
      as (_ & _ & H).
    + lia.
    + lia.
    + lia.
    + unfold is_u8. lia.
    + constructor; [|exact ex_short_queue_wf].
      split; [unfold is_u16, tx_id; simpl; lia
             |repeat constructor; unfold is_u16; simpl; lia].
    + unfold size_max. simpl. lia.
    + lia.
    + simpl. lia.
    + apply H. exists (50, (3, [(1, 3)])), (1, 3).
      split; [now left|]. split; [now left|]. vm_compute. intros [_ Hlt].
      discriminate.
Defined.

(** ** More queued pairs than [kBestCombinations] *)

(** Four TX and four RX combinations: sixteen pairs. *)
Definition ex_pairs : list (Z * Z) :=
  flat_map (fun tx => map (fun rx => (tx, rx)) [1; 2; 3; 4]) [1; 2; 3; 4].

Definition ex_sweep16 : MIMO_SNR_LIST Z unit :=
  map (fun p => (tt, [100 * fst p + snd p])) ex_pairs.

Definition ex_queue16 : SNR_MEASUREMENT_AWV_IDs_QUEUE Z :=
  map (fun p => (100 * fst p + snd p, (fst p, [(1, snd p)]))) ex_pairs.

(** C5, counterexample: with the default K of 15 and sixteen pairs in
    the sweep and in the queue, the reduction writes sixteen lines. *)
Lemma reduction_exceeds_k_best :
  exists full reduced,
    MuMimoMimoPhaseMeasurements Z.ltb ex_RatioToDb 256 ex_env
      ex_mimo_parameters 7 ex_sweep16 ex_queue16 true 1 1 4
    = Done (full, reduced)
    /\ Z.of_nat (length (snd full))
       <> Z.min (kBestCombinations Z (list Z) (initial_world Z (list Z) false 15 0))
            (Z.of_nat (length ex_sweep16))
    /\ Z.of_nat (length (snd reduced))
       <> Z.min (kBestCombinations Z (list Z) (initial_world Z (list Z) false 15 0))
            (Z.of_nat (length ex_sweep16)).
Proof.
  eexists _, _. split; [vm_compute; reflexivity|].
  split; vm_compute; discriminate.
Qed.

(** ** The AWV append on SISO completion *)

Definition ex_feedback : MIMO_FEEDBACK_MAP Z :=
  [((1, 1, 5), 90); ((1, 1, 7), 40); ((2, 1, 3), 70)].

Definition ex_siso_calls : list (ext_call Z (list Z)) :=
  new_calls Z (list Z) (initial_world Z (list Z) false 15 0)
    (snd (MuMimoSisoPhaseComplete ex_RatioToDb ex_env ex_sls_parameters
            ex_feedback 2 1 (initial_world Z (list Z) false 15 0))).

(** C7, counterexample: the MIMO phase is started with the flag
    [false], and the AWVs were appended just before. *)
Lemma awvs_appended_though_flag_false :
  ex_siso_calls
  = [CallFindKBestCombinations Z (list Z) 1 15 2 1 ex_feedback;
     CallAppendAwvsForSuMimoBFT_27 Z (list Z) 1;
     CallStartMuMimoMimoPhase Z (list Z) 1 [5; 7; 3] false]
  /\ ~ (forall mac candidates flag,
          In (CallStartMuMimoMimoPhase Z (list Z) mac candidates flag)
            ex_siso_calls ->
          (existsb (is_AppendAwvs Z (list Z)) ex_siso_calls = true
           <-> flag = true)).
Proof.
  split; [vm_compute; reflexivity|].
  intros H. specialize (H 1 [5; 7; 3] false).
  assert (Hin : In (CallStartMuMimoMimoPhase Z (list Z) 1 [5; 7; 3] false)
                  ex_siso_calls).
  { vm_compute. right. right. left. reflexivity. }
  destruct (H Hin) as (H1 & _). discriminate H1. vm_compute. reflexivity.
Qed.

(** ** A run in CSV mode *)

Definition ex_attributes : SlsCompletionAttrbitutes :=
  {| peerStation := 2; accessPeriod := CHANNEL_ACCESS_DTI;
     sectorID := 5; antennaID := 1 |}.

Definition ex_csv_world : world Z (list Z) :=
  SLSCompleted Z (list Z) ex_env ex_sls_parameters ex_attributes
    (initial_world Z (list Z) true 15 0).

(** After an SLS completed in the DTI and the AP's DTI started, in CSV
    mode: no link counted, nothing scheduled. *)
Lemma csv_mode_witness :
  beamformedLinks Z (list Z) ex_csv_world = 0
  /\ (beamformedLinks Z (list Z) ex_csv_world =? 4) = false
  /\ existsb (is_StartMuMimoBeamforming Z (list Z))
       (calls Z (list Z) ex_csv_world) = false.
Proof.
  apply (csv_mode_never_starts_mu_mimo Z Z.ltb Z ex_RatioToDb unit (list Z)
           15 0 ex_csv_world).
  apply (reach_step Z Z.ltb Z ex_RatioToDb unit (list Z) _ ex_csv_world
           ex_csv_world 0%nat
           (EvDataTransmissionIntervalStartedAp Z unit (list Z) (ex_mac 1) [1])).
  - apply (reach_step Z Z.ltb Z ex_RatioToDb unit (list Z) _
             (initial_world Z (list Z) true 15 0) ex_csv_world 0%nat
             (EvSLSCompleted Z unit (list Z) ex_env ex_sls_parameters
                ex_attributes)).
    + apply reach_start.
    + reflexivity.
  - reflexivity.
Defined.

(** ** A candidate list longer than 255 *)

(** The first antenna has 256 candidates, the second none. *)
Definition ex_candidates : Antenna2SectorList :=
  [(1, repeat 5 256); (2, [])].

(** C10, counterexample: the count truncates to 0, no position is read,
    and the writer returns although the second list is shorter than the
    first. *)
Lemma candidates_writer_truncates_count :
  (exists out,
      MuMimoMimoCandidatesSelected Z (list Z) 256 ex_env ex_sls_parameters 0
        ex_candidates = Done out)
  /\ ~ candidates_full_length ex_candidates.
Proof.
  split.
  - eexists. vm_compute. reflexivity.
  - unfold candidates_full_length, ex_candidates. intros H.
    inversion H as [|? ? _ H2]. inversion H2 as [|? ? H3 _].
    cbn [snd] in H3. rewrite repeat_length in H3. simpl in H3. lia.
Qed.

(** ** A run through a SISO completion *)

Definition ex_siso_world : world Z (list Z) :=
  snd (MuMimoSisoPhaseComplete ex_RatioToDb ex_env ex_sls_parameters
         ex_feedback 2 1 (initial_world Z (list Z) false 15 0)).

(** After one SISO completion the requests made are the ranking, the
    append and the start, and a second completion would rank again. *)
Lemma siso_complete_witness :
  (forall (env : sim_env) (parameters : SLS_PARAMETERS Z (list Z))
          (feedbackMap : MIMO_FEEDBACK_MAP Z) (nTx nRx : Z),
      new_calls Z (list Z) ex_siso_world
        (snd (MuMimoSisoPhaseComplete ex_RatioToDb env parameters feedbackMap
                nTx nRx ex_siso_world))
      = [CallFindKBestCombinations Z (list Z)
           (GetAddress Z (list Z) (wifiMac Z (list Z) parameters))
           15 nTx nRx feedbackMap;
         CallAppendAwvsForSuMimoBFT_27 Z (list Z)
           (GetAddress Z (list Z) (wifiMac Z (list Z) parameters));
         CallStartMuMimoMimoPhase Z (list Z)
           (GetAddress Z (list Z) (wifiMac Z (list Z) parameters))
           (FindKBestCombinations Z (list Z) (wifiMac Z (list Z) parameters)
              15 nTx nRx feedbackMap)
           false])
  /\ start_follows_ranking Z (list Z) 15 (calls Z (list Z) ex_siso_world).
Proof.
  apply (siso_complete_ranks_then_starts_mimo Z Z.ltb Z ex_RatioToDb unit
           (list Z) false 15 0 ex_siso_world).
  apply (reach_step Z Z.ltb Z ex_RatioToDb unit (list Z) _
           (initial_world Z (list Z) false 15 0) ex_siso_world 0%nat
           (EvMuMimoSisoPhaseComplete Z unit (list Z) ex_env ex_sls_parameters
              ex_feedback 2 1)).
  - apply reach_start.
  - reflexivity.
Defined.

(** Two antennas with three candidates each: the writer returns; with
    the second list cut to two it throws. *)
Lemma candidates_writer_witness :
  (exists out,
      MuMimoMimoCandidatesSelected Z (list Z) 256 ex_env ex_sls_parameters 0
        [(1, [5; 7; 3]); (2, [4; 4; 9])] = Done out)
  /\ MuMimoMimoCandidatesSelected Z (list Z) 256 ex_env ex_sls_parameters 0
       [(1, [5; 7; 3]); (2, [4; 4])] = OutOfRange.
Proof.
  split.
  - apply (candidates_writer_returns_iff Z (list Z) ex_env ex_sls_parameters 0
             [(1, [5; 7; 3]); (2, [4; 4; 9])]).
    + simpl. lia.
    + unfold candidates_ok. repeat constructor; vm_compute; discriminate.
  - vm_compute. reflexivity.
Defined.


(** ** Runs of the callbacks *)

Definition ex_dti_completion : event Z unit (list Z) :=
  EvSLSCompleted Z unit (list Z) ex_env ex_sls_parameters ex_attributes.

Definition ex_ap_dti : event Z unit (list Z) :=
  EvDataTransmissionIntervalStartedAp Z unit (list Z) (ex_mac 0) [7].

Definition ex_sta_dti (isAssociated : bool) : event Z unit (list Z) :=
  EvDataTransmissionIntervalStarted Z unit (list Z) (ex_mac 1) isAssociated.

Definition world_after (evs : list (event Z unit (list Z)))
    (w : world Z (list Z)) : world Z (list Z) :=
  match run Z Z.ltb Z ex_RatioToDb unit (list Z) 256 evs w with
  | Done w' => w'
  | _ => w
  end.

(** 260 completed trainings: the 8-bit counter has wrapped to 4. *)
Definition ex_wrapped_events : list (event Z unit (list Z)) :=
  repeat ex_dti_completion 260.

Definition ex_wrapped_world : world Z (list Z) :=
  world_after ex_wrapped_events (initial_world Z (list Z) false 15 0).

Lemma ap_starts_training_witness :
  beamformedLinks Z (list Z) ex_wrapped_world
  = Z.of_nat (length (filter (is_SLSCompleted_in_DTI Z unit (list Z))
                        ex_wrapped_events)) mod 256
  /\ DataTransmissionIntervalStartedAp Z (list Z) (ex_mac 0) [7]
       ex_wrapped_world
     = Done
         (if (Z.of_nat (length (filter (is_SLSCompleted_in_DTI Z unit (list Z))
                                  ex_wrapped_events)) mod 256 =? 4)
             && negb (existsb (is_MuMimoMimoPhaseComplete Z unit (list Z))
                        ex_wrapped_events)
          then call Z (list Z) ex_wrapped_world
                 (CallSchedule_StartMuMimoBeamforming Z (list Z)
                    (GetAddress Z (list Z) (ex_mac 0)) 1 true 7)
          else ex_wrapped_world).
Proof.
  apply (ap_starts_training_at_four_links_mod_256 Z Z.ltb Z ex_RatioToDb unit
           (list Z) 256%nat ex_wrapped_events 15 0 ex_wrapped_world (ex_mac 0)
           7 []).
  vm_compute. reflexivity.
Defined.

(** Four links, the MIMO phase completes, and the run goes on. *)
Definition ex_four_links_world : world Z (list Z) :=
  world_after (repeat ex_dti_completion 4)
    (initial_world Z (list Z) false 15 0).

Definition ex_later_events : list (event Z unit (list Z)) :=
  [ex_ap_dti; ex_dti_completion; ex_ap_dti;
   EvMuMimoMimoPhaseComplete Z unit (list Z); ex_ap_dti].

Definition ex_later_world : world Z (list Z) :=
  world_after ex_later_events
    (MuMimoMimoPhaseComplete Z (list Z) ex_four_links_world).

Lemma no_training_after_complete_witness :
  muMimoCompleted Z (list Z) ex_later_world = true
  /\ filter (is_StartMuMimoBeamforming Z (list Z))
       (calls Z (list Z) ex_later_world)
     = filter (is_StartMuMimoBeamforming Z (list Z))
         (calls Z (list Z) ex_four_links_world).
Proof.
  apply (no_training_after_mimo_phase_complete Z Z.ltb Z ex_RatioToDb unit
           (list Z) ex_four_links_world ex_later_world).
  apply (run_reachable Z Z.ltb Z ex_RatioToDb unit (list Z) 256%nat
           ex_later_events).
  vm_compute. reflexivity.
Defined.

(** Five DTI starts of a station, one of them before it associated. *)
Definition ex_dti_events : list (event Z unit (list Z)) :=
  [ex_sta_dti false; ex_sta_dti true; ex_sta_dti true; ex_sta_dti true;
   ex_sta_dti true].

Definition ex_dti_world : world Z (list Z) :=
  world_after ex_dti_events (initial_world Z (list Z) false 15 0).

Lemma txss_requested_witness :
  length (filter (is_Perform_TXSS_TXOP Z (list Z))
            (calls Z (list Z) ex_dti_world))
  = (flag_spent (firstDti1 Z (list Z) ex_dti_world)
     + flag_spent (firstDti2 Z (list Z) ex_dti_world))%nat
  /\ (length (filter (is_Perform_TXSS_TXOP Z (list Z))
                (calls Z (list Z) ex_dti_world)) <= 2)%nat
  /\ (firstDti2 Z (list Z) ex_dti_world = false ->
      firstDti1 Z (list Z) ex_dti_world = false)
  /\ txss_then_append Z (list Z) (calls Z (list Z) ex_dti_world).
Proof.
  apply (txss_requested_once_per_flag Z Z.ltb Z ex_RatioToDb unit (list Z)
           false 15 0 ex_dti_world).
  apply (run_reachable Z Z.ltb Z ex_RatioToDb unit (list Z) 256%nat
           ex_dti_events).
  vm_compute. reflexivity.
Defined.

(** Two completed trainings in CSV mode, other callbacks in between. *)
Definition ex_csv_events : list (event Z unit (list Z)) :=
  [ex_dti_completion; EvMacRxOk Z unit (list Z); ex_sta_dti true;
   ex_dti_completion; ex_ap_dti].

Definition ex_csv_run_world : world Z (list Z) :=
  world_after ex_csv_events (initial_world Z (list Z) true 15 0).

Lemma sls_trace_witness :
  slsStream Z (list Z) ex_csv_run_world
  = slsStream Z (list Z) (initial_world Z (list Z) true 15 0)
    ++ flat_map
         (sls_lines_of Z unit (list Z)
            (apNodeId Z (list Z) (initial_world Z (list Z) true 15 0)))
         ex_csv_events.
Proof.
  apply (sls_trace_has_one_line_per_completion Z Z.ltb Z ex_RatioToDb unit
           (list Z) 256%nat ex_csv_events
           (initial_world Z (list Z) true 15 0) ex_csv_run_world).
  vm_compute. reflexivity.
Defined.

(** ** The lines of the MIMO traces *)

Lemma mimo_lines_witness :
  fst (fst ex_traces) = mimo_header_fields 1 1
  /\ fst (snd ex_traces) = fst (fst ex_traces)
  /\ (forall row : mimo_row Z,
        In row (snd (fst ex_traces)) \/ In row (snd (snd ex_traces)) ->
        length (row_tx row) = Z.to_nat 1
        /\ length (row_rx row) = Z.to_nat 1
        /\ length (row_snr row) = Z.to_nat (1 * 1)
        /\ row_fields Z row = length (fst (fst ex_traces))).
Proof.
  apply (mimo_lines_match_header Z Z.ltb Z ex_RatioToDb unit (list Z)
           256%nat ex_env ex_mimo_parameters 7 ex_sweep ex_queue false
           1 1 2 (fst ex_traces) (snd ex_traces)).
  - unfold is_u8. lia.
  - unfold is_u8. lia.
  - vm_compute. reflexivity.
Defined.

Lemma lines_identify_witness :
  Forall2
    (fun (e : SNR_MEASUREMENT_AWV_IDs Z) (row : mimo_row Z) =>
       let txCombination :=
         GetMimoConfigFromTxAwvId Z (list Z)
           (dstWifiMac Z (list Z) ex_mimo_parameters) (tx_id Z e)
           (GetAddress Z (list Z) (dstWifiMac Z (list Z) ex_mimo_parameters)) in
       let rxCombination :=
         GetMimoConfigFromRxAwvId Z (list Z)
           (srcWifiMac Z (list Z) ex_mimo_parameters) (rx_ids Z e) 7 in
       row_tx row = map config_fields (firstn (Z.to_nat 1) txCombination)
       /\ row_rx row = map config_fields (firstn (Z.to_nat 1) rxCombination)
       /\ (Z.to_nat 1 <= length txCombination)%nat
       /\ (Z.to_nat 1 <= length rxCombination)%nat
       /\ row_src row = u32 (srcNodeID Z (list Z) ex_mimo_parameters + 1)
       /\ row_dst row = u32 (dstNodeID Z (list Z) ex_mimo_parameters + 1)
       /\ row_trace row = GetCurrentTraceIndex ex_env)
    (pq_drain Z Z.ltb ex_queue) (snd (fst ex_traces)).
Proof.
  apply (lines_identify_the_combinations Z Z.ltb Z ex_RatioToDb unit (list Z)
           256%nat ex_env ex_mimo_parameters 7 ex_sweep ex_queue false
           1 1 2 (fst ex_traces) (snd ex_traces)).
  - unfold is_u8. lia.
  - unfold is_u8. lia.
  - vm_compute. reflexivity.
Defined.

(** Sixteen antennas on either side: 256 SNR columns. *)
Lemma reduction_never_returns_witness :
  MuMimoMimoPhaseMeasurements Z.ltb ex_RatioToDb 1000 ex_env
    ex_mimo_parameters 7 ex_sweep ex_queue false 16 16 2
  = Timeout.
Proof.
  apply (reduction_never_returns_beyond_uint8 Z Z.ltb Z ex_RatioToDb unit
           (list Z) 1000%nat ex_env ex_mimo_parameters 7 ex_sweep ex_queue
           false 16 16 2).
  - unfold is_u8. lia.
  - unfold is_u8. lia.
  - right. right. lia.
Defined.

Lemma every_queued_element_witness :
  (exists es : list (SNR_MEASUREMENT_AWV_IDs Z),
      Permutation es ex_queue
      /\ Forall2
           (fun e row =>
              row_of Z Z ex_RatioToDb unit (list Z) ex_env ex_mimo_parameters
                7 ex_sweep 1 1 2 e = Done row)
           es (snd (fst ex_traces)))
  /\ subsequence (snd (snd ex_traces)) (snd (fst ex_traces)).
Proof.
  apply (every_queued_element_written_once Z Z.ltb Z ex_RatioToDb unit
           (list Z) 256%nat ex_env ex_mimo_parameters 7 ex_sweep ex_queue
           false 1 1 2 (fst ex_traces) (snd ex_traces)).
  - unfold is_u8. lia.
  - unfold is_u8. lia.
  - vm_compute. reflexivity.
Defined.

(** ** The lines of the candidates trace *)

Definition ex_sector_candidates : Antenna2SectorList :=
  [(1, [5; 6]); (2, [7; 8; 9])].

Definition ex_candidate_trace : list header_field * list candidate_row :=
  Eval vm_compute in
    match MuMimoMimoCandidatesSelected Z (list Z) 256 ex_env ex_sls_parameters
            1 ex_sector_candidates with
    | Done out => out
    | _ => ([], [])
    end.

Lemma candidates_lines_witness :
  fst ex_candidate_trace
  = [HName "SRC_ID"; HName "DST_ID"; HName "TRACE_IDX"]
    ++ flat_map (fun i : Z => [HIndexed "ANTENNA_ID" (u16 i);
                               HIndexed "SECTOR_ID" (u16 i)])
         (zseq 1 (Z.to_nat (u8 (Z.of_nat (length ex_sector_candidates)))))
  /\ exists (first : AntennaID * list SectorID)
            (rest : list (AntennaID * list SectorID)),
       ex_sector_candidates = first :: rest
       /\ length (snd ex_candidate_trace)
          = Z.to_nat (u8 (Z.of_nat (length (snd first))))
       /\ (forall (i : nat) (row : candidate_row),
             nth_error (snd ex_candidate_trace) i = Some row ->
             cand_src row = u32 (sls_srcNodeID Z (list Z) ex_sls_parameters + 1)
             /\ cand_dst row
                = u32 (sls_dstNodeID Z (list Z) ex_sls_parameters + 1)
             /\ cand_trace row = GetCurrentTraceIndex ex_env
             /\ Forall2
                  (fun (it : Z * list Z) (cell : Z * Z) =>
                     exists s : Z,
                       nth_error (snd it) i = Some s
                       /\ cell = (u16 (fst it), u16 s))
                  ex_sector_candidates (cand_cells row)).
Proof.
  apply (candidates_lines_hold_sectors_by_position Z (list Z) 256%nat ex_env
           ex_sls_parameters 1 ex_sector_candidates (fst ex_candidate_trace)
           (snd ex_candidate_trace)).
  vm_compute. reflexivity.
Defined.


(** ** The packet counters in a run *)

Definition ex_packet_events : list (event Z unit (list Z)) :=
  [EvPhyTxEnd Z unit (list Z); ex_dti_completion; EvPhyRxEnd Z unit (list Z);
   EvPhyTxEnd Z unit (list Z); EvPhyRxDrop Z unit (list Z); ex_sta_dti true;
   EvMacTxDataFailed Z unit (list Z); EvPhyTxEnd Z unit (list Z)].

Definition ex_packet_world : world Z (list Z) :=
  world_after ex_packet_events (initial_world Z (list Z) false 15 0).

Lemma counters_count_witness :
  macTxDataFailed Z (list Z) ex_packet_world
  = u64 (Z.of_nat (length (filter (is_MacTxDataFailed Z unit (list Z))
                             ex_packet_events)))
  /\ transmittedPackets Z (list Z) ex_packet_world
     = u64 (Z.of_nat (length (filter (is_PhyTxEnd Z unit (list Z))
                                ex_packet_events)))
  /\ droppedPackets Z (list Z) ex_packet_world
     = u64 (Z.of_nat (length (filter (is_PhyRxDrop Z unit (list Z))
                                ex_packet_events)))
  /\ receivedPackets Z (list Z) ex_packet_world
     = u64 (Z.of_nat (length (filter (is_PhyRxEnd Z unit (list Z))
                                ex_packet_events))).
Proof.
  apply (counters_count_their_callbacks Z Z.ltb Z ex_RatioToDb unit (list Z)
           256%nat ex_packet_events false 15 0 ex_packet_world).
  vm_compute. reflexivity.
Defined.

(** ** Ratios that tie in decibels *)

(** One TX and two RX antennas, two TX combinations.  The stand-in
    conversion maps 90, 95, 100 and 120 to the same value. *)
Definition ex_tie_sweep : MIMO_SNR_LIST Z unit :=
  [(tt, [100; 1]); (tt, [2; 90]); (tt, [95; 3]); (tt, [4; 120])].

(** The per-stream values of the first pair are 100 and 90, those of the
    second 95 and 120. *)
Definition ex_tie_queue : SNR_MEASUREMENT_AWV_IDs_QUEUE Z :=
  [(90, (1, [(1, 1); (2, 2)])); (95, (2, [(1, 1); (2, 2)]))].

Definition ex_tie_traces : mimo_stream Z * mimo_stream Z :=
  Eval vm_compute in
    traces_of (MuMimoMimoPhaseMeasurements Z.ltb ex_RatioToDb 256 ex_env
                 ex_mimo_parameters 7 ex_tie_sweep ex_tie_queue false 1 2 2).

Lemma ex_tie_queue_wf : Forall (wf_entry Z) ex_tie_queue.
Proof.
  unfold ex_tie_queue.
  repeat (constructor;
          [split; [unfold is_u16, tx_id; simpl; lia
                  |repeat constructor; unfold is_u16; simpl; lia]|]).
  constructor.
Qed.

Lemma ex_tie_keyed : keyed_by_min Z Z.ltb unit ex_tie_sweep 1 2 2 ex_tie_queue.
Proof.
  intros e vs He H. unfold per_stream in H.
  change (stream_indices 1 2) with [(0, 0); (1, 1)] in H.
  inversion H as [|jk0 v0 l0 vs0 H0 Hrest]; subst.
  inversion Hrest as [|jk1 v1 l1 vs1 H1 Hnil]; subst.
  inversion Hnil; subst.
  destruct H0 as (rx0 & b0 & A0 & _ & B0 & C0).
  destruct H1 as (rx1 & b1 & A1 & _ & B1 & C1).
  destruct He as [<-|[<-|[]]];
    vm_compute in A0; injection A0 as <-;
    vm_compute in A1; injection A1 as <-;
    vm_compute in B0; injection B0 as <-;
    vm_compute in B1; injection B1 as <-;
    vm_compute in C0; injection C0 as <-;
    vm_compute in C1; injection C1 as <-;
    reflexivity.
Qed.

(** A station whose MAC layer ranks as the spec says; the expansion into
    joint combinations is left as the identity. *)
Definition ex_rank_mac (addr : Mac48Address)
    : DmgWifiMac Z (list (list ((Z * Z * Z) * Z))) :=
  {| GetAddress := addr;
     GetTypeOfStation := 0;
     FindKBestCombinations := fun k _ _ fb => rank Z Z.ltb 0 k fb;
     GetAntennaConfigurationShortSSW := fun cdown => (1, cdown);
     GetMimoConfigFromRxAwvId := fun rx _ =>
       map (fun p => ((fst p, snd p), 0)) rx;
     GetMimoConfigFromTxAwvId := fun tx _ => [((1, tx), 0)] |}.

Definition ex_rank_parameters
    : SLS_PARAMETERS Z (list (list ((Z * Z * Z) * Z))) :=
  {| sls_srcNodeID := 0; sls_dstNodeID := 1; wifiMac := ex_rank_mac 1 |}.

(** Sectors 1 and 2 of antenna 1 tie in decibels; sector 1 of antenna 2
    was not measured. *)
Definition ex_tie_feedback : MIMO_FEEDBACK_MAP Z :=
  [((1, 1, 1), 90); ((1, 1, 2), 100); ((1, 1, 3), 40);
   ((2, 1, 1), 0); ((2, 1, 4), 70)].

Definition ex_rank_world : world Z (list (list ((Z * Z * Z) * Z))) :=
  initial_world Z (list (list ((Z * Z * Z) * Z))) false 2 0.

(** The decibel columns tie, the lines are ordered by the linear keys;
    the candidates are ranked by the linear ratios. *)
Lemma decibels_witness :
  (map (min_snr Z) (pq_drain Z Z.ltb ex_tie_queue) = [95; 90]
   /\ map row_min (snd (fst ex_tie_traces)) = [60; 60]
   /\ StronglySorted (not_below Z Z.ltb) (pq_drain Z Z.ltb ex_tie_queue)
   /\ Forall2 (converted_line Z ex_RatioToDb unit ex_tie_sweep 1 2 2)
        (pq_drain Z Z.ltb ex_tie_queue) (snd (fst ex_tie_traces))
   /\ Forall2 (reduced_then_converted Z Z.ltb ex_RatioToDb unit ex_tie_sweep
                 1 2 2)
        (pq_drain Z Z.ltb ex_tie_queue) (snd (fst ex_tie_traces)))
  /\ (rank Z Z.ltb 0 2 ex_tie_feedback
      = [[((1, 1, 2), 100); ((1, 1, 1), 90)]; [((2, 1, 4), 70)]]
      /\ new_calls Z (list (list ((Z * Z * Z) * Z))) ex_rank_world
           (snd (MuMimoSisoPhaseComplete ex_RatioToDb ex_env ex_rank_parameters
                   ex_tie_feedback 1 2 ex_rank_world))
         = [CallFindKBestCombinations Z (list (list ((Z * Z * Z) * Z))) 1 2 1 2
              ex_tie_feedback;
            CallAppendAwvsForSuMimoBFT_27 Z (list (list ((Z * Z * Z) * Z))) 1;
            CallStartMuMimoMimoPhase Z (list (list ((Z * Z * Z) * Z))) 1
              (rank Z Z.ltb 0 2 ex_tie_feedback) false]
      /\ Forall (ranked_by_ratio Z Z.ltb ex_tie_feedback)
           (rank Z Z.ltb 0 2 ex_tie_feedback)).
Proof.
  split.
  - destruct (decibels_only_when_written Z Z.ltb ex_RatioToDb 0 unit (list Z)
                Z_ltb_asym Z_ltb_negtrans) as (H & _ & _).
    destruct (H 256%nat ex_env ex_mimo_parameters 7 ex_tie_sweep ex_tie_queue
                false 1 2 2 (fst ex_tie_traces) (snd ex_tie_traces))
      as (Hs & Hf & _ & Hm).
    + unfold is_u8. lia.
    + unfold is_u8. lia.
    + unfold is_u8. lia.
    + exact ex_tie_queue_wf.
    + unfold size_max. simpl. lia.
    + vm_compute. reflexivity.
    + split; [vm_compute; reflexivity|]. split; [vm_compute; reflexivity|].
      split; [exact Hs|]. split; [exact Hf|].
      exact (proj1 (Hm ex_tie_keyed)).
  - destruct (decibels_only_when_written Z Z.ltb ex_RatioToDb 0 unit
                (list (list ((Z * Z * Z) * Z))) Z_ltb_asym Z_ltb_negtrans)
      as (_ & _ & H).
    destruct (H ex_env ex_rank_parameters ex_tie_feedback 1 2 ex_rank_world
                (fun _ _ ranked => ranked))
      as (_ & Hc & Hr).
    + intros k t r m. reflexivity.
    + split; [vm_compute; reflexivity|]. split; [exact Hc|exact Hr].
Defined.
